(** * mcp-context-saver: discovery and coordination engines

    A shallow embedding of [src/analyzer.ts] (the discovery engine),
    [src/types.ts] (the zod schemas) and [src/wrapper.ts] (the coordination
    engine), and the properties of the specification proved about it.

    The peer (the MCP SDK client), the planner ([generateText]), the file
    system, the clock and the JSON codec of the JavaScript runtime are
    outside the repository: they are interfaces here ([Runtime], [Host]),
    and every theorem holds for all their implementations.  The engines
    themselves are programs in a state-and-exception monad over the state
    of that outside world; each request to a collaborator is recorded in a
    trace, so that "is called", "is never called" and "in this order" are
    statements about the trace. *)

From Stdlib Require Import DecimalString DecimalFacts DecimalPos DecimalN DecimalZ.
From Stdlib Require Import String Ascii List ZArith Lia Bool Arith.
Import ListNotations.
Open Scope string_scope.
Set Warnings "-register-all".

(* ================================================================== *)
(** ** JavaScript values, exceptions and the string operations used *)
(* ================================================================== *)

Module Js.

(** What [JSON.parse] can return, plus [undefined].  Numbers are the
    integral ones, taken exactly; an object keeps its fields in insertion
    order. *)
Inductive value : Type :=
| VUndefined
| VNull
| VBool (b : bool)
| VNum (z : Z)
| VStr (s : string)
| VArr (items : list value)
| VObj (fields : list (string * value)).

(** A thrown value: an [Error] instance with its message, or anything
    else, kept as what [String(error)] gives for it. *)
Inductive thrown : Type :=
| Err (message : string)
| NonErr (text : string).

(** [error instanceof Error ? error.message : String(error)] *)
Definition error_message (error : thrown) : string :=
  match error with
  | Err message => message
  | NonErr text => text
  end.

Definition result (A : Type) : Type := (thrown + A)%type.

(** Own property lookup; [undefined] when the key is absent. *)
Fixpoint lookup (k : string) (fields : list (string * value)) : value :=
  match fields with
  | [] => VUndefined
  | (k', v) :: rest => if String.eqb k k' then v else lookup k rest
  end.

(** [o[k] = v] on the fields of an object: a key already there keeps its
    position and takes the new value, a new key goes last. *)
Fixpoint set_field (k : string) (v : value) (fields : list (string * value))
  : list (string * value) :=
  match fields with
  | [] => [(k, v)]
  | (k', v') :: rest =>
      if String.eqb k k' then (k', v) :: rest
      else (k', v') :: set_field k v rest
  end.

(** [v.k]: a TypeError on [undefined] and [null], the own property on an
    object, [undefined] on the other values (none of the keys read by the
    engines is a prototype property of a JSON value). *)
Definition get (v : value) (k : string) : result value :=
  match v with
  | VUndefined =>
      inl (Err ("Cannot read properties of undefined (reading '" ++ k ++ "')"))
  | VNull =>
      inl (Err ("Cannot read properties of null (reading '" ++ k ++ "')"))
  | VObj fields => inr (lookup k fields)
  | _ => inr VUndefined
  end.

Definition nullish (v : value) : bool :=
  match v with
  | VUndefined | VNull => true
  | _ => false
  end.

(** ToBoolean *)
Definition truthy (v : value) : bool :=
  match v with
  | VUndefined | VNull => false
  | VBool b => b
  | VNum z => negb (z =? 0)%Z
  | VStr s => negb (String.eqb s "")
  | VArr _ | VObj _ => true
  end.

(** [a || b] *)
Definition or_else (a b : value) : value := if truthy a then a else b.

Definition string_of_nat (n : nat) : string :=
  NilEmpty.string_of_uint (Nat.to_uint n).

Definition string_of_Z (z : Z) : string :=
  NilZero.string_of_int (Z.to_int z).

Fixpoint join (sep : string) (parts : list string) : string :=
  match parts with
  | [] => ""
  | [p] => p
  | p :: rest => p ++ sep ++ join sep rest
  end.

(** [String(v)], as [Array.prototype.join] applies it to an element
    ([undefined] and [null] give the empty string there). *)
Fixpoint join_item (v : value) : string :=
  match v with
  | VUndefined | VNull => ""
  | VBool true => "true"
  | VBool false => "false"
  | VNum z => string_of_Z z
  | VStr s => s
  | VArr items => join "," (map join_item items)
  | VObj _ => "[object Object]"
  end.

(** The values a [for ... of] loop visits: the elements of an array, the
    characters of a string; any other value is not iterable. *)
Fixpoint chars (s : string) : list value :=
  match s with
  | EmptyString => []
  | String c rest => VStr (String c EmptyString) :: chars rest
  end.

Definition iterate (v : value) : result (list value) :=
  match v with
  | VArr items => inr items
  | VStr s => inr (chars s)
  | _ => inl (Err "value is not iterable")
  end.

(** Strings are sequences of code units below 256 (the Latin-1 range of a
    JavaScript string). *)

Definition is_upper (n : nat) : bool :=
  (((65 <=? n) && (n <=? 90)) ||
   ((192 <=? n) && (n <=? 222) && negb (n =? 215)))%nat.

Definition lower_char (c : ascii) : ascii :=
  let n := nat_of_ascii c in
  if is_upper n then ascii_of_nat (n + 32) else c.

(** [s.toLowerCase()] *)
Fixpoint toLowerCase (s : string) : string :=
  match s with
  | EmptyString => EmptyString
  | String c rest => String (lower_char c) (toLowerCase rest)
  end.

(** The class [\s]: TAB, LF, VT, FF, CR, SP and NBSP. *)
Definition is_space (c : ascii) : bool :=
  let n := nat_of_ascii c in
  (((9 <=? n) && (n <=? 13)) || (n =? 32) || (n =? 160))%nat.

(** [s.replace(/\s+/g, '-')]: scanning from the left, every maximal run of
    [\s] characters is one match and becomes one ['-'].  [in_run] tells
    that the previous character belonged to the match being replaced. *)
Fixpoint replace_spaces_from (in_run : bool) (s : string) : string :=
  match s with
  | EmptyString => EmptyString
  | String c rest =>
      if is_space c then
        if in_run then replace_spaces_from true rest
        else String "-" (replace_spaces_from true rest)
      else String c (replace_spaces_from false rest)
  end.

Definition replace_spaces (s : string) : string := replace_spaces_from false s.

End Js.
Export Js.

(* ================================================================== *)
(** ** The outside world and the monad of the engines *)
(* ================================================================== *)

Module Effects.

(** One request made to a collaborator: the peer client of the MCP SDK,
    the serving transport, the planner, the file system, the process. *)
Inductive event : Type :=
| EConnect (command : string) (args : list string)
| EListTools
| EListResources
| EListPrompts
| ECallTool (name arguments : value)
| EClientClose
| EServerConnect
| EServerClose
| EExit (code : Z)
| EGenerateText (prompt : string)
| EReadFile (path : string)
| EMkdir (path : string)
| EWriteFile (path data : string).

(** The pure built-ins of the runtime.  [JSON_stringify v] is
    [JSON.stringify(v, null, 2)], the only form the source uses. *)
Class Runtime : Type := {
  JSON_parse : string -> result value;
  JSON_stringify : value -> string;
  path_join : string -> string -> string;
  toISOString : Z -> string
}.

(** What the SDK validates a list response to: an object whose sequence
    the source still reads defensively ([tools.tools || []]). *)
Record ListToolsResult : Type := { lt_tools : option (list value) }.
Record ListResourcesResult : Type := { lr_resources : option (list value) }.
Record ListPromptsResult : Type := { lp_prompts : option (list value) }.
Record CallToolResult : Type := { content : value }.

(** The collaborators, as transitions of the world [W] they live in.  A
    request either resolves or rejects, and changes the world either way. *)
Class Host (W : Type) : Type := {
  env_OPENAI_API_KEY : W -> option string;
  process_cwd : W -> string;
  Date_now : W -> Z * W;
  client_connect : string -> list string -> W -> result unit * W;
  client_listTools : W -> result ListToolsResult * W;
  client_listResources : W -> result ListResourcesResult * W;
  client_listPrompts : W -> result ListPromptsResult * W;
  client_callTool : value -> value -> W -> result CallToolResult * W;
  client_close : W -> result unit * W;
  server_connect : W -> result unit * W;
  server_close : W -> result unit * W;
  generateText : string -> W -> result string * W;
  fs_readFile : string -> W -> result string * W;
  fs_mkdir : string -> W -> result unit * W;
  fs_writeFile : string -> string -> W -> result unit * W
}.

Record state (W : Type) : Type := mkState { world : W; trace : list event }.
Arguments mkState {W} _ _.
Arguments world {W} _.
Arguments trace {W} _.

(** A computation runs from a state to a value or a thrown exception, and
    a new state: effects made before a throw stay made. *)
Definition M (W A : Type) : Type := state W -> result A * state W.

Definition ret {W A} (a : A) : M W A := fun st => (inr a, st).
Definition throw {W A} (e : thrown) : M W A := fun st => (inl e, st).

Definition bind {W A B} (m : M W A) (k : A -> M W B) : M W B :=
  fun st =>
    match m st with
    | (inr a, st') => k a st'
    | (inl e, st') => (inl e, st')
    end.

Definition lift {W A} (r : result A) : M W A :=
  match r with
  | inr a => ret a
  | inl e => throw e
  end.

(** [try { m } catch (error) { handler }] *)
Definition try_catch {W A} (m : M W A) (handler : thrown -> M W A) : M W A :=
  fun st =>
    match m st with
    | (inr a, st') => (inr a, st')
    | (inl e, st') => handler e st'
    end.

(** [try { m } finally { cleanup }]: the cleanup runs on both exits; when
    it throws, its exception replaces the outcome of [m]. *)
Definition try_finally {W A} (m : M W A) (cleanup : M W unit) : M W A :=
  fun st =>
    match m st with
    | (r, st') =>
        match cleanup st' with
        | (inr _, st'') => (r, st'')
        | (inl e, st'') => (inl e, st'')
        end
    end.

(** The outcome of a request, kept as a value: a promise already started. *)
Definition attempt {W A} (m : M W A) : M W (result A) :=
  fun st => match m st with (r, st') => (inr r, st') end.

(** [await Promise.all([a, b, c])]: the three requests are all issued, in
    argument order, before any is awaited; the whole rejects when one does
    (the transport answers in order, so the first rejection is that of the
    earliest rejected request). *)
Definition Promise_all3 {W A B C} (a : M W A) (b : M W B) (c : M W C)
  : M W (A * B * C) :=
  bind (attempt a) (fun ra =>
  bind (attempt b) (fun rb =>
  bind (attempt c) (fun rc =>
    match ra, rb, rc with
    | inr x, inr y, inr z => ret (x, y, z)
    | inl e, _, _ => throw e
    | _, inl e, _ => throw e
    | _, _, inl e => throw e
    end))).

(** A request to a collaborator: logged, then answered by the world. *)
Definition request {W A} (ev : event) (oracle : W -> result A * W) : M W A :=
  fun st =>
    match oracle (world st) with
    | (r, w') => (r, mkState w' (trace st ++ [ev]))
    end.

(** A read of the world that is not a request (environment, clock). *)
Definition observe {W A} (f : W -> A * W) : M W A :=
  fun st => match f (world st) with (a, w') => (inr a, mkState w' (trace st)) end.

Definition run {W A} (m : M W A) (w : W) : result A * state W :=
  m (mkState w []).

End Effects.
Export Effects.

Declare Scope engine_scope.
Delimit Scope engine_scope with engine.
Notation "x <- m ;; k" := (bind m (fun x => k))
  (at level 61, m at next level, right associativity) : engine_scope.
Notation "m ;; k" := (bind m (fun _ => k))
  (at level 61, right associativity) : engine_scope.
Notation "' pat <- m ;; k" := (bind m (fun x => match x with pat => k end))
  (at level 61, pat pattern, m at next level, right associativity) : engine_scope.

(* ================================================================== *)
(** ** [src/types.ts] *)
(* ================================================================== *)

Module Types.

Record ServerCapabilities : Type := {
  tools : list value;
  resources : list value;
  prompts : list value
}.

Record Metadata : Type := {
  analyzedAt : string;
  toolCount : Z;
  resourceCount : Z;
  promptCount : Z
}.

(** [z.infer<typeof WrapperConfigSchema>] *)
Record WrapperConfig : Type := {
  name : string;
  description : string;
  serverPath : string;
  args : list string;
  systemPrompt : string;
  capabilities : ServerCapabilities;
  metadata : Metadata
}.

(** [z.infer<typeof ExpertToolSchema>] *)
Record ExpertToolInput : Type := {
  query : string;
  mode : option string
}.

Record ToolDefinition : Type := {
  td_name : string;
  td_description : string;
  td_inputSchema : value
}.

(** A [ZodError]; the message stands for its list of issues. *)
Definition ZodError (path expected : string) : thrown :=
  Err ("Invalid input at '" ++ path ++ "': expected " ++ expected).

Definition and_then {A B} (r : result A) (k : A -> result B) : result B :=
  match r with
  | inr a => k a
  | inl e => inl e
  end.

Notation "x <-? r ;; k" := (and_then r (fun x => k))
  (at level 61, r at next level, right associativity).

Definition z_string (path : string) (v : value) : result string :=
  match v with
  | VStr s => inr s
  | _ => inl (ZodError path "string")
  end.

Definition z_number (path : string) (v : value) : result Z :=
  match v with
  | VNum z => inr z
  | _ => inl (ZodError path "number")
  end.

Definition z_object (path : string) (v : value)
  : result (list (string * value)) :=
  match v with
  | VObj fields => inr fields
  | _ => inl (ZodError path "object")
  end.

(** [z.array(z.any())] *)
Definition z_array_any (path : string) (v : value) : result (list value) :=
  match v with
  | VArr items => inr items
  | _ => inl (ZodError path "array")
  end.

Fixpoint z_strings (path : string) (items : list value) : result (list string) :=
  match items with
  | [] => inr []
  | v :: rest =>
      s <-? z_string path v ;;
      ss <-? z_strings path rest ;;
      inr (s :: ss)
  end.

(** [z.array(z.string())] *)
Definition z_array_string (path : string) (v : value) : result (list string) :=
  items <-? z_array_any path v ;;
  z_strings path items.

(** [WrapperConfigSchema.parse]: every field is required and checked for
    its type; unknown keys are dropped.  The three counts are checked to
    be numbers and nothing more. *)
Definition WrapperConfigSchema_parse (v : value) : result WrapperConfig :=
  o <-? z_object "" v ;;
  name <-? z_string "name" (lookup "name" o) ;;
  description <-? z_string "description" (lookup "description" o) ;;
  serverPath <-? z_string "serverPath" (lookup "serverPath" o) ;;
  args <-? z_array_string "args" (lookup "args" o) ;;
  systemPrompt <-? z_string "systemPrompt" (lookup "systemPrompt" o) ;;
  c <-? z_object "capabilities" (lookup "capabilities" o) ;;
  tools <-? z_array_any "capabilities.tools" (lookup "tools" c) ;;
  resources <-? z_array_any "capabilities.resources" (lookup "resources" c) ;;
  prompts <-? z_array_any "capabilities.prompts" (lookup "prompts" c) ;;
  m <-? z_object "metadata" (lookup "metadata" o) ;;
  analyzedAt <-? z_string "metadata.analyzedAt" (lookup "analyzedAt" m) ;;
  toolCount <-? z_number "metadata.toolCount" (lookup "toolCount" m) ;;
  resourceCount <-? z_number "metadata.resourceCount" (lookup "resourceCount" m) ;;
  promptCount <-? z_number "metadata.promptCount" (lookup "promptCount" m) ;;
  inr {| name := name; description := description; serverPath := serverPath;
         args := args; systemPrompt := systemPrompt;
         capabilities := {| tools := tools; resources := resources;
                            prompts := prompts |};
         metadata := {| analyzedAt := analyzedAt; toolCount := toolCount;
                        resourceCount := resourceCount;
                        promptCount := promptCount |} |}.

(** [z.enum(['discover', 'execute', 'explain'])] *)
Definition is_mode (m : string) : bool :=
  String.eqb m "discover" || String.eqb m "execute" || String.eqb m "explain".

(** [ExpertToolSchema.parse]: [query] a string; [mode] absent or one of
    the three literals. *)
Definition ExpertToolSchema_parse (v : value) : result ExpertToolInput :=
  o <-? z_object "" v ;;
  query <-? z_string "query" (lookup "query" o) ;;
  mode <-? match lookup "mode" o with
           | VUndefined => inr None
           | VStr m =>
               if is_mode m then inr (Some m)
               else inl (ZodError "mode" "'discover' | 'execute' | 'explain'")
           | _ => inl (ZodError "mode" "'discover' | 'execute' | 'explain'")
           end ;;
  inr {| query := query; mode := mode |}.

End Types.
Export Types.

(* ================================================================== *)
(** ** [src/analyzer.ts]: the discovery engine *)
(* ================================================================== *)

Module Analyzer.

(** The JavaScript object that [analyzeServer] hands to
    [saveConfiguration].  Its interface ([ServerConfig]) types the three
    planner-authored fields as strings, but they come from
    [JSON.parse(response.text) as LLMAnalysis], a cast without a check:
    at run time they are whatever the planner's document holds. *)
Record ServerConfig : Type := {
  sc_name : value;
  sc_description : value;
  sc_serverPath : string;
  sc_args : list string;
  sc_systemPrompt : value;
  sc_capabilities : ServerCapabilities;
  sc_metadata : Metadata
}.

Record AnalysisResult : Type := {
  expertName : value;
  expertDescription : value;
  ar_systemPrompt : value;
  ar_capabilities : ServerCapabilities;
  configPath : string
}.

Definition capabilities_value (c : ServerCapabilities) : value :=
  VObj [("tools", VArr (tools c));
        ("resources", VArr (resources c));
        ("prompts", VArr (prompts c))].

Definition metadata_value (m : Metadata) : value :=
  VObj [("analyzedAt", VStr (analyzedAt m));
        ("toolCount", VNum (toolCount m));
        ("resourceCount", VNum (resourceCount m));
        ("promptCount", VNum (promptCount m))].

(** The object literal of [analyzeServer], field by field. *)
Definition ServerConfig_value (config : ServerConfig) : value :=
  VObj [("name", sc_name config);
        ("description", sc_description config);
        ("serverPath", VStr (sc_serverPath config));
        ("args", VArr (map VStr (sc_args config)));
        ("systemPrompt", sc_systemPrompt config);
        ("capabilities", capabilities_value (sc_capabilities config));
        ("metadata", metadata_value (sc_metadata config))].

(** [x || []] on a sequence the response may lack *)
Definition or_empty (o : option (list value)) : list value :=
  match o with
  | Some items => items
  | None => []
  end.

(** [name.toLowerCase()] on a value typed string by a cast only *)
Definition call_toLowerCase (v : value) : result string :=
  match v with
  | VStr s => inr (toLowerCase s)
  | VUndefined | VNull => and_then (get v "toLowerCase") (fun _ => inr "")
  | _ => inl (Err "config.name.toLowerCase is not a function")
  end.

Definition dq : string := String (ascii_of_nat 34) EmptyString.
Definition quoted (s : string) : string := dq ++ s ++ dq.

Section WithHost.
Context {W : Type} {rt : Runtime} {host : Host W}.
Local Open Scope engine_scope.

Definition validateEnvironment : M W unit :=
  key <- observe (fun w => (env_OPENAI_API_KEY w, w)) ;;
  match key with
  | Some k =>
      if String.eqb k "" then
        throw (Err "OPENAI_API_KEY environment variable is required")
      else ret tt
  | None => throw (Err "OPENAI_API_KEY environment variable is required")
  end.

(** The one client of a run is the peer interface of [Host]; the pair
    [{ client, transport }] the source returns is that handle. *)
Definition connectToServer (serverPath : string) (args : list string) : M W unit :=
  try_catch
    (request (EConnect serverPath args) (client_connect serverPath args))
    (fun error =>
       throw (Err ("Failed to connect to MCP server: " ++ error_message error))).

(** Console output is not modelled. *)
Definition discoverCapabilities : M W ServerCapabilities :=
  try_catch
    (toolsResponse <- request EListTools client_listTools ;;
     resourcesResponse <-
       try_catch (request EListResources client_listResources)
                 (fun _ => ret {| lr_resources := Some [] |}) ;;
     promptsResponse <-
       try_catch (request EListPrompts client_listPrompts)
                 (fun _ => ret {| lp_prompts := Some [] |}) ;;
     ret {| tools := or_empty (lt_tools toolsResponse);
            resources := or_empty (lr_resources resourcesResponse);
            prompts := or_empty (lp_prompts promptsResponse) |})
    (fun error => throw error).

Definition analysisPrompt (capabilities : ServerCapabilities) : string :=
  "
You are analyzing an MCP (Model Context Protocol) server's capabilities to generate an expert tool configuration.

The server provides the following capabilities:

TOOLS (" ++ string_of_nat (length (tools capabilities)) ++ "):
" ++ JSON_stringify (VArr (tools capabilities)) ++ "

RESOURCES (" ++ string_of_nat (length (resources capabilities)) ++ "):
" ++ JSON_stringify (VArr (resources capabilities)) ++ "

PROMPTS (" ++ string_of_nat (length (prompts capabilities)) ++ "):
" ++ JSON_stringify (VArr (prompts capabilities)) ++ "

Based on these capabilities, generate a JSON configuration with the following structure:
{
  " ++ quoted "expertName" ++ ": " ++ quoted "A concise, descriptive name for this expert (e.g., 'File System Expert', 'Database Manager')" ++ ",
  " ++ quoted "expertDescription" ++ ": " ++ quoted "A clear description of what this MCP server does and its primary capabilities" ++ ",
  " ++ quoted "systemPrompt" ++ ": " ++ quoted "A system prompt for an LLM to understand how to coordinate with this MCP server. Include key capabilities and usage guidance." ++ ",
  " ++ quoted "capabilities" ++ ": {
    " ++ quoted "tools" ++ ": [" ++ quoted "list" ++ ", " ++ quoted "of" ++ ", " ++ quoted "tool" ++ ", " ++ quoted "names" ++ "],
    " ++ quoted "resources" ++ ": [" ++ quoted "list" ++ ", " ++ quoted "of" ++ ", " ++ quoted "resource" ++ ", " ++ quoted "uris" ++ "],
    " ++ quoted "prompts" ++ ": [" ++ quoted "list" ++ ", " ++ quoted "of" ++ ", " ++ quoted "prompt" ++ ", " ++ quoted "names" ++ "]
  }
}

Generate ONLY valid JSON without any markdown formatting or additional text.".

(** The planner's document is parsed and returned as it is: the cast to
    [LLMAnalysis] checks nothing. *)
Definition analyzeWithLLM (capabilities : ServerCapabilities) : M W value :=
  try_catch
    (text <- request (EGenerateText (analysisPrompt capabilities))
                     (generateText (analysisPrompt capabilities)) ;;
     lift (JSON_parse text))
    (fun error =>
       throw (Err ("Failed to analyze server capabilities: "
                   ++ error_message error))).

Definition saveConfiguration (config : ServerConfig) : M W string :=
  cwd <- observe (fun w => (process_cwd w, w)) ;;
  let configDir := path_join cwd "configs" in
  request (EMkdir configDir) (fs_mkdir configDir) ;;
  lowered <- lift (call_toLowerCase (sc_name config)) ;;
  now <- observe Date_now ;;
  let configFileName :=
    replace_spaces lowered ++ "-" ++ string_of_Z now ++ ".json" in
  let configPath := path_join configDir configFileName in
  let data := JSON_stringify (ServerConfig_value config) in
  request (EWriteFile configPath data) (fs_writeFile configPath data) ;;
  ret configPath.

(** The statements of the [try] block that follow the connection. *)
Definition analyzeConnected (serverPath : string) (args : list string)
  : M W AnalysisResult :=
  capabilities <- discoverCapabilities ;;
  analysis <- analyzeWithLLM capabilities ;;
  name <- lift (get analysis "expertName") ;;
  description <- lift (get analysis "expertDescription") ;;
  systemPrompt <- lift (get analysis "systemPrompt") ;;
  now <- observe Date_now ;;
  configPath <- saveConfiguration
    {| sc_name := name;
       sc_description := description;
       sc_serverPath := serverPath;
       sc_args := args;
       sc_systemPrompt := systemPrompt;
       sc_capabilities := capabilities;
       sc_metadata :=
         {| analyzedAt := toISOString now;
            toolCount := Z.of_nat (length (tools capabilities));
            resourceCount := Z.of_nat (length (resources capabilities));
            promptCount := Z.of_nat (length (prompts capabilities)) |} |} ;;
  ret {| expertName := name;
         expertDescription := description;
         ar_systemPrompt := systemPrompt;
         ar_capabilities := capabilities;
         configPath := configPath |}.

(** [let client = null; try { ... } finally { if (client) await
    client.close(); }].  The variable [client] is assigned right after
    [connectToServer] resolves and nowhere else, so the [finally] block
    closes exactly when the connection was made: a failed connection
    leaves [client] null and propagates with nothing to close. *)
Definition analyzeServer (serverPath : string) (args : list string)
  : M W AnalysisResult :=
  validateEnvironment ;;
  connection <- attempt (connectToServer serverPath args) ;;
  match connection with
  | inl error => throw error
  | inr _ =>
      try_finally (analyzeConnected serverPath args)
                  (request EClientClose client_close)
  end.

End WithHost.
End Analyzer.

(* ================================================================== *)
(** ** [src/wrapper.ts]: the coordination engine *)
(* ================================================================== *)

Module Wrapper.

Import Analyzer.

(** A [tools/call] request as the SDK hands it to the handler;
    [params_arguments] is [VUndefined] when the caller sent none. *)
Record CallToolRequest : Type := {
  params_name : string;
  params_arguments : value
}.

(** What [startWrapperServer] leaves registered: the handlers close over
    the loaded configuration and the tool derived from it. *)
Record Session : Type := {
  session_config : WrapperConfig;
  session_tool : ToolDefinition
}.

Definition expert_inputSchema : value :=
  VObj [("type", VStr "object");
        ("properties",
         VObj [("query", VObj [("type", VStr "string");
                               ("description", VStr "Your request or question")]);
               ("mode", VObj [("type", VStr "string");
                              ("enum", VArr [VStr "discover"; VStr "execute";
                                             VStr "explain"]);
                              ("description", VStr "Operation mode")])]);
        ("required", VArr [VStr "query"])].

Definition createExpertTool (config : WrapperConfig) : ToolDefinition :=
  let toolName := replace_spaces (toLowerCase (name config)) in
  {| td_name := toolName;
     td_description := description config;
     td_inputSchema := expert_inputSchema |}.

(** [x?.length || 0] *)
Definition length_or_zero (o : option (list value)) : nat :=
  match o with
  | Some items => length items
  | None => 0
  end.

(** [ts.map(t => t.name)] *)
Fixpoint map_name (ts : list value) : result (list value) :=
  match ts with
  | [] => inr []
  | t :: rest =>
      n <-? get t "name" ;;
      ns <-? map_name rest ;;
      inr (n :: ns)
  end.

(** [s || 'none'] *)
Definition or_none (s : string) : string :=
  if String.eqb s "" then "none" else s.

(** [mode || 'execute'] *)
Definition effective_mode (mode : option string) : string :=
  match mode with
  | Some m => if String.eqb m "" then "execute" else m
  | None => "execute"
  end.

Section WithHost.
Context {W : Type} {rt : Runtime} {host : Host W}.
Local Open Scope engine_scope.

Definition loadConfig (configPath : string) : M W WrapperConfig :=
  try_catch
    (configData <- request (EReadFile configPath) (fs_readFile configPath) ;;
     config <- lift (JSON_parse configData) ;;
     lift (WrapperConfigSchema_parse config))
    (fun error =>
       match error with
       | Err message => throw (Err ("Failed to load configuration: " ++ message))
       | NonErr _ => throw error
       end).

Definition connectToWrappedServer (config : WrapperConfig) : M W unit :=
  try_catch
    (request (EConnect (serverPath config) (args config))
             (client_connect (serverPath config) (args config)))
    (fun error =>
       throw (Err ("Failed to connect to wrapped server: "
                   ++ error_message error))).

Definition coordinationPrompt (config : WrapperConfig)
  (tools : ListToolsResult) (query : string) : string :=
  "
" ++ systemPrompt config ++ "

Available tools:
" ++ JSON_stringify (VArr (or_empty (lt_tools tools))) ++ "

User query: " ++ query ++ "

Based on the user's query and available tools, determine which tool(s) to use and with what arguments.
Respond with a JSON object in this format:
{
  " ++ quoted "toolCalls" ++ ": [
    {
      " ++ quoted "name" ++ ": " ++ quoted "tool_name" ++ ",
      " ++ quoted "arguments" ++ ": { ... }
    }
  ],
  " ++ quoted "explanation" ++ ": " ++ quoted "Brief explanation of what you're doing" ++ "
}

Respond ONLY with valid JSON.".

(** One turn of the loop [for (const toolCall of ...)]: the inner
    [try]/[catch] around [callTool], pushing one entry onto [results]. *)
Definition executeCall (toolCall : value) (results : list value)
  : M W (list value) :=
  try_catch
    (name <- lift (get toolCall "name") ;;
     arguments <- lift (get toolCall "arguments") ;;
     result <- request (ECallTool name arguments)
                       (client_callTool name arguments) ;;
     tool <- lift (get toolCall "name") ;;
     ret (results ++ [VObj [("tool", tool); ("result", content result)]])%list)
    (fun error =>
       tool <- lift (get toolCall "name") ;;
       ret (results ++ [VObj [("tool", tool);
                              ("error", VStr (error_message error))]])%list).

Fixpoint executeCalls (toolCalls : list value) (results : list value)
  : M W (list value) :=
  match toolCalls with
  | [] => ret results
  | toolCall :: rest =>
      results' <- executeCall toolCall results ;;
      executeCalls rest results'
  end.

Definition handleDiscover (config : WrapperConfig) : M W value :=
  ' (tools, resources, prompts) <-
      Promise_all3 (request EListTools client_listTools)
                   (request EListResources client_listResources)
                   (request EListPrompts client_listPrompts) ;;
  ret (VObj
    [("summary",
      VStr (name config ++ " provides "
            ++ string_of_nat (length_or_zero (lt_tools tools)) ++ " tools, "
            ++ string_of_nat (length_or_zero (lr_resources resources))
            ++ " resources, and "
            ++ string_of_nat (length_or_zero (lp_prompts prompts))
            ++ " prompts"));
     ("tools", VArr (or_empty (lt_tools tools)));
     ("resources", VArr (or_empty (lr_resources resources)));
     ("prompts", VArr (or_empty (lp_prompts prompts)))]).

Definition handleExplain (config : WrapperConfig) : M W value :=
  tools <- request EListTools client_listTools ;;
  toolNames <-
    match lt_tools tools with
    | Some ts =>
        names <- lift (map_name ts) ;;
        ret (or_none (join ", " (map join_item names)))
    | None => ret "none"
    end ;;
  ret (VObj
    [("description", VStr (description config));
     ("systemPrompt", VStr (systemPrompt config));
     ("availableTools", VStr toolNames);
     ("usage", VStr "Ask me to perform tasks and I'll use the appropriate tools from the wrapped server.")]).

Definition handleExecute (query : string) (config : WrapperConfig) : M W value :=
  tools <- request EListTools client_listTools ;;
  let prompt := coordinationPrompt config tools query in
  try_catch
    (text <- request (EGenerateText prompt) (generateText prompt) ;;
     plan <- lift (JSON_parse text) ;;
     toolCalls <- lift (get plan "toolCalls") ;;
     calls <- lift (iterate (or_else toolCalls (VArr []))) ;;
     results <- executeCalls calls [] ;;
     explanation <- lift (get plan "explanation") ;;
     ret (VObj [("explanation", explanation); ("results", VArr results)]))
    (fun error =>
       throw (Err ("Failed to coordinate with wrapped server: "
                   ++ error_message error))).

(** The three branches of the source are split into three definitions;
    the dispatch is the source's. *)
Definition handleExpertQuery (query : string) (mode : option string)
  (config : WrapperConfig) : M W value :=
  let effectiveMode := effective_mode mode in
  if String.eqb effectiveMode "discover" then handleDiscover config
  else if String.eqb effectiveMode "explain" then handleExplain config
  else handleExecute query config.

Definition validateEnvironment : M W unit :=
  key <- observe (fun w => (env_OPENAI_API_KEY w, w)) ;;
  match key with
  | Some k =>
      if String.eqb k "" then
        throw (Err "OPENAI_API_KEY environment variable is required")
      else ret tt
  | None => throw (Err "OPENAI_API_KEY environment variable is required")
  end.

(** The handler registered for [ListToolsRequestSchema]. *)
Definition listToolsHandler (expertTool : ToolDefinition) : list ToolDefinition :=
  [expertTool].

(** The handler registered for [CallToolRequestSchema]. *)
Definition callToolHandler (expertTool : ToolDefinition)
  (config : WrapperConfig) (req : CallToolRequest) : M W value :=
  if negb (String.eqb (params_name req) (td_name expertTool)) then
    throw (Err ("Unknown tool: " ++ params_name req))
  else
    args <- lift (ExpertToolSchema_parse (params_arguments req)) ;;
    result <- handleExpertQuery (query args) (mode args) config ;;
    ret (VObj [("content",
                VArr [VObj [("type", VStr "text");
                            ("text", VStr (JSON_stringify result))]])]).

(** The listener registered for [SIGINT]: three statements in a row,
    each reached only if the one before did not throw. *)
Definition sigintHandler : M W unit :=
  request EClientClose client_close ;;
  request EServerClose server_close ;;
  request (EExit 0) (fun w => (inr tt, w)).

Definition startWrapperServer (configPath : string) : M W Session :=
  validateEnvironment ;;
  config <- loadConfig configPath ;;
  connectToWrappedServer config ;;
  let expertTool := createExpertTool config in
  request EServerConnect server_connect ;;
  ret {| session_config := config; session_tool := expertTool |}.

End WithHost.
End Wrapper.

(* ================================================================== *)
(** ** An implementation of the runtime's JSON codec *)
(* ================================================================== *)

(** [Json.stringify] is [JSON.stringify(v, null, 2)] and [Json.parse] is
    [JSON.parse], on the documents of [value]: integral numbers, strings
    of code units below 256.  A text with a fraction, an exponent or an
    escape of a code unit above 255 is outside this reader and rejected
    by it.  The theorems on the engines do not depend on this
    implementation; it instantiates [Runtime] where a run is evaluated,
    and it shows that the law [codec_law] asked of a runtime is one a
    codec can meet. *)
Module Json.

Definition chr (n : nat) : ascii := ascii_of_nat n.
Definition str1 (n : nat) : string := String (chr n) EmptyString.

Fixpoint spaces (n : nat) : string :=
  match n with
  | O => EmptyString
  | S m => String " " (spaces m)
  end.

Definition newline : string := str1 10.

(** Lower-case hexadecimal, as [JSON.stringify] writes it. *)
Definition hex_digit (n : nat) : ascii :=
  chr (if (n <? 10)%nat then 48 + n else 87 + n).

(** QuoteJSONString on one character: the short escapes, [\u00XX] for
    the other control characters, the character itself otherwise. *)
Definition escape_char (c : ascii) : string :=
  let n := nat_of_ascii c in
  if (n =? 34)%nat then String (chr 92) (str1 34)
  else if (n =? 92)%nat then String (chr 92) (str1 92)
  else if (n =? 8)%nat then String (chr 92) "b"
  else if (n =? 12)%nat then String (chr 92) "f"
  else if (n =? 10)%nat then String (chr 92) "n"
  else if (n =? 13)%nat then String (chr 92) "r"
  else if (n =? 9)%nat then String (chr 92) "t"
  else if (n <? 32)%nat then
    String (chr 92)
      (String "u" (String "0" (String "0"
         (String (hex_digit (n / 16))
            (String (hex_digit (n mod 16)) EmptyString)))))
  else String c EmptyString.

Fixpoint escape (s : string) : string :=
  match s with
  | EmptyString => EmptyString
  | String c rest => escape_char c ++ escape rest
  end.

Definition quote (s : string) : string :=
  String (chr 34) (escape s ++ str1 34).

(** What stands between two elements at indentation [ind]. *)
Definition separator (ind : nat) : string := "," ++ newline ++ spaces ind.

(** The elements of an array or object, one per line, two spaces deeper
    than the brackets around them; nothing between the brackets of an
    empty one. *)
Definition wrap (opening closing : string) (ind : nat) (parts : list string)
  : string :=
  match parts with
  | [] => opening ++ closing
  | _ => opening ++ newline ++ spaces (ind + 2)
         ++ join (separator (ind + 2)) parts
         ++ newline ++ spaces ind ++ closing
  end.

(** An element that is [undefined] is written [null]. *)
Definition text_or_null (o : option string) : string :=
  match o with
  | Some text => text
  | None => "null"
  end.

(** A field that is [undefined] is not written. *)
Definition member (k : string) (o : option string) : list string :=
  match o with
  | Some text => [quote k ++ ": " ++ text]
  | None => []
  end.

(** SerializeJSONProperty at indentation [ind]; [None] is [undefined]. *)
Fixpoint serialize (ind : nat) (v : value) : option string :=
  match v with
  | VUndefined => None
  | VNull => Some "null"
  | VBool true => Some "true"
  | VBool false => Some "false"
  | VNum z => Some (string_of_Z z)
  | VStr s => Some (quote s)
  | VArr items =>
      Some (wrap "[" "]" ind
              (map (fun item => text_or_null (serialize (ind + 2) item)) items))
  | VObj fields =>
      Some (wrap "{" "}" ind
              (flat_map (fun kv : string * value =>
                           let (k, x) := kv in
                           member k (serialize (ind + 2) x)) fields))
  end.

(** The source only stringifies objects, arrays and strings; the result
    [undefined] of a top-level [undefined] is written as the empty text. *)
Definition stringify (v : value) : string :=
  match serialize 0 v with
  | Some text => text
  | None => EmptyString
  end.

Definition is_ws (c : ascii) : bool :=
  let n := nat_of_ascii c in
  ((n =? 32) || (n =? 10) || (n =? 13) || (n =? 9))%nat.

Fixpoint skip_ws (s : string) : string :=
  match s with
  | String c rest => if is_ws c then skip_ws rest else s
  | EmptyString => s
  end.

Definition is_digit (c : ascii) : bool :=
  let n := nat_of_ascii c in ((48 <=? n) && (n <=? 57))%nat.

(** The longest run of digits at the head of [s]. *)
Fixpoint read_uint (s : string) : Decimal.uint * string :=
  match s with
  | String c rest =>
      if is_digit c then
        let (d, after) := read_uint rest in
        (match uint_of_char c (Some d) with
         | Some d' => d'
         | None => Decimal.Nil
         end, after)
      else (Decimal.Nil, s)
  | EmptyString => (Decimal.Nil, s)
  end.

(** After the digits of a number no fraction or exponent may follow. *)
Definition number_ends (s : string) : bool :=
  match s with
  | String c _ =>
      let n := nat_of_ascii c in
      negb ((n =? 46) || (n =? 101) || (n =? 69))%nat
  | EmptyString => true
  end.

(** No leading zero, but for the number zero itself. *)
Definition normalized (d : Decimal.uint) : bool :=
  if Decimal.uint_eq_dec (Decimal.unorm d) d then true else false.

Definition read_unsigned (s : string) : option (Decimal.uint * string) :=
  let (d, after) := read_uint s in
  match d with
  | Decimal.Nil => None
  | _ => if normalized d && number_ends after then Some (d, after) else None
  end.

Definition read_int (s : string) : option (Z * string) :=
  match s with
  | String c rest =>
      if (nat_of_ascii c =? 45)%nat then
        option_map (fun r => (Z.of_int (Decimal.Neg (fst r)), snd r))
                   (read_unsigned rest)
      else
        option_map (fun r => (Z.of_int (Decimal.Pos (fst r)), snd r))
                   (read_unsigned s)
  | EmptyString => None
  end.

Definition hex_value (c : ascii) : option nat :=
  let n := nat_of_ascii c in
  if ((48 <=? n) && (n <=? 57))%nat then Some (n - 48)
  else if ((97 <=? n) && (n <=? 102))%nat then Some (n - 87)
  else if ((65 <=? n) && (n <=? 70))%nat then Some (n - 55)
  else None.

Definition unescape (e : ascii) : option ascii :=
  let m := nat_of_ascii e in
  if (m =? 34)%nat then Some (chr 34)
  else if (m =? 92)%nat then Some (chr 92)
  else if (m =? 47)%nat then Some (chr 47)
  else if (m =? 98)%nat then Some (chr 8)
  else if (m =? 102)%nat then Some (chr 12)
  else if (m =? 110)%nat then Some (chr 10)
  else if (m =? 114)%nat then Some (chr 13)
  else if (m =? 116)%nat then Some (chr 9)
  else None.

Definition prepend (c : ascii) (r : option (string * string))
  : option (string * string) :=
  match r with
  | Some (body, after) => Some (String c body, after)
  | None => None
  end.

(** The characters of a string literal, after its opening quote. *)
Fixpoint read_string (s : string) : option (string * string) :=
  match s with
  | EmptyString => None
  | String c rest =>
      let n := nat_of_ascii c in
      if (n =? 34)%nat then Some (EmptyString, rest)
      else if (n =? 92)%nat then
        match rest with
        | String e rest1 =>
            if (nat_of_ascii e =? 117)%nat then
              match rest1 with
              | String h1 (String h2 (String h3 (String h4 rest2))) =>
                  match hex_value h1, hex_value h2, hex_value h3, hex_value h4 with
                  | Some a, Some b, Some c', Some d =>
                      let code := ((a * 16 + b) * 16 + c') * 16 + d in
                      if (code <? 256)%nat
                      then prepend (chr code) (read_string rest2)
                      else None
                  | _, _, _, _ => None
                  end
              | _ => None
              end
            else
              match unescape e with
              | Some u => prepend u (read_string rest1)
              | None => None
              end
        | EmptyString => None
        end
      else if (n <? 32)%nat then None
      else prepend c (read_string rest)
  end.

Fixpoint strip_prefix (prefix s : string) : option string :=
  match prefix, s with
  | EmptyString, _ => Some s
  | String a prefix', String b s' =>
      if Ascii.eqb a b then strip_prefix prefix' s' else None
  | String _ _, EmptyString => None
  end.

Definition literal (word : string) (v : value) (s : string)
  : option (value * string) :=
  option_map (fun after => (v, after)) (strip_prefix word s).

(** Recursive descent; [fuel] bounds the depth and the number of
    elements, and the length of the text is enough of it.  A repeated key
    keeps its first position and takes the last value ([set_field]). *)
Fixpoint read_value (fuel : nat) (s : string) : option (value * string) :=
  match fuel with
  | O => None
  | S fuel' =>
      let t := skip_ws s in
      match read_int t with
      | Some (z, after) => Some (VNum z, after)
      | None =>
          match t with
          | EmptyString => None
          | String c rest =>
              let n := nat_of_ascii c in
              if (n =? 110)%nat then literal "null" VNull t
              else if (n =? 116)%nat then literal "true" (VBool true) t
              else if (n =? 102)%nat then literal "false" (VBool false) t
              else if (n =? 34)%nat then
                option_map (fun r => (VStr (fst r), snd r)) (read_string rest)
              else if (n =? 91)%nat then
                match skip_ws rest with
                | String d rest' =>
                    if (nat_of_ascii d =? 93)%nat then Some (VArr [], rest')
                    else option_map (fun r => (VArr (fst r), snd r))
                                    (read_elements fuel' rest)
                | EmptyString => None
                end
              else if (n =? 123)%nat then
                match skip_ws rest with
                | String d rest' =>
                    if (nat_of_ascii d =? 125)%nat then Some (VObj [], rest')
                    else option_map (fun r => (VObj (fst r), snd r))
                                    (read_members fuel' [] rest)
                | EmptyString => None
                end
              else None
          end
      end
  end
with read_elements (fuel : nat) (s : string) : option (list value * string) :=
  match fuel with
  | O => None
  | S fuel' =>
      match read_value fuel' s with
      | Some (v, after) =>
          match skip_ws after with
          | String c rest =>
              if (nat_of_ascii c =? 44)%nat then
                option_map (fun r => (v :: fst r, snd r))
                           (read_elements fuel' rest)
              else if (nat_of_ascii c =? 93)%nat then Some ([v], rest)
              else None
          | EmptyString => None
          end
      | None => None
      end
  end
with read_members (fuel : nat) (seen : list (string * value)) (s : string)
  : option (list (string * value) * string) :=
  match fuel with
  | O => None
  | S fuel' =>
      match skip_ws s with
      | String q rest =>
          if (nat_of_ascii q =? 34)%nat then
            match read_string rest with
            | Some (k, after) =>
                match skip_ws after with
                | String colon rest' =>
                    if (nat_of_ascii colon =? 58)%nat then
                      match read_value fuel' rest' with
                      | Some (v, after') =>
                          let seen' := set_field k v seen in
                          match skip_ws after' with
                          | String c rest'' =>
                              if (nat_of_ascii c =? 44)%nat
                              then read_members fuel' seen' rest''
                              else if (nat_of_ascii c =? 125)%nat
                              then Some (seen', rest'')
                              else None
                          | EmptyString => None
                          end
                      | None => None
                      end
                    else None
                | EmptyString => None
                end
            | None => None
            end
          else None
      | EmptyString => None
      end
  end.

Definition parse (text : string) : result value :=
  match read_value (String.length text + 1) text with
  | Some (v, after) =>
      match skip_ws after with
      | EmptyString => inr v
      | _ => inl (Err "Unexpected non-whitespace character after JSON")
      end
  | None => inl (Err "Unexpected token in JSON")
  end.



(** A text after which a number token ends. *)
Definition starts_digit (s : string) : bool :=
  match s with
  | String c _ => is_digit c
  | EmptyString => false
  end.

Definition terminated (s : string) : bool :=
  negb (starts_digit s) && number_ends s.

(** The fields of an object as they are written, the [undefined] ones
    left out. *)
Definition members (ind : nat) (fields : list (string * value)) : list string :=
  flat_map (fun kv : string * value =>
              let (k, x) := kv in member k (serialize ind x)) fields.

Definition runtime : Runtime := {|
  JSON_parse := parse;
  JSON_stringify := stringify;
  path_join := fun a b => a ++ "/" ++ b;
  toISOString := fun t => string_of_Z t
|}.

End Json.

(* ================================================================== *)
(** ** A scripted world *)
(* ================================================================== *)

(** A peer, a planner and a file system whose answers are given up
    front: the worlds in which the engines are run on concrete inputs. *)
Module Scripted.

Record script : Type := {
  api_key : option string;
  cwd : string;
  clock : Z;
  reachable : bool;
  peer_tools : result ListToolsResult;
  peer_resources : result ListResourcesResult;
  peer_prompts : result ListPromptsResult;
  peer_call : value -> value -> result CallToolResult;
  peer_close : result unit;
  transport_close : result unit;
  planner : string -> result string;
  files : list (string * string)
}.

Definition tick (w : script) : script :=
  {| api_key := api_key w; cwd := cwd w; clock := clock w + 1;
     reachable := reachable w; peer_tools := peer_tools w;
     peer_resources := peer_resources w; peer_prompts := peer_prompts w;
     peer_call := peer_call w; peer_close := peer_close w;
     transport_close := transport_close w; planner := planner w;
     files := files w |}.

Definition write (path data : string) (w : script) : script :=
  {| api_key := api_key w; cwd := cwd w; clock := clock w;
     reachable := reachable w; peer_tools := peer_tools w;
     peer_resources := peer_resources w; peer_prompts := peer_prompts w;
     peer_call := peer_call w; peer_close := peer_close w;
     transport_close := transport_close w; planner := planner w;
     files := (path, data) :: files w |}.

Fixpoint read (path : string) (fs : list (string * string)) : result string :=
  match fs with
  | [] => inl (Err "ENOENT: no such file or directory")
  | (p, data) :: rest => if String.eqb path p then inr data else read path rest
  end.

Definition host : Host script := {|
  env_OPENAI_API_KEY := api_key;
  process_cwd := cwd;
  Date_now := fun w => (clock w, tick w);
  client_connect := fun _ _ w =>
    (if reachable w then inr tt else inl (Err "spawn ENOENT"), w);
  client_listTools := fun w => (peer_tools w, w);
  client_listResources := fun w => (peer_resources w, w);
  client_listPrompts := fun w => (peer_prompts w, w);
  client_callTool := fun name arguments w => (peer_call w name arguments, w);
  client_close := fun w => (peer_close w, w);
  server_connect := fun w => (inr tt, w);
  server_close := fun w => (transport_close w, w);
  generateText := fun prompt w => (planner w prompt, w);
  fs_readFile := fun path w => (read path (files w), w);
  fs_mkdir := fun _ w => (inr tt, w);
  fs_writeFile := fun path data w => (inr tt, write path data w)
|}.

(** The mock server of the integration test: [echo], [add] and
    [getCurrentTime]; any other name is unknown to it. *)
Definition mock_tools : list value :=
  [VObj [("name", VStr "echo"); ("description", VStr "Echo back a message")];
   VObj [("name", VStr "add"); ("description", VStr "Adds two numbers")];
   VObj [("name", VStr "getCurrentTime")]].

Definition mock_call (name arguments : value) : result CallToolResult :=
  match name with
  | VStr n =>
      if String.eqb n "echo" then
        inr {| content := VArr [VObj [("type", VStr "text");
                                     ("text", lookup "message"
                                        match arguments with
                                        | VObj fields => fields
                                        | _ => []
                                        end)]] |}
      else if String.eqb n "add" then
        match arguments with
        | VObj fields =>
            match lookup "a" fields, lookup "b" fields with
            | VNum a, VNum b =>
                inr {| content := VArr [VObj [("type", VStr "text");
                                             ("text", VStr (string_of_Z (a + b)))]] |}
            | _, _ => inl (Err "Invalid arguments for tool add")
            end
        | _ => inl (Err "Invalid arguments for tool add")
        end
      else if String.eqb n "getCurrentTime" then
        inr {| content := VArr [VObj [("type", VStr "text");
                                     ("text", VStr "2025-01-01T00:00:00.000Z")]] |}
      else inl (Err ("Unknown tool: " ++ n))
  | _ => inl (Err "Invalid request parameters")
  end.

(** A peer with tools only: the resource and prompt sub-protocols are
    not implemented and their requests are rejected. *)
Definition mock_world (planner_text : result string) : script := {|
  api_key := Some "sk-test";
  cwd := "/work";
  clock := 1756953260051;
  reachable := true;
  peer_tools := inr {| lt_tools := Some mock_tools |};
  peer_resources := inl (Err "Method not found");
  peer_prompts := inl (Err "Method not found");
  peer_call := mock_call;
  peer_close := inr tt;
  transport_close := inr tt;
  planner := fun _ => planner_text;
  files := []
|}.

(** The same peer, whose [close] is rejected. *)
Definition stuck_world : script := {|
  api_key := Some "sk-test";
  cwd := "/work";
  clock := 1756953260051;
  reachable := true;
  peer_tools := inr {| lt_tools := Some mock_tools |};
  peer_resources := inl (Err "Method not found");
  peer_prompts := inl (Err "Method not found");
  peer_call := mock_call;
  peer_close := inl (Err "Connection closed");
  transport_close := inr tt;
  planner := fun _ => inl (Err "no planner");
  files := []
|}.

(** A plan of two calls, the first to a tool the peer does not have. *)
Definition two_call_plan : value :=
  VObj [("toolCalls",
         VArr [VObj [("name", VStr "multiply");
                     ("arguments", VObj [("a", VNum 2); ("b", VNum 3)])];
               VObj [("name", VStr "add");
                     ("arguments", VObj [("a", VNum 15); ("b", VNum 27)])]]);
        ("explanation", VStr "Multiplying, then adding 15 and 27")].

(** A plan that names a tool and supplies neither arguments nor an
    explanation. *)
Definition bare_plan : value :=
  VObj [("toolCalls", VArr [VObj [("name", VStr "getCurrentTime")]])].

(** A descriptor document whose counts are not the lengths of its
    sequences: eight tools announced, one listed; two resources and three
    prompts announced, none listed. *)
Definition miscounted_descriptor : value :=
  VObj [("name", VStr "Test Expert");
        ("description", VStr "A test expert for unit testing");
        ("serverPath", VStr "/path/to/server");
        ("args", VArr [VStr "--test"]);
        ("systemPrompt", VStr "You are a test expert.");
        ("capabilities",
         VObj [("tools", VArr [VObj [("name", VStr "test-tool");
                                     ("description", VStr "A test tool")]]);
               ("resources", VArr []);
               ("prompts", VArr [])]);
        ("metadata",
         VObj [("analyzedAt", VStr "2023-01-01T00:00:00.000Z");
               ("toolCount", VNum 8);
               ("resourceCount", VNum 2);
               ("promptCount", VNum 3)])].

(** The planner's answer to the analysis prompt, for the mock server. *)
Definition echo_analysis : value :=
  VObj [("expertName", VStr "Echo Expert");
        ("expertDescription", VStr "Echoes messages, adds numbers, tells the time");
        ("systemPrompt", VStr "Use echo, add and getCurrentTime.");
        ("capabilities",
         VObj [("tools", VArr [VStr "echo"; VStr "add"; VStr "getCurrentTime"]);
               ("resources", VArr []);
               ("prompts", VArr [])])].

Definition validConfig : WrapperConfig := {|
  name := "Test Expert";
  description := "A test expert for unit testing";
  serverPath := "/path/to/server";
  args := ["--test"];
  systemPrompt := "You are a test expert.";
  capabilities := {| tools := [VObj [("name", VStr "test-tool");
                                     ("description", VStr "A test tool")]];
                     resources := []; prompts := [] |};
  metadata := {| analyzedAt := "2023-01-01T00:00:00.000Z";
                 toolCount := 1; resourceCount := 0; promptCount := 0 |}
|}.

(** The descriptor of the unit test on special characters, with a wider
    gap in its name. *)
Definition gappedConfig : WrapperConfig := {|
  name := "Test Expert   with Spaces & Special!";
  description := description validConfig;
  serverPath := serverPath validConfig;
  args := args validConfig;
  systemPrompt := systemPrompt validConfig;
  capabilities := capabilities validConfig;
  metadata := metadata validConfig
|}.

End Scripted.

(* ================================================================== *)
(** ** Reading traces *)
(* ================================================================== *)

Module Traces.

Definition is_call_tool (ev : event) : bool :=
  match ev with ECallTool _ _ => true | _ => false end.

Definition is_generate (ev : event) : bool :=
  match ev with EGenerateText _ => true | _ => false end.

Definition is_client_close (ev : event) : bool :=
  match ev with EClientClose => true | _ => false end.

Definition is_server_close (ev : event) : bool :=
  match ev with EServerClose => true | _ => false end.

Definition is_exit (ev : event) : bool :=
  match ev with EExit _ => true | _ => false end.

(** Requests made to the peer or to the planner. *)
Definition is_peer_or_planner (ev : event) : bool :=
  match ev with
  | EConnect _ _ | EListTools | EListResources | EListPrompts
  | ECallTool _ _ | EClientClose | EGenerateText _ => true
  | _ => false
  end.

Definition count (p : event -> bool) (tr : list event) : nat :=
  length (filter p tr).

Definition not_client_close (ev : event) : Prop := is_client_close ev = false.
Definition not_generate (ev : event) : Prop := is_generate ev = false.
Definition not_call_tool (ev : event) : Prop := is_call_tool ev = false.

(** [m] only adds events to the trace, and each of them satisfies [P]. *)
Definition emits {W A} (P : event -> Prop) (m : M W A) : Prop :=
  forall st, exists tr, trace (snd (m st)) = (trace st ++ tr)%list /\ Forall P tr.

End Traces.
Export Traces.

(* ================================================================== *)
(** ** The specification's reading of a plan *)
(* ================================================================== *)

(** The words of the specification, to compare the engine with: an
    Invocation Plan is a sequence of [{name, arguments}] pairs plus an
    explanation; each planned call is invoked with the supplied arguments
    and leaves [{tool, result}] on success and [{tool, error: message}] on
    failure, after which the next planned call is taken. *)
Module PlanSpec.

(** The property [k] of a value that is not [null] or [undefined]. *)
Definition prop (v : value) (k : string) : value :=
  match get v k with
  | inr x => x
  | inl _ => VUndefined
  end.

Definition is_planned_call (v : value) : bool :=
  match v with
  | VObj fields =>
      match lookup "name" fields, lookup "arguments" fields with
      | VStr _, VObj _ => true
      | _, _ => false
      end
  | _ => false
  end.

Definition plan_shape (v : value) : bool :=
  match v with
  | VObj fields =>
      match lookup "toolCalls" fields, lookup "explanation" fields with
      | VArr calls, VStr _ => forallb is_planned_call calls
      | _, _ => false
      end
  | _ => false
  end.

Definition planned_request (call : value) : event :=
  ECallTool (prop call "name") (prop call "arguments").

Definition entry (call : value) (answer : result CallToolResult) : value :=
  match answer with
  | inr r => VObj [("tool", prop call "name"); ("result", content r)]
  | inl e => VObj [("tool", prop call "name");
                   ("error", VStr (error_message e))]
  end.

(** Every planned call is put to the peer, in plan order, whatever the
    answers to the calls before it. *)
Fixpoint attempt_all {W} {host : Host W} (calls : list value) (w : W)
  : list value * W :=
  match calls with
  | [] => ([], w)
  | call :: rest =>
      let (answer, w1) :=
        client_callTool (prop call "name") (prop call "arguments") w in
      let (entries, w2) := attempt_all rest w1 in
      (entry call answer :: entries, w2)
  end.

End PlanSpec.
Export PlanSpec.

(* ================================================================== *)
(** ** The specification's reading of a descriptor *)
(* ================================================================== *)

Module DescriptorSpec.

(** The document [doc] holds every field of [cfg], each with the type the
    schema asks for. *)
Definition describes (doc : value) (cfg : WrapperConfig) : Prop :=
  exists o c m,
    doc = VObj o /\
    lookup "name" o = VStr (name cfg) /\
    lookup "description" o = VStr (description cfg) /\
    lookup "serverPath" o = VStr (serverPath cfg) /\
    lookup "args" o = VArr (map VStr (args cfg)) /\
    lookup "systemPrompt" o = VStr (systemPrompt cfg) /\
    lookup "capabilities" o = VObj c /\
    lookup "tools" c = VArr (tools (capabilities cfg)) /\
    lookup "resources" c = VArr (resources (capabilities cfg)) /\
    lookup "prompts" c = VArr (prompts (capabilities cfg)) /\
    lookup "metadata" o = VObj m /\
    lookup "analyzedAt" m = VStr (analyzedAt (metadata cfg)) /\
    lookup "toolCount" m = VNum (toolCount (metadata cfg)) /\
    lookup "resourceCount" m = VNum (resourceCount (metadata cfg)) /\
    lookup "promptCount" m = VNum (promptCount (metadata cfg)).

(** The provenance invariant: each count is the length of its sequence. *)
Definition counts_match (cfg : WrapperConfig) : Prop :=
  toolCount (metadata cfg) = Z.of_nat (length (tools (capabilities cfg))) /\
  resourceCount (metadata cfg) =
    Z.of_nat (length (resources (capabilities cfg))) /\
  promptCount (metadata cfg) = Z.of_nat (length (prompts (capabilities cfg))).

(** The same invariant on the object the discovery engine writes. *)
Definition counted (config : Analyzer.ServerConfig) : Prop :=
  toolCount (Analyzer.sc_metadata config) =
    Z.of_nat (length (tools (Analyzer.sc_capabilities config))) /\
  resourceCount (Analyzer.sc_metadata config) =
    Z.of_nat (length (resources (Analyzer.sc_capabilities config))) /\
  promptCount (Analyzer.sc_metadata config) =
    Z.of_nat (length (prompts (Analyzer.sc_capabilities config))).

Definition item_of (v : value) : value :=
  match v with
  | VUndefined => VNull
  | x => x
  end.

Definition put (k : string) (v : value) (acc : list (string * value))
  : list (string * value) :=
  match v with
  | VUndefined => acc
  | _ => set_field k v acc
  end.

(** What a value is once written by [JSON.stringify] and read again by
    [JSON.parse]: a field that is [undefined] is gone, an element that is
    [undefined] is [null], the rest is as it was.  (The fields of a
    JavaScript object have distinct keys; on a list of fields that
    repeats a key, the object is the one its definitions give in turn.) *)
Fixpoint jsonify (v : value) : value :=
  match v with
  | VArr items => VArr (map (fun item => item_of (jsonify item)) items)
  | VObj fields =>
      VObj (fold_left (fun acc (kv : string * value) =>
                         let (k, x) := kv in put k (jsonify x) acc)
                      fields [])
  | _ => v
  end.

(** The law of the runtime's codec: [JSON.parse] reads back what
    [JSON.stringify] wrote. *)
Definition codec_law (rt : Runtime) : Prop :=
  forall v, v <> VUndefined -> JSON_parse (JSON_stringify v) = inr (jsonify v).

Fixpoint all_chars (p : ascii -> bool) (s : string) : bool :=
  match s with
  | EmptyString => true
  | String c rest => p c && all_chars p rest
  end.

(** A string without any whitespace, and a word: such a string with at
    least one character. *)
Definition spaceless (s : string) : Prop :=
  all_chars (fun c => negb (is_space c)) s = true.

Definition word (s : string) : Prop := s <> EmptyString /\ spaceless s.

(** A run of whitespace: one character or more, all of class [\s]. *)
Definition blank (s : string) : Prop :=
  s <> EmptyString /\ all_chars is_space s = true.

(** A name written out: its first word, then each further word after the
    whitespace that separates it from the word before. *)
Fixpoint spaced (first : string) (more : list (string * string)) : string :=
  match more with
  | [] => first
  | (sep, w) :: rest => first ++ sep ++ spaced w rest
  end.

End DescriptorSpec.
Export DescriptorSpec.

(* ================================================================== *)
(** ** The codec, printed and read back *)
(* ================================================================== *)

Module CodecSpec.

Import Json.

(** One field defined on the object read so far. *)
Definition step (acc : list (string * value)) (kv : string * value)
  : list (string * value) :=
  let (k, x) := kv in put k (jsonify x) acc.

(** The text of a value where it stands as an element, and the value
    read back from that text. *)
Definition printed (ind : nat) (v : value) : string := text_or_null (serialize ind v).
Definition read_back (v : value) : value := item_of (jsonify v).

(** The first character of a text is none of whitespace and the closing
    bracket. *)
Definition solid (c : ascii) : Prop :=
  is_ws c = false /\ (nat_of_ascii c =? 93)%nat = false.

(** The reader, given the length of the text of [v] as fuel, reads [v]
    back from its text and leaves what follows it. *)
Definition reads_back (v : value) : Prop :=
  forall ind rest fuel,
    String.length (printed ind v) <= fuel ->
    terminated rest = true ->
    read_value fuel (printed ind v ++ rest) = Some (read_back v, rest).

(** Induction on values, with the hypothesis on every element of an
    array and every field of an object. *)
Fixpoint value_nested_ind (Q : value -> Prop)
  (Hundefined : Q VUndefined) (Hnull : Q VNull)
  (Hbool : forall b, Q (VBool b)) (Hnum : forall z, Q (VNum z))
  (Hstr : forall s, Q (VStr s))
  (Harr : forall items, Forall Q items -> Q (VArr items))
  (Hobj : forall fields, Forall (fun kv => Q (snd kv)) fields -> Q (VObj fields))
  (v : value) {struct v} : Q v :=
  match v with
  | VUndefined => Hundefined
  | VNull => Hnull
  | VBool b => Hbool b
  | VNum z => Hnum z
  | VStr s => Hstr s
  | VArr items =>
      Harr items
        ((fix all (l : list value) : Forall Q l :=
            match l with
            | [] => Forall_nil Q
            | x :: r =>
                Forall_cons x
                  (value_nested_ind Q Hundefined Hnull Hbool Hnum Hstr Harr Hobj x)
                  (all r)
            end) items)
  | VObj fields =>
      Hobj fields
        ((fix all (l : list (string * value))
            : Forall (fun kv => Q (snd kv)) l :=
            match l with
            | [] => Forall_nil _
            | kv :: r =>
                Forall_cons kv
                  (value_nested_ind Q Hundefined Hnull Hbool Hnum Hstr Harr Hobj
                     (snd kv))
                  (all r)
            end) fields)
  end.

End CodecSpec.
Export CodecSpec.

(* ================================================================== *)
(** ** [src/cli.ts]: the [analyze] and [serve] commands *)
(* ================================================================== *)

Module Cli.

Import Analyzer Wrapper.

(** One line on the terminal: [console.log] of a string, [console.log] of
    a value that a cast alone types as a string, [console.log] of a label
    and a caught value, [console.error]. *)
Inductive output : Type :=
| StdOut (line : string)
| StdOutValue (v : value)
| StdOutThrown (label : string) (error : thrown)
| StdErr (line : string).

(** [`${v}`] *)
Definition template (v : value) : string :=
  match v with
  | VUndefined => "undefined"
  | VNull => "null"
  | _ => join_item v
  end.

Fixpoint trimStart (s : string) : string :=
  match s with
  | EmptyString => EmptyString
  | String c rest => if is_space c then trimStart rest else s
  end.

Fixpoint trimEnd (s : string) : string :=
  match s with
  | EmptyString => EmptyString
  | String c rest =>
      match trimEnd rest with
      | EmptyString => if is_space c then EmptyString else String c EmptyString
      | kept => String c kept
      end
  end.

(** [s.trim()]: the white space and line terminators below 256 are the
    characters of [\s]. *)
Definition trim (s : string) : string := trimEnd (trimStart s).

(** [s.includes(sub)] *)
Fixpoint includes (sub s : string) : bool :=
  if String.prefix sub s then true
  else
    match s with
    | EmptyString => false
    | String _ rest => includes sub rest
    end.

(** U+2713 as the terminal receives it, in UTF-8. *)
Definition check_mark : string :=
  String (ascii_of_nat 226) (String (ascii_of_nat 156)
    (String (ascii_of_nat 147) EmptyString)).

Definition key_guidance : list output :=
  [StdErr "";
   StdErr "Please set your OpenAI API key:";
   StdErr "  export OPENAI_API_KEY=your-api-key"].

Definition analyze_guidance (message : string) : list output :=
  if includes "OPENAI_API_KEY" message then key_guidance
  else if includes "Failed to connect" message then
    [StdErr "";
     StdErr "Make sure the server path is correct and the server is executable.";
     StdErr "You may need to build the server or install its dependencies first."]
  else [].

Definition serve_guidance (message : string) : list output :=
  if includes "OPENAI_API_KEY" message then key_guidance
  else if includes "Failed to load configuration" message then
    [StdErr "";
     StdErr "Make sure the configuration file exists and is valid JSON.";
     StdErr "You can generate a configuration using:";
     StdErr "  mcp-context-saver analyze <server-path>"]
  else if includes "Failed to connect to wrapped server" message then
    [StdErr "";
     StdErr "The wrapped server could not be started.";
     StdErr "Check that the server path in the configuration is correct."]
  else [].

(** The [catch] block of a command, up to its [process.exit(1)]. *)
Definition report (headline : string) (guidance : string -> list output)
  (error : thrown) : list output :=
  StdErr headline ::
  match error with
  | Err message => StdErr message :: guidance message
  | NonErr text => [StdErr text]
  end.

Definition analyze_banner (serverPath : string) (args : list string)
  : list output :=
  ([StdOut "Analyzing MCP server..."; StdOut ("Server: " ++ serverPath)]
   ++ (if (0 <? length args)%nat then [StdOut ("Args: " ++ join " " args)]
       else [])
   ++ [StdOut ""])%list.

Definition analyze_summary (result : AnalysisResult) : list output :=
  [StdOut (check_mark ++ " Analysis complete!");
   StdOut "";
   StdOut ("Expert: " ++ template (expertName result));
   StdOut ("Description: " ++ template (expertDescription result));
   StdOut "";
   StdOut "Capabilities discovered:";
   StdOut ("  - " ++ string_of_nat (length (tools (ar_capabilities result)))
           ++ " tools");
   StdOut ("  - " ++ string_of_nat (length (resources (ar_capabilities result)))
           ++ " resources");
   StdOut ("  - " ++ string_of_nat (length (prompts (ar_capabilities result)))
           ++ " prompts");
   StdOut "";
   StdOut ("Configuration saved to: " ++ configPath result);
   StdOut "";
   StdOut "System Prompt:";
   StdOutValue (ar_systemPrompt result);
   StdOut "";
   StdOut "To run the wrapper server with this configuration:";
   StdOut ("  mcp-context-saver serve " ++ configPath result)].

Definition serve_banner (configPath : string) : list output :=
  [StdOut ("Starting wrapper server with config: " ++ configPath);
   StdOut "";
   StdOut "The server is now running and ready to receive MCP requests.";
   StdOut "Press Ctrl+C to stop the server.";
   StdOut ""].

(** A computation that prints: the lines it printed, in order, beside
    the outcome and the state of the computation. *)
Definition Printing (W A : Type) : Type :=
  state W -> list output * (result A * state W).

(** A computation of the engines, which prints nothing. *)
Definition quiet {W A} (m : M W A) : Printing W A := fun st => ([], m st).

Definition print {W} (line : output) : Printing W unit :=
  fun st => ([line], (inr tt, st)).

Definition and_then_print {W A B} (m : Printing W A) (k : A -> Printing W B)
  : Printing W B :=
  fun st =>
    match m st with
    | (printed, (inr a, st')) =>
        match k a st' with
        | (printed', outcome) => ((printed ++ printed')%list, outcome)
        end
    | (printed, (inl e, st')) => (printed, (inl e, st'))
    end.

(** [try { m } catch (error) { handler }] *)
Definition printing_try_catch {W A} (m : Printing W A)
  (handler : thrown -> Printing W A) : Printing W A :=
  fun st =>
    match m st with
    | (printed, (inr a, st')) => (printed, (inr a, st'))
    | (printed, (inl e, st')) =>
        match handler e st' with
        | (printed', outcome) => ((printed ++ printed')%list, outcome)
        end
    end.

(** [try { m } finally { cleanup }], for a cleanup that prints nothing *)
Definition printing_try_finally {W A} (m : Printing W A) (cleanup : M W unit)
  : Printing W A :=
  fun st =>
    match m st with
    | (printed, (r, st')) =>
        match cleanup st' with
        | (inr _, st'') => (printed, (r, st''))
        | (inl e, st'') => (printed, (inl e, st''))
        end
    end.

Declare Scope printing_scope.
Delimit Scope printing_scope with printing.
Notation "x <- m ;; k" := (and_then_print m (fun x => k))
  (at level 61, m at next level, right associativity) : printing_scope.
Notation "m ;; k" := (and_then_print m (fun _ => k))
  (at level 61, right associativity) : printing_scope.

(** The discovery engine once more, this time with what it prints: the
    [analyze] command shows these lines between its own.  The requests,
    the outcome and the state are those of [Analyzer.analyzeServer]. *)
Module WithConsole.

Section WithHost.
Context {W : Type} {rt : Runtime} {host : Host W}.
Local Open Scope printing_scope.

Definition discoverCapabilities : Printing W ServerCapabilities :=
  printing_try_catch
    (print (StdOut "Discovering tools...") ;;
     toolsResponse <- quiet (request EListTools client_listTools) ;;
     print (StdOut ("Found "
                    ++ string_of_nat (length_or_zero (lt_tools toolsResponse))
                    ++ " tools")) ;;
     resourcesResponse <-
       printing_try_catch
         (print (StdOut "Discovering resources...") ;;
          response <- quiet (request EListResources client_listResources) ;;
          print (StdOut ("Found "
                         ++ string_of_nat
                              (length_or_zero (lr_resources response))
                         ++ " resources")) ;;
          quiet (ret response))
         (fun _ =>
            print (StdOut "Server does not support resources") ;;
            quiet (ret {| lr_resources := Some [] |})) ;;
     promptsResponse <-
       printing_try_catch
         (print (StdOut "Discovering prompts...") ;;
          response <- quiet (request EListPrompts client_listPrompts) ;;
          print (StdOut ("Found "
                         ++ string_of_nat (length_or_zero (lp_prompts response))
                         ++ " prompts")) ;;
          quiet (ret response))
         (fun _ =>
            print (StdOut "Server does not support prompts") ;;
            quiet (ret {| lp_prompts := Some [] |})) ;;
     quiet (ret {| tools := or_empty (lt_tools toolsResponse);
                   resources := or_empty (lr_resources resourcesResponse);
                   prompts := or_empty (lp_prompts promptsResponse) |}))
    (fun error =>
       print (StdOutThrown "Error in discoverCapabilities:" error) ;;
       quiet (throw error)).

(** The statements of the [try] block that follow the connection; only
    the discovery prints. *)
Definition analyzeConnected (serverPath : string) (args : list string)
  : Printing W AnalysisResult :=
  capabilities <- discoverCapabilities ;;
  quiet
    (analysis <- analyzeWithLLM capabilities ;;
     name <- lift (get analysis "expertName") ;;
     description <- lift (get analysis "expertDescription") ;;
     systemPrompt <- lift (get analysis "systemPrompt") ;;
     now <- observe Date_now ;;
     configPath <- saveConfiguration
       {| sc_name := name;
          sc_description := description;
          sc_serverPath := serverPath;
          sc_args := args;
          sc_systemPrompt := systemPrompt;
          sc_capabilities := capabilities;
          sc_metadata :=
            {| analyzedAt := toISOString now;
               toolCount := Z.of_nat (length (tools capabilities));
               resourceCount := Z.of_nat (length (resources capabilities));
               promptCount := Z.of_nat (length (prompts capabilities)) |} |} ;;
     ret {| expertName := name;
            expertDescription := description;
            ar_systemPrompt := systemPrompt;
            ar_capabilities := capabilities;
            configPath := configPath |})%engine.

Definition analyzeServer (serverPath : string) (args : list string)
  : Printing W AnalysisResult :=
  quiet Analyzer.validateEnvironment ;;
  connection <- quiet (attempt (connectToServer serverPath args)) ;;
  match connection with
  | inl error => quiet (throw error)
  | inr _ =>
      printing_try_finally (analyzeConnected serverPath args)
                           (request EClientClose client_close)
  end.

End WithHost.
End WithConsole.

Section WithHost.
Context {W : Type} {rt : Runtime} {host : Host W}.
Variable path_isAbsolute : string -> bool.
Variable path_resolve : string -> string -> string.

(** [process.exit(code)]: the process ends there. *)
Definition process_exit (code : Z) (st : state W) : state W :=
  mkState (world st) (trace st ++ [EExit code])%list.

(** The action of [analyze <server-path> [args...]]: what it prints,
    the lines of the analysis between its own, and the state it leaves. *)
Definition analyzeAction (serverPath : string) (args : list string)
  (st : state W) : list output * state W :=
  if String.eqb serverPath "" || String.eqb (trim serverPath) "" then
    ([StdErr "Error: Server path is required"], process_exit 1 st)
  else
    match WithConsole.analyzeServer serverPath args st with
    | (printed, (inr result, st')) =>
        ((analyze_banner serverPath args ++ printed
          ++ analyze_summary result)%list, st')
    | (printed, (inl error, st')) =>
        ((analyze_banner serverPath args ++ printed
          ++ report "Error analyzing server:" analyze_guidance error)%list,
         process_exit 1 st')
    end.

(** The action of [serve <config>].  It returns once the serving
    transport is connected; the process then lives on its handlers. *)
Definition serveAction (configPath : string) (st : state W)
  : list output * state W :=
  let absolutePath :=
    if path_isAbsolute configPath then configPath
    else path_resolve (process_cwd (world st)) configPath in
  match startWrapperServer absolutePath st with
  | (inr _, st') => (serve_banner configPath, st')
  | (inl error, st') =>
      ((serve_banner configPath
        ++ report "Failed to start wrapper server:" serve_guidance error)%list,
       process_exit 1 st')
  end.

End WithHost.
End Cli.

(* ================================================================== *)
(** ** [src/installer.ts]: the parts that do not prompt *)
(* ================================================================== *)

Module Installer.

(** [s.split(' ')] *)
Fixpoint split_space (s : string) : list string :=
  match s with
  | EmptyString => [EmptyString]
  | String c rest =>
      if Ascii.eqb c " " then EmptyString :: split_space rest
      else
        match split_space rest with
        | piece :: pieces => String c piece :: pieces
        | [] => [String c EmptyString]
        end
  end.

(** [serverArgs ? serverArgs.split(' ').filter(Boolean) : []], the
    argument list [wrapSpecificServer] hands to the analysis. *)
Definition server_args (serverArgs : string) : list string :=
  if String.eqb serverArgs "" then []
  else filter (fun piece => negb (String.eqb piece "")) (split_space serverArgs).

(** [wrapperConfig.name.toLowerCase()] on a parsed document *)
Definition name_toLowerCase (v : value) : result string :=
  match v with
  | VStr s => inr (toLowerCase s)
  | VUndefined | VNull => and_then (get v "toLowerCase") (fun _ => inr "")
  | _ => inl (Err "wrapperConfig.name.toLowerCase is not a function")
  end.

(** [wrapperConfig.name.toLowerCase().replace(/\s+/g, '-')] *)
Definition serverName_of (wrapperConfig : value) : result string :=
  name <-? get wrapperConfig "name" ;;
  lowered <-? name_toLowerCase name ;;
  inr (replace_spaces lowered).

(** [process.env.OPENAI_API_KEY || fallback] *)
Definition key_or (key : option string) (fallback : string) : string :=
  match key with
  | Some k => if String.eqb k "" then fallback else k
  | None => fallback
  end.

(** The entry written for the wrapper in an agent's configuration. *)
Definition registration (launch : list string) (configPath key : string)
  : value :=
  VObj [("command", VStr "npx");
        ("args", VArr (map VStr (launch ++ [configPath])%list));
        ("env", VObj [("OPENAI_API_KEY", VStr key)])].

Section WithHost.
Context {W : Type} {rt : Runtime} {host : Host W}.
Variable path_relative : string -> string -> string.
Local Open Scope engine_scope.

(** Console output is not modelled. *)
Definition configureClaudeCode (configPath : string) : M W unit :=
  cwd <- observe (fun w => (process_cwd w, w)) ;;
  let mcpDir := path_join cwd ".mcp" in
  let mcpConfigPath := path_join mcpDir "config.json" in
  request (EMkdir mcpDir) (fs_mkdir mcpDir) ;;
  text <- request (EReadFile configPath) (fs_readFile configPath) ;;
  wrapperConfig <- lift (JSON_parse text) ;;
  serverName <- lift (serverName_of wrapperConfig) ;;
  cwd' <- observe (fun w => (process_cwd w, w)) ;;
  key <- observe (fun w => (env_OPENAI_API_KEY w, w)) ;;
  let mcpConfig :=
    VObj [("mcpServers",
           VObj [(serverName,
                  registration ["-y"; "mcp-context-saver"; "serve"]
                    (path_relative cwd' configPath)
                    (key_or key "${OPENAI_API_KEY}"))])] in
  let data := JSON_stringify mcpConfig in
  request (EWriteFile mcpConfigPath data) (fs_writeFile mcpConfigPath data).

Definition configureVSCode (configPath : string) : M W unit :=
  cwd <- observe (fun w => (process_cwd w, w)) ;;
  let vscodeDir := path_join cwd ".vscode" in
  let vscodeConfigPath := path_join vscodeDir "mcp.json" in
  request (EMkdir vscodeDir) (fs_mkdir vscodeDir) ;;
  text <- request (EReadFile configPath) (fs_readFile configPath) ;;
  wrapperConfig <- lift (JSON_parse text) ;;
  serverName <- lift (serverName_of wrapperConfig) ;;
  cwd' <- observe (fun w => (process_cwd w, w)) ;;
  let vscodeConfig :=
    VObj [("servers",
           VObj [(serverName,
                  registration ["mcp-context-saver"; "serve"]
                    (path_relative cwd' configPath)
                    "${env:OPENAI_API_KEY}")])] in
  let data := JSON_stringify vscodeConfig in
  request (EWriteFile vscodeConfigPath data) (fs_writeFile vscodeConfigPath data).

End WithHost.
End Installer.

(* ================================================================== *)
(** ** More scripted worlds *)
(* ================================================================== *)

Module Scenarios.

Import Scripted.

(** The world [w] with another credential, or none. *)
Definition with_key (key : option string) (w : script) : script :=
  {| api_key := key; cwd := cwd w; clock := clock w;
     reachable := reachable w; peer_tools := peer_tools w;
     peer_resources := peer_resources w; peer_prompts := peer_prompts w;
     peer_call := peer_call w; peer_close := peer_close w;
     transport_close := transport_close w; planner := planner w;
     files := files w |}.

(** The world [w] whose peer cannot be started. *)
Definition unreachable (w : script) : script :=
  {| api_key := api_key w; cwd := cwd w; clock := clock w;
     reachable := false; peer_tools := peer_tools w;
     peer_resources := peer_resources w; peer_prompts := peer_prompts w;
     peer_call := peer_call w; peer_close := peer_close w;
     transport_close := transport_close w; planner := planner w;
     files := files w |}.

(** A planner's analysis that names no expert. *)
Definition nameless_analysis : value :=
  VObj [("expertDescription", VStr "Echoes messages");
        ("systemPrompt", VStr "Use echo.")].

(** A plan whose second call is [null]. *)
Definition broken_plan : value :=
  VObj [("toolCalls",
         VArr [VObj [("name", VStr "add");
                     ("arguments", VObj [("a", VNum 15); ("b", VNum 27)])];
               VNull;
               VObj [("name", VStr "getCurrentTime");
                     ("arguments", VObj [])]]);
        ("explanation", VStr "Adding, then telling the time")].

(** [path.isAbsolute], [path.resolve] and [path.relative] of POSIX, on
    the paths of the scenarios. *)
Definition posix_isAbsolute (p : string) : bool := String.prefix "/" p.

Definition posix_resolve (base p : string) : string :=
  base ++ "/" ++
  match p with
  | String "." (String "/" rest) => rest
  | _ => p
  end.

Fixpoint strip (prefix s : string) : option string :=
  match prefix, s with
  | EmptyString, _ => Some s
  | String a prefix', String b s' =>
      if Ascii.eqb a b then strip prefix' s' else None
  | String _ _, EmptyString => None
  end.

Definition posix_relative (base p : string) : string :=
  match strip (base ++ "/") p with
  | Some rest => rest
  | None => p
  end.

End Scenarios.

(* ================================================================== *)
(** ** More readings of traces and descriptors *)
(* ================================================================== *)

Module Readings.

Definition is_write_file (ev : event) : bool :=
  match ev with EWriteFile _ _ => true | _ => false end.

(** The requests a discovery run can make. *)
Definition discovery_request (ev : event) : Prop :=
  match ev with
  | EConnect _ _ | EListTools | EListResources | EListPrompts
  | EGenerateText _ | EMkdir _ | EWriteFile _ _ | EClientClose => True
  | _ => False
  end.

(** The requests the entry point can make while it answers a call. *)
Definition query_request (ev : event) : Prop :=
  match ev with
  | EListTools | EListResources | EListPrompts
  | EGenerateText _ | ECallTool _ _ => True
  | _ => False
  end.

(** The requests of the modes that read the peer and nothing else. *)
Definition listing_request (ev : event) : Prop :=
  match ev with
  | EListTools | EListResources | EListPrompts => True
  | _ => False
  end.

(** The requests the start of a serve session can make. *)
Definition startup_request (ev : event) : Prop :=
  match ev with
  | EReadFile _ | EConnect _ _ | EServerConnect => True
  | _ => False
  end.

(** A typed descriptor as the JavaScript object it is. *)
Definition descriptor_document (cfg : WrapperConfig) : value :=
  VObj [("name", VStr (name cfg));
        ("description", VStr (description cfg));
        ("serverPath", VStr (serverPath cfg));
        ("args", VArr (map VStr (args cfg)));
        ("systemPrompt", VStr (systemPrompt cfg));
        ("capabilities", Analyzer.capabilities_value (capabilities cfg));
        ("metadata", Analyzer.metadata_value (metadata cfg))].

(** A value that [JSON.stringify] and [JSON.parse] give back as it is,
    where it stands as an element. *)
Definition json_stable (v : value) : Prop := item_of (jsonify v) = v.

Definition stable_capabilities (c : ServerCapabilities) : Prop :=
  Forall json_stable (tools c) /\
  Forall json_stable (resources c) /\
  Forall json_stable (prompts c).

(** No whitespace and no upper-case letter. *)
Definition slug_char (c : ascii) : bool :=
  negb (is_space c) && negb (is_upper (nat_of_ascii c)).

(** The first error among the outcomes of three requests. *)
Definition first_rejection {A B C} (a : result A) (b : result B) (c : result C)
  : option thrown :=
  match a, b, c with
  | inl e, _, _ => Some e
  | _, inl e, _ => Some e
  | _, _, inl e => Some e
  | _, _, _ => None
  end.

(** [loadConfig]'s relabelling of what its [try] block threw. *)
Definition load_error (cause : thrown) : thrown :=
  match cause with
  | Err message => Err ("Failed to load configuration: " ++ message)
  | NonErr _ => cause
  end.

(** The object [analyzeServer] hands to [saveConfiguration], read off
    the result it returns and the time stamp [stamp]. *)
Definition descriptor_of (serverPath : string) (args : list string)
  (res : Analyzer.AnalysisResult) (stamp : string) : Analyzer.ServerConfig :=
  {| Analyzer.sc_name := Analyzer.expertName res;
     Analyzer.sc_description := Analyzer.expertDescription res;
     Analyzer.sc_serverPath := serverPath;
     Analyzer.sc_args := args;
     Analyzer.sc_systemPrompt := Analyzer.ar_systemPrompt res;
     Analyzer.sc_capabilities := Analyzer.ar_capabilities res;
     Analyzer.sc_metadata :=
       {| analyzedAt := stamp;
          toolCount := Z.of_nat (length (tools (Analyzer.ar_capabilities res)));
          resourceCount :=
            Z.of_nat (length (resources (Analyzer.ar_capabilities res)));
          promptCount :=
            Z.of_nat (length (prompts (Analyzer.ar_capabilities res))) |} |}.

(** The name of the file a descriptor is saved under. *)
Definition descriptor_file (expert : string) (now : Z) : string :=
  replace_spaces (toLowerCase expert) ++ "-" ++ string_of_Z now ++ ".json".

(** An argument as a command line carries it: not empty, no space. *)
Definition plain_arg (piece : string) : bool :=
  negb (String.eqb piece "") &&
  all_chars (fun c => negb (Ascii.eqb c " ")) piece.

End Readings.
Export Readings.

(* ================================================================== *)
(** ** What a computation adds to the trace *)
(* ================================================================== *)

Open Scope list_scope.

Section EmitsFacts.
Context {W : Type}.
Variable P : event -> Prop.

Lemma emits_ret {A} (a : A) : emits (W := W) P (ret a).
Proof. intros st. exists []. simpl. rewrite app_nil_r. auto. Qed.

Lemma emits_throw {A} (e : thrown) : emits (W := W) (A := A) P (throw e).
Proof. intros st. exists []. simpl. rewrite app_nil_r. auto. Qed.

Lemma emits_lift {A} (r : result A) : emits (W := W) P (lift r).
Proof. destruct r; [apply emits_throw | apply emits_ret]. Qed.

Lemma emits_observe {A} (f : W -> A * W) : emits P (observe f).
Proof.
  intros st. exists []. unfold observe. destruct (f (world st)). simpl.
  rewrite app_nil_r. auto.
Qed.

Lemma emits_request {A} (ev : event) (oracle : W -> result A * W) :
  P ev -> emits P (request ev oracle).
Proof.
  intros Hev st. exists [ev]. unfold request.
  destruct (oracle (world st)). simpl. auto.
Qed.

Lemma emits_bind {A B} (m : M W A) (k : A -> M W B) :
  emits P m -> (forall a, emits P (k a)) -> emits P (bind m k).
Proof.
  intros Hm Hk st. unfold bind.
  destruct (Hm st) as [tr1 [E1 F1]].
  destruct (m st) as [[e | a] st1]; simpl in E1.
  - exists tr1. simpl. auto.
  - destruct (Hk a st1) as [tr2 [E2 F2]].
    exists (tr1 ++ tr2). rewrite E2, E1, app_assoc. split; auto.
    apply Forall_app; auto.
Qed.

Lemma emits_try_catch {A} (m : M W A) (h : thrown -> M W A) :
  emits P m -> (forall e, emits P (h e)) -> emits P (try_catch m h).
Proof.
  intros Hm Hh st. unfold try_catch.
  destruct (Hm st) as [tr1 [E1 F1]].
  destruct (m st) as [[e | a] st1]; simpl in E1.
  - destruct (Hh e st1) as [tr2 [E2 F2]].
    exists (tr1 ++ tr2). rewrite E2, E1, app_assoc. split; auto.
    apply Forall_app; auto.
  - exists tr1. simpl. auto.
Qed.

Lemma emits_try_finally {A} (m : M W A) (c : M W unit) :
  emits P m -> emits P c -> emits P (try_finally m c).
Proof.
  intros Hm Hc st. unfold try_finally.
  destruct (Hm st) as [tr1 [E1 F1]].
  destruct (m st) as [r st1]; simpl in E1.
  destruct (Hc st1) as [tr2 [E2 F2]].
  exists (tr1 ++ tr2).
  destruct (c st1) as [[e | u] st2]; simpl in *;
    rewrite E2, E1, app_assoc; split; auto; apply Forall_app; auto.
Qed.

Lemma emits_attempt {A} (m : M W A) : emits P m -> emits P (attempt m).
Proof.
  intros Hm st. unfold attempt.
  destruct (Hm st) as [tr1 [E1 F1]].
  destruct (m st) as [r st1]; simpl in *. eauto.
Qed.

Lemma emits_Promise_all3 {A B C} (a : M W A) (b : M W B) (c : M W C) :
  emits P a -> emits P b -> emits P c -> emits P (Promise_all3 a b c).
Proof.
  intros Ha Hb Hc. unfold Promise_all3.
  apply emits_bind; [apply emits_attempt; exact Ha | intros ra].
  apply emits_bind; [apply emits_attempt; exact Hb | intros rb].
  apply emits_bind; [apply emits_attempt; exact Hc | intros rc].
  destruct ra, rb, rc; first [apply emits_throw | apply emits_ret].
Qed.

End EmitsFacts.

(** Solves [emits P m] for a program [m] built from the combinators,
    once the side conditions [P ev] on its requests compute. *)
Ltac emits_auto :=
  repeat first
    [ apply emits_ret | apply emits_throw | apply emits_lift
    | apply emits_observe
    | apply emits_request; first [ reflexivity | discriminate | exact I ]
    | apply emits_bind; [ | intros ? ]
    | apply emits_try_catch; [ | intros ? ]
    | apply emits_try_finally
    | apply emits_attempt
    | apply emits_Promise_all3
    | match goal with
      | |- emits _ (match ?x with _ => _ end) => destruct x
      | |- emits _ (if ?b then _ else _) => destruct b
      end ].

Lemma emits_weaken {W A} (P Q : event -> Prop) (m : M W A) :
  (forall ev, P ev -> Q ev) -> emits P m -> emits Q m.
Proof.
  intros HPQ Hm st. destruct (Hm st) as [tr [E F]].
  exists tr. split; auto. eapply Forall_impl; eauto.
Qed.

Lemma filter_none (p : event -> bool) (tr : list event) :
  Forall (fun ev => p ev = false) tr -> filter p tr = [].
Proof.
  induction 1 as [| ev tr Hev _ IH]; simpl; auto. rewrite Hev. exact IH.
Qed.

Lemma count_app (p : event -> bool) (tr1 tr2 : list event) :
  count p (tr1 ++ tr2) = count p tr1 + count p tr2.
Proof. unfold count. rewrite filter_app, length_app. reflexivity. Qed.

Lemma count_none (p : event -> bool) (tr : list event) :
  Forall (fun ev => p ev = false) tr -> count p tr = 0.
Proof. intros H. unfold count. rewrite filter_none; auto. Qed.

(* ================================================================== *)
(** ** The discovery engine *)
(* ================================================================== *)

Section AnalyzerFacts.
Context {W : Type} {rt : Runtime} {host : Host W}.
Import Analyzer.

Lemma discoverCapabilities_no_planner :
  emits (W := W) not_generate discoverCapabilities.
Proof. unfold discoverCapabilities, not_generate. emits_auto. Qed.

Lemma analyzeConnected_no_close (serverPath : string) (args : list string) :
  emits (W := W) not_client_close (analyzeConnected serverPath args).
Proof.
  unfold analyzeConnected, discoverCapabilities, analyzeWithLLM,
    saveConfiguration, not_client_close.
  emits_auto.
Qed.

(** With the credential present and the peer reachable, [analyzeServer]
    is its [try] block under its [finally] block, run after [connect]. *)
Lemma analyzeServer_connected (serverPath : string) (args : list string)
  (st : state W) (key : string) (u : unit) (w1 : W) :
  env_OPENAI_API_KEY (world st) = Some key ->
  key <> "" ->
  client_connect serverPath args (world st) = (inr u, w1) ->
  analyzeServer serverPath args st =
  try_finally (analyzeConnected serverPath args)
              (request EClientClose client_close)
              (mkState w1 (trace st ++ [EConnect serverPath args])).
Proof.
  intros Hkey Hne Hconn.
  unfold analyzeServer, validateEnvironment, connectToServer.
  unfold bind, observe, attempt, try_catch, request. simpl.
  rewrite Hkey. apply String.eqb_neq in Hne. rewrite Hne. simpl.
  rewrite Hconn. reflexivity.
Qed.

(** Without a connection nothing is closed: a missing credential stops
    the run before any request, a failed connection after that one. *)
Lemma analyzeServer_unconnected (serverPath : string) (args : list string)
  (w : W) (e : thrown) (w1 : W) :
  client_connect serverPath args w = (inl e, w1) ->
  exists e', fst (run (analyzeServer serverPath args) w) = inl e' /\
  count is_client_close (trace (snd (run (analyzeServer serverPath args) w))) = 0.
Proof.
  intros Hconn.
  unfold run, analyzeServer, validateEnvironment, connectToServer.
  unfold bind, observe, attempt, try_catch, request, throw. simpl.
  destruct (env_OPENAI_API_KEY w) as [key |]; simpl; eauto.
  destruct (String.eqb key ""); simpl; eauto.
  rewrite Hconn. simpl. eauto.
Qed.

End AnalyzerFacts.

Section DiscoveryClaims.
Context {W : Type} {rt : Runtime} {host : Host W}.
Import Analyzer.

Lemma discoverCapabilities_tools_rejected (st : state W) (e : thrown) (w1 : W) :
  client_listTools (world st) = (inl e, w1) ->
  discoverCapabilities st = (inl e, mkState w1 (trace st ++ [EListTools])).
Proof.
  intros Htools.
  unfold discoverCapabilities, try_catch, bind, request, throw.
  rewrite Htools. reflexivity.
Qed.

Lemma discoverCapabilities_tools_listed (st : state W)
  (t : ListToolsResult) (w1 : W) :
  client_listTools (world st) = (inr t, w1) ->
  exists caps st',
    discoverCapabilities st = (inr caps, st') /\
    tools caps = or_empty (lt_tools t) /\
    (forall e w2, client_listResources w1 = (inl e, w2) -> resources caps = []) /\
    (forall e w3, client_listPrompts (snd (client_listResources w1)) = (inl e, w3) ->
                  prompts caps = []).
Proof.
  intros Htools.
  unfold discoverCapabilities, try_catch, bind, request, ret.
  rewrite Htools. simpl.
  destruct (client_listResources w1) as [[er | r] w2]; simpl;
    destruct (client_listPrompts w2) as [[ep | p] w3]; simpl;
    do 2 eexists; (split; [reflexivity |]); simpl;
    repeat split; intros; congruence.
Qed.

(** C4. Discovery treats the tool list as mandatory and the resource and
    prompt lists as optional.  When the peer answers the tool-list
    request, [discoverCapabilities] returns, whatever becomes of the two
    other requests, and a rejected resource-list or prompt-list request
    leaves the empty sequence in its place.  When the peer rejects the
    tool-list request, [discoverCapabilities] throws that very error
    after this one request, and the discovery run [analyzeServer] that
    made it fails without any request to the planner. *)
Theorem C4_tools_mandatory_resources_prompts_optional (w : W) :
  (forall t w1, client_listTools w = (inr t, w1) ->
     exists caps st,
       run discoverCapabilities w = (inr caps, st) /\
       tools caps = or_empty (lt_tools t) /\
       (forall e w2, client_listResources w1 = (inl e, w2) ->
                     resources caps = []) /\
       (forall e w3,
          client_listPrompts (snd (client_listResources w1)) = (inl e, w3) ->
          prompts caps = [])) /\
  (forall e w1, client_listTools w = (inl e, w1) ->
     run discoverCapabilities w = (inl e, mkState w1 [EListTools]) /\
     forall serverPath args w0 key u,
       env_OPENAI_API_KEY w0 = Some key -> key <> "" ->
       client_connect serverPath args w0 = (inr u, w) ->
       exists e',
         fst (run (analyzeServer serverPath args) w0) = inl e' /\
         count is_generate
           (trace (snd (run (analyzeServer serverPath args) w0))) = 0).
Proof.
  split.
  - intros t w1 Htools.
    exact (discoverCapabilities_tools_listed (mkState w []) t w1 Htools).
  - intros e w1 Htools. split.
    + exact (discoverCapabilities_tools_rejected (mkState w []) e w1 Htools).
    + intros serverPath args w0 key u Hkey Hne Hconn.
      unfold run.
      rewrite (analyzeServer_connected serverPath args (mkState w0 []) key u w
                 Hkey Hne Hconn).
      unfold try_finally, analyzeConnected, bind. simpl.
      rewrite (discoverCapabilities_tools_rejected
                 (mkState w [EConnect serverPath args]) e w1 Htools).
      unfold request. simpl.
      destruct (client_close w1) as [[ec | uc] w2]; simpl;
        eexists; split; reflexivity.
Qed.

(** C5. On every exit of a discovery run that opened the peer connection
    -- the run may return its result or fail at any later step: an
    enumeration, the planner call, the parse of its answer, the write of
    the descriptor -- the connection is closed exactly once, and the
    close is the last request of the run. *)
Theorem C5_connection_closed_exactly_once
  (serverPath : string) (args : list string) (w : W)
  (key : string) (u : unit) (w1 : W)
  (res : result AnalysisResult) (st : state W) :
  env_OPENAI_API_KEY w = Some key -> key <> "" ->
  client_connect serverPath args w = (inr u, w1) ->
  run (analyzeServer serverPath args) w = (res, st) ->
  count is_client_close (trace st) = 1 /\
  exists before, trace st = before ++ [EClientClose].
Proof.
  intros Hkey Hne Hconn Hrun. unfold run in Hrun.
  rewrite (analyzeServer_connected serverPath args (mkState w []) key u w1
             Hkey Hne Hconn) in Hrun.
  unfold try_finally in Hrun. simpl in Hrun.
  destruct (analyzeConnected_no_close serverPath args
              (mkState w1 [EConnect serverPath args])) as [tr [Etr Ftr]].
  destruct (analyzeConnected serverPath args
              (mkState w1 [EConnect serverPath args])) as [r st1].
  cbn [snd trace] in Etr. unfold request in Hrun.
  destruct (client_close (world st1)) as [[ec | uc] w2];
    inversion Hrun; subst; cbn [trace]; rewrite Etr;
    (split; [| eexists; reflexivity]);
    rewrite !count_app, (count_none _ tr Ftr); reflexivity.
Qed.

End DiscoveryClaims.

(** The peer of the mock world implements tools only: discovery returns
    with empty resources and prompts. *)
Lemma C4_witness :
  exists caps st,
    run (Analyzer.discoverCapabilities (host := Scripted.host))
        (Scripted.mock_world (inr "{}")) = (inr caps, st) /\
    tools caps = Scripted.mock_tools /\ resources caps = [] /\ prompts caps = [].
Proof.
  destruct (proj1 (C4_tools_mandatory_resources_prompts_optional
                     (rt := Json.runtime) (host := Scripted.host)
                     (Scripted.mock_world (inr "{}")))
                  _ _ eq_refl)
    as [caps [st [Hrun [Ht [Hr Hp]]]]].
  exists caps, st. split; [exact Hrun |]. split; [exact Ht |].
  split; [eapply Hr | eapply Hp]; reflexivity.
Defined.

(** A run whose planner call is rejected still closes the connection. *)
Lemma C5_witness :
  count is_client_close
    (trace (snd (run (Analyzer.analyzeServer (rt := Json.runtime)
                        (host := Scripted.host) "node" ["server.js"])
                     (Scripted.mock_world (inl (Err "LLM API error")))))) = 1.
Proof.
  refine (proj1 (C5_connection_closed_exactly_once
                   (rt := Json.runtime) (host := Scripted.host)
                   "node" ["server.js"]
                   (Scripted.mock_world (inl (Err "LLM API error")))
                   "sk-test" tt _ _ _ eq_refl _ eq_refl
                   (surjective_pairing _))).
  discriminate.
Defined.

(* ================================================================== *)
(** ** The coordination engine: execute mode *)
(* ================================================================== *)

Section ExecuteFacts.
Context {W : Type} {rt : Runtime} {host : Host W}.
Import Wrapper.

Lemma get_prop (v : value) (k : string) :
  nullish v = false -> get v k = inr (prop v k).
Proof. unfold prop. destruct v; simpl; intros H; congruence. Qed.

Lemma get_defined (v : value) (k k' : string) (x : value) :
  get v k = inr x -> get v k' = inr (prop v k').
Proof. intros H. apply get_prop. destruct v; simpl in *; congruence. Qed.

Lemma executeCall_spec (toolCall : value) (results : list value) (st : state W) :
  nullish toolCall = false ->
  executeCall toolCall results st =
  (inr (results ++
        [entry toolCall
           (fst (client_callTool (prop toolCall "name")
                                 (prop toolCall "arguments") (world st)))]),
   mkState (snd (client_callTool (prop toolCall "name")
                                 (prop toolCall "arguments") (world st)))
           (trace st ++ [planned_request toolCall])).
Proof.
  intros Hcall.
  unfold executeCall, try_catch, bind, request.
  rewrite !(get_prop toolCall _ Hcall). simpl.
  destruct (client_callTool (prop toolCall "name")
                            (prop toolCall "arguments") (world st))
    as [[e | r] w1]; simpl;
    try rewrite !(get_prop toolCall _ Hcall); reflexivity.
Qed.

Lemma executeCalls_spec (toolCalls : list value) :
  Forall (fun call => nullish call = false) toolCalls ->
  forall (results : list value) (st : state W),
    executeCalls toolCalls results st =
    (inr (results ++ fst (attempt_all toolCalls (world st))),
     mkState (snd (attempt_all toolCalls (world st)))
             (trace st ++ map planned_request toolCalls)).
Proof.
  induction 1 as [| call rest Hcall _ IH]; intros results st.
  - simpl. unfold ret. rewrite !app_nil_r. destruct st; reflexivity.
  - simpl. unfold bind. rewrite (executeCall_spec call results st Hcall).
    rewrite IH. simpl.
    destruct (client_callTool (prop call "name") (prop call "arguments")
                              (world st)) as [answer w1].
    simpl. destruct (attempt_all rest w1) as [entries w2]. simpl.
    rewrite <- !app_assoc. reflexivity.
Qed.

Lemma attempt_all_length (calls : list value) (w : W) :
  length (fst (attempt_all calls w)) = length calls.
Proof.
  revert w. induction calls as [| call rest IH]; intros w; simpl; auto.
  destruct (client_callTool _ _ w) as [answer w1].
  specialize (IH w1). destruct (attempt_all rest w1). simpl in *. congruence.
Qed.

(** A plan of the expected shape has a sequence of calls, none of them
    [null] or [undefined]. *)
Lemma plan_shape_calls (plan : value) :
  plan_shape plan = true ->
  exists calls,
    get plan "toolCalls" = inr (VArr calls) /\
    Forall (fun call => nullish call = false) calls.
Proof.
  destruct plan as [| | | | | | fields]; try discriminate. simpl.
  destruct (lookup "toolCalls" fields) as [| | | | | calls |]; try discriminate.
  destruct (lookup "explanation" fields); try discriminate.
  intros H. exists calls. split; [reflexivity |].
  rewrite forallb_forall in H. apply Forall_forall. intros call Hin.
  specialize (H call Hin). destruct call; simpl in *; congruence.
Qed.

Lemma handleExpertQuery_execute (query : string) (mode : option string)
  (config : WrapperConfig) :
  effective_mode mode = "execute" ->
  handleExpertQuery query mode config = handleExecute query config.
Proof. intros H. unfold handleExpertQuery. rewrite H. reflexivity. Qed.

(** C1. In execute mode, once the planner's text has parsed into a plan
    whose [toolCalls] is a sequence of calls (objects, or any value but
    [null]), the engine puts every planned call to the peer, in plan
    order, under the name and with the arguments the plan supplies; a call
    the peer answers leaves [{tool, result}], a call the peer rejects
    leaves [{tool, error: message}], and the remaining calls are made all
    the same: the query returns [{explanation, results}] with exactly one
    entry per planned call, in plan order. *)
Theorem C1_execute_attempts_every_planned_call
  (query : string) (mode : option string) (config : WrapperConfig) (w : W)
  (t : ListToolsResult) (w1 : W) (text : string) (w2 : W)
  (plan : value) (calls : list value) :
  effective_mode mode = "execute" ->
  client_listTools w = (inr t, w1) ->
  generateText (coordinationPrompt config t query) w1 = (inr text, w2) ->
  JSON_parse text = inr plan ->
  get plan "toolCalls" = inr (VArr calls) ->
  Forall (fun call => nullish call = false) calls ->
  run (handleExpertQuery query mode config) w =
    (inr (VObj [("explanation", prop plan "explanation");
                ("results", VArr (fst (attempt_all calls w2)))]),
     mkState (snd (attempt_all calls w2))
             ([EListTools; EGenerateText (coordinationPrompt config t query)]
              ++ map planned_request calls)) /\
  length (fst (attempt_all calls w2)) = length calls.
Proof.
  intros Hmode Htools Hgen Hparse Hcalls Hshape.
  split; [| apply attempt_all_length].
  rewrite (handleExpertQuery_execute query mode config Hmode).
  unfold run, handleExecute, try_catch, bind, request. simpl.
  rewrite Htools. simpl. rewrite Hgen. simpl. rewrite Hparse. simpl.
  rewrite Hcalls. simpl.
  rewrite (executeCalls_spec calls Hshape). simpl.
  rewrite (get_defined plan "toolCalls" "explanation" _ Hcalls). simpl.
  reflexivity.
Qed.

(** C2, as the code has it.  In execute mode the planner's text is
    parsed as JSON and read; it is not validated against the shape of an
    Invocation Plan.  The query fails with [Failed to coordinate with
    wrapped server: ] followed by the message of the cause, the peer
    having been asked for its tool list, the planner for a plan, and no
    tool having been invoked, in each case where the reading throws
    before a first call: the text is not a JSON document; the document
    is [null]; its [toolCalls] is truthy and cannot be iterated; its
    [toolCalls] is an array whose first entry is [null].  These
    departures from the shape pass: a document whose [toolCalls] is
    missing or falsy is no Invocation Plan, and the query succeeds with
    no result and no tool invoked; a [toolCalls] that is an array of
    non-null entries has every entry put to the peer, in order, whatever
    name and arguments the entries hold and whatever explanation the
    document holds. *)
Theorem C2_plan_is_read_not_validated
  (query : string) (mode : option string) (config : WrapperConfig) (w : W)
  (t : ListToolsResult) (w1 : W) (text : string) (w2 : W) :
  effective_mode mode = "execute" ->
  client_listTools w = (inr t, w1) ->
  generateText (coordinationPrompt config t query) w1 = (inr text, w2) ->
  let asked :=
    [EListTools; EGenerateText (coordinationPrompt config t query)] in
  let fails_unrun (e : thrown) :=
    run (handleExpertQuery query mode config) w =
      (inl (Err ("Failed to coordinate with wrapped server: "
                 ++ error_message e)),
       mkState w2 asked) in
  count is_call_tool asked = 0 /\
  (forall e, JSON_parse text = inl e -> fails_unrun e) /\
  (forall plan e,
     JSON_parse text = inr plan ->
     get plan "toolCalls" = inl e ->
     fails_unrun e) /\
  (forall plan toolCalls e,
     JSON_parse text = inr plan ->
     get plan "toolCalls" = inr toolCalls ->
     truthy toolCalls = true ->
     iterate toolCalls = inl e ->
     fails_unrun e) /\
  (forall plan first rest e,
     JSON_parse text = inr plan ->
     get plan "toolCalls" = inr (VArr (first :: rest)) ->
     get first "name" = inl e ->
     fails_unrun e) /\
  (forall plan toolCalls,
     JSON_parse text = inr plan ->
     get plan "toolCalls" = inr toolCalls ->
     truthy toolCalls = false ->
     plan_shape plan = false /\
     run (handleExpertQuery query mode config) w =
       (inr (VObj [("explanation", prop plan "explanation");
                   ("results", VArr [])]),
        mkState w2 asked)) /\
  (forall plan calls,
     JSON_parse text = inr plan ->
     get plan "toolCalls" = inr (VArr calls) ->
     Forall (fun call => nullish call = false) calls ->
     run (handleExpertQuery query mode config) w =
       (inr (VObj [("explanation", prop plan "explanation");
                   ("results", VArr (fst (attempt_all calls w2)))]),
        mkState (snd (attempt_all calls w2))
                (asked ++ map planned_request calls))).
Proof.
  intros Hmode Htools Hgen asked fails_unrun. subst fails_unrun asked.
  cbv beta.
  rewrite (handleExpertQuery_execute query mode config Hmode).
  split; [reflexivity |].
  split; [| split; [| split; [| split; [| split]]]].
  - intros e Hparse.
    unfold run, handleExecute, try_catch, bind, request, throw. simpl.
    rewrite Htools. simpl. rewrite Hgen. simpl. rewrite Hparse. reflexivity.
  - intros plan e Hparse Hget.
    unfold run, handleExecute, try_catch, bind, request, throw. simpl.
    rewrite Htools. simpl. rewrite Hgen. simpl. rewrite Hparse. simpl.
    rewrite Hget. reflexivity.
  - intros plan toolCalls e Hparse Hget Htruthy Hiter.
    unfold run, handleExecute, try_catch, bind, request, throw. simpl.
    rewrite Htools. simpl. rewrite Hgen. simpl. rewrite Hparse. simpl.
    rewrite Hget. simpl. unfold or_else. rewrite Htruthy, Hiter. reflexivity.
  - intros plan first rest e Hparse Hget Hfirst.
    unfold run, handleExecute, try_catch, bind, request, throw. simpl.
    rewrite Htools. simpl. rewrite Hgen. simpl. rewrite Hparse. simpl.
    rewrite Hget. cbn [or_else truthy iterate lift ret executeCalls].
    unfold executeCall, try_catch, bind, throw. rewrite Hfirst. reflexivity.
  - intros plan toolCalls Hparse Hget Hfalsy. split.
    + destruct plan as [| | | | | | fields]; try reflexivity.
      simpl in Hget. inversion Hget as [Hlookup]. simpl. rewrite Hlookup.
      destruct toolCalls; try reflexivity. discriminate Hfalsy.
    + unfold run, handleExecute, try_catch, bind, request. simpl.
      rewrite Htools. simpl. rewrite Hgen. simpl. rewrite Hparse. simpl.
      rewrite Hget. simpl. unfold or_else. rewrite Hfalsy. simpl.
      rewrite (get_defined plan "toolCalls" "explanation" _ Hget). reflexivity.
  - intros plan calls Hparse Hget Hcalls.
    unfold run, handleExecute, try_catch, bind, request. simpl.
    rewrite Htools. simpl. rewrite Hgen. simpl. rewrite Hparse. simpl.
    rewrite Hget. simpl.
    rewrite (executeCalls_spec calls Hcalls). simpl.
    rewrite (get_defined plan "toolCalls" "explanation" _ Hget). simpl.
    reflexivity.
Qed.

End ExecuteFacts.

Import Scripted.

(** The scenario of partial failure: the first planned call names a tool
    the peer does not have, the second still executes. *)
Lemma C1_witness :
  fst (run (Wrapper.handleExpertQuery (rt := Json.runtime) (host := host)
              "Please add 15 and 27" None validConfig)
           (mock_world (inr (Json.stringify two_call_plan)))) =
  inr (VObj
    [("explanation", VStr "Multiplying, then adding 15 and 27");
     ("results",
      VArr [VObj [("tool", VStr "multiply");
                  ("error", VStr "Unknown tool: multiply")];
            VObj [("tool", VStr "add");
                  ("result", VArr [VObj [("type", VStr "text");
                                         ("text", VStr "42")]])]])]).
Proof.
  refine (eq_trans
    (f_equal fst
       (proj1 (C1_execute_attempts_every_planned_call
                 (rt := Json.runtime) (host := host)
                 "Please add 15 and 27" None validConfig
                 (mock_world (inr (Json.stringify two_call_plan)))
                 {| lt_tools := Some mock_tools |}
                 (mock_world (inr (Json.stringify two_call_plan)))
                 (Json.stringify two_call_plan)
                 (mock_world (inr (Json.stringify two_call_plan)))
                 two_call_plan
                 [VObj [("name", VStr "multiply");
                        ("arguments", VObj [("a", VNum 2); ("b", VNum 3)])];
                  VObj [("name", VStr "add");
                        ("arguments", VObj [("a", VNum 15); ("b", VNum 27)])]]
                 eq_refl eq_refl eq_refl _ eq_refl _))) _).
  - vm_compute. reflexivity.
  - repeat constructor.
  - vm_compute. reflexivity.
Defined.

(** The scenarios of the planner that answers a text that is no JSON,
    and of the planner that answers [null]. *)
Lemma C2_witness :
  (fst (run (Wrapper.handleExpertQuery (rt := Json.runtime) (host := host)
               "Please add 15 and 27" (Some "execute") validConfig)
            (mock_world (inr "invalid json"))) =
   inl (Err "Failed to coordinate with wrapped server: Unexpected token in JSON")
   /\
   count is_call_tool
     (trace (snd (run (Wrapper.handleExpertQuery (rt := Json.runtime)
                         (host := host)
                         "Please add 15 and 27" (Some "execute") validConfig)
                      (mock_world (inr "invalid json"))))) = 0) /\
  run (Wrapper.handleExpertQuery (rt := Json.runtime) (host := host)
         "Please add 15 and 27" (Some "execute") validConfig)
      (mock_world (inr "null")) =
  (inl (Err "Failed to coordinate with wrapped server: Cannot read properties of null (reading 'toolCalls')"),
   mkState (mock_world (inr "null"))
     [EListTools;
      EGenerateText
        (Wrapper.coordinationPrompt (rt := Json.runtime) validConfig
           {| lt_tools := Some mock_tools |} "Please add 15 and 27")]).
Proof.
  split.
  - destruct (C2_plan_is_read_not_validated
                (rt := Json.runtime) (host := host)
                "Please add 15 and 27" (Some "execute") validConfig
                (mock_world (inr "invalid json"))
                {| lt_tools := Some mock_tools |}
                (mock_world (inr "invalid json"))
                "invalid json"
                (mock_world (inr "invalid json"))
                eq_refl eq_refl eq_refl) as (Hcount & Hparse & _).
    rewrite (Hparse (Err "Unexpected token in JSON") eq_refl).
    split; [reflexivity | exact Hcount].
  - destruct (C2_plan_is_read_not_validated
                (rt := Json.runtime) (host := host)
                "Please add 15 and 27" (Some "execute") validConfig
                (mock_world (inr "null"))
                {| lt_tools := Some mock_tools |}
                (mock_world (inr "null"))
                "null"
                (mock_world (inr "null"))
                eq_refl eq_refl eq_refl) as (_ & _ & Hnull & _).
    exact (Hnull VNull
             (Err "Cannot read properties of null (reading 'toolCalls')")
             eq_refl eq_refl).
Defined.

(** C2 as stated fails on a text that parses but lacks the shape of a
    plan.  The planner answers [{}]: the document is read, it is no
    Invocation Plan, and the query succeeds with no results instead of
    failing.  The planner answers a plan without arguments and
    explanation: it is no Invocation Plan either, the query succeeds, and
    the tool it names has been invoked. *)
Lemma C2_counterexample :
  (Json.parse "{}" = inr (VObj []) /\
   plan_shape (VObj []) = false /\
   fst (run (Wrapper.handleExpertQuery (rt := Json.runtime) (host := host)
               "What time is it?" (Some "execute") validConfig)
            (mock_world (inr "{}"))) =
   inr (VObj [("explanation", VUndefined); ("results", VArr [])])) /\
  (Json.parse (Json.stringify bare_plan) = inr bare_plan /\
   plan_shape bare_plan = false /\
   fst (run (Wrapper.handleExpertQuery (rt := Json.runtime) (host := host)
               "What time is it?" (Some "execute") validConfig)
            (mock_world (inr (Json.stringify bare_plan)))) =
   inr (VObj [("explanation", VUndefined);
              ("results",
               VArr [VObj [("tool", VStr "getCurrentTime");
                           ("result",
                            VArr [VObj [("type", VStr "text");
                                        ("text", VStr "2025-01-01T00:00:00.000Z")]])]])]) /\
   count is_call_tool
     (trace (snd (run (Wrapper.handleExpertQuery (rt := Json.runtime)
                         (host := host)
                         "What time is it?" (Some "execute") validConfig)
                      (mock_world (inr (Json.stringify bare_plan)))))) = 1).
Proof. vm_compute. repeat split. Qed.

(* ================================================================== *)
(** ** The coordination engine: the entry point and the other modes *)
(* ================================================================== *)

Section EntryPointFacts.
Context {W : Type} {rt : Runtime} {host : Host W}.
Import Wrapper.

Lemma handleDiscover_no_planner (config : WrapperConfig) :
  emits (W := W) not_generate (handleDiscover config).
Proof. unfold handleDiscover, not_generate. emits_auto. Qed.

Lemma handleExplain_no_planner (config : WrapperConfig) :
  emits (W := W) not_generate (handleExplain config).
Proof. unfold handleExplain, not_generate. emits_auto. Qed.

Lemma run_no_planner {A} (m : M W A) (w : W) :
  emits not_generate m -> count is_generate (trace (snd (run m w))) = 0.
Proof.
  intros Hm. unfold run. destruct (Hm (mkState w [])) as [tr [E F]].
  rewrite E. simpl. apply count_none. exact F.
Qed.

(** What the entry point does with well-typed arguments: the query and
    the mode go to [handleExpertQuery], its result comes back as text. *)
Lemma callToolHandler_accepted (expertTool : ToolDefinition)
  (config : WrapperConfig) (req : CallToolRequest)
  (fields : list (string * value)) (q m : string) :
  params_name req = td_name expertTool ->
  params_arguments req = VObj fields ->
  lookup "query" fields = VStr q ->
  lookup "mode" fields = VStr m ->
  is_mode m = true ->
  callToolHandler expertTool config req =
  bind (handleExpertQuery q (Some m) config)
       (fun result =>
          ret (VObj [("content",
                      VArr [VObj [("type", VStr "text");
                                  ("text", VStr (JSON_stringify result))]])])).
Proof.
  intros Hname Hargs Hq Hm Hmode.
  unfold callToolHandler. rewrite Hname, String.eqb_refl. simpl.
  unfold ExpertToolSchema_parse. rewrite Hargs. simpl.
  rewrite Hq, Hm. simpl. rewrite Hmode. simpl. reflexivity.
Qed.

(** C9. An invocation of the entry point whose [mode] is present and is
    not one of [discover], [execute], [explain] is rejected by the input
    schema with a validation error, in the state it arrived in: no request
    has gone to the peer or to the planner, and in particular the query
    was not run in execute mode. *)
Theorem C9_unknown_mode_rejected_before_any_call
  (expertTool : ToolDefinition) (config : WrapperConfig)
  (req : CallToolRequest) (fields : list (string * value))
  (q : string) (modeValue : value) (st : state W) :
  params_name req = td_name expertTool ->
  params_arguments req = VObj fields ->
  lookup "query" fields = VStr q ->
  lookup "mode" fields = modeValue ->
  modeValue <> VUndefined ->
  (forall m, modeValue = VStr m -> is_mode m = false) ->
  callToolHandler expertTool config req st =
  (inl (ZodError "mode" "'discover' | 'execute' | 'explain'"), st).
Proof.
  intros Hname Hargs Hq Hm Hdef Hout.
  unfold callToolHandler. rewrite Hname, String.eqb_refl. simpl.
  unfold ExpertToolSchema_parse. rewrite Hargs. simpl.
  rewrite Hq, Hm. simpl.
  destruct modeValue; try reflexivity; [congruence |].
  rewrite (Hout s eq_refl). reflexivity.
Qed.

(** C10. In discover mode and in explain mode the query string plays no
    part.  Two invocations of the entry point in one of these modes, from
    the same state of the world, that differ in their query (and in
    nothing the schema reads besides) give the same result and leave the
    same state; so do two calls of [handleExpertQuery]; and the run makes
    no request to the planner. *)
Theorem C10_discover_explain_ignore_query
  (expertTool : ToolDefinition) (config : WrapperConfig)
  (req1 req2 : CallToolRequest) (fields1 fields2 : list (string * value))
  (q1 q2 m : string) (w : W) :
  m = "discover" \/ m = "explain" ->
  params_name req1 = td_name expertTool ->
  params_name req2 = td_name expertTool ->
  params_arguments req1 = VObj fields1 ->
  params_arguments req2 = VObj fields2 ->
  lookup "query" fields1 = VStr q1 ->
  lookup "query" fields2 = VStr q2 ->
  lookup "mode" fields1 = VStr m ->
  lookup "mode" fields2 = VStr m ->
  run (callToolHandler expertTool config req1) w =
  run (callToolHandler expertTool config req2) w /\
  run (handleExpertQuery q1 (Some m) config) w =
  run (handleExpertQuery q2 (Some m) config) w /\
  count is_generate
    (trace (snd (run (callToolHandler expertTool config req1) w))) = 0.
Proof.
  intros Hm Hn1 Hn2 Ha1 Ha2 Hq1 Hq2 Hm1 Hm2.
  assert (Hmode : is_mode m = true) by (destruct Hm; subst; reflexivity).
  rewrite (callToolHandler_accepted expertTool config req1 fields1 q1 m)
    by assumption.
  rewrite (callToolHandler_accepted expertTool config req2 fields2 q2 m)
    by assumption.
  assert (Hsame : handleExpertQuery q1 (Some m) config =
                  handleExpertQuery q2 (Some m) config)
    by (destruct Hm; subst; reflexivity).
  rewrite Hsame. repeat split.
  apply run_no_planner. apply emits_bind; [| intros; apply emits_ret].
  destruct Hm; subst; unfold handleExpertQuery; simpl;
    [apply handleDiscover_no_planner | apply handleExplain_no_planner].
Qed.

(** C6, as the code has it.  The [SIGINT] listener closes the peer
    connection, then the serving transport, then exits the process with
    status 0, and takes each step only if the one before it did not fail:
    a rejected peer close ends the listener with the transport not closed
    and the process not exited by it, a rejected transport close ends it
    after both closes with the process not exited by it. *)
Theorem C6_shutdown_steps_in_sequence (w : W) :
  run sigintHandler w =
  match client_close w with
  | (inl e, w1) => (inl e, mkState w1 [EClientClose])
  | (inr _, w1) =>
      match server_close w1 with
      | (inl e, w2) => (inl e, mkState w2 [EClientClose; EServerClose])
      | (inr _, w2) =>
          (inr tt, mkState w2 [EClientClose; EServerClose; EExit 0])
      end
  end.
Proof.
  unfold run, sigintHandler, bind, request. simpl.
  destruct (client_close w) as [[e | u] w1]; simpl; [reflexivity |].
  destruct (server_close w1) as [[e | u'] w2]; reflexivity.
Qed.

End EntryPointFacts.

(** The scenario of the unknown mode. *)
Lemma C9_witness :
  Wrapper.callToolHandler (rt := Json.runtime) (host := host)
    (Wrapper.createExpertTool validConfig) validConfig
    {| Wrapper.params_name := "test-expert";
       Wrapper.params_arguments :=
         VObj [("query", VStr "What can you do?");
               ("mode", VStr "summarize")] |}
    (mkState (mock_world (inr "{}")) []) =
  (inl (ZodError "mode" "'discover' | 'execute' | 'explain'"),
   mkState (mock_world (inr "{}")) []).
Proof.
  apply (C9_unknown_mode_rejected_before_any_call
           (rt := Json.runtime) (host := host)
           (Wrapper.createExpertTool validConfig) validConfig _
           [("query", VStr "What can you do?"); ("mode", VStr "summarize")]
           "What can you do?" (VStr "summarize")).
  - reflexivity.
  - reflexivity.
  - reflexivity.
  - reflexivity.
  - discriminate.
  - intros m Hm. inversion Hm. reflexivity.
Defined.

(** Two discover invocations with different queries. *)
Lemma C10_witness :
  run (Wrapper.callToolHandler (rt := Json.runtime) (host := host)
         (Wrapper.createExpertTool validConfig) validConfig
         {| Wrapper.params_name := "test-expert";
            Wrapper.params_arguments :=
              VObj [("query", VStr "What are your capabilities?");
                    ("mode", VStr "discover")] |})
      (mock_world (inr "{}")) =
  run (Wrapper.callToolHandler (rt := Json.runtime) (host := host)
         (Wrapper.createExpertTool validConfig) validConfig
         {| Wrapper.params_name := "test-expert";
            Wrapper.params_arguments :=
              VObj [("mode", VStr "discover");
                    ("query", VStr "Delete everything")] |})
      (mock_world (inr "{}")).
Proof.
  exact (proj1 (C10_discover_explain_ignore_query
           (rt := Json.runtime) (host := host)
           (Wrapper.createExpertTool validConfig) validConfig
           {| Wrapper.params_name := "test-expert";
              Wrapper.params_arguments :=
                VObj [("query", VStr "What are your capabilities?");
                      ("mode", VStr "discover")] |}
           {| Wrapper.params_name := "test-expert";
              Wrapper.params_arguments :=
                VObj [("mode", VStr "discover");
                      ("query", VStr "Delete everything")] |}
           [("query", VStr "What are your capabilities?");
            ("mode", VStr "discover")]
           [("mode", VStr "discover"); ("query", VStr "Delete everything")]
           "What are your capabilities?" "Delete everything" "discover"
           (mock_world (inr "{}")) (or_introl eq_refl)
           eq_refl eq_refl eq_refl eq_refl eq_refl eq_refl eq_refl eq_refl)).
Defined.

(** C6 as stated fails when the peer's close is rejected: the listener
    ends there, and neither the close of the serving transport nor the
    exit has been attempted. *)
Lemma C6_counterexample :
  fst (client_close (Host := host) stuck_world) = inl (Err "Connection closed") /\
  run (Wrapper.sigintHandler (host := host)) stuck_world =
    (inl (Err "Connection closed"), mkState stuck_world [EClientClose]) /\
  count is_server_close
    (trace (snd (run (Wrapper.sigintHandler (host := host)) stuck_world))) = 0.
Proof. vm_compute. repeat split. Qed.

(* ================================================================== *)
(** ** The descriptor: schema, loading, round trip *)
(* ================================================================== *)

Lemma and_then_inr {A B} (r : result A) (k : A -> result B) (b : B) :
  and_then r k = inr b -> exists a, r = inr a /\ k a = inr b.
Proof. destruct r as [e | a]; simpl; [discriminate | eauto]. Qed.

Lemma z_string_inr (path : string) (v : value) (s : string) :
  z_string path v = inr s -> v = VStr s.
Proof. destruct v; simpl; congruence. Qed.

Lemma z_number_inr (path : string) (v : value) (z : Z) :
  z_number path v = inr z -> v = VNum z.
Proof. destruct v; simpl; congruence. Qed.

Lemma z_object_inr (path : string) (v : value) (o : list (string * value)) :
  z_object path v = inr o -> v = VObj o.
Proof. destruct v; simpl; congruence. Qed.

Lemma z_array_any_inr (path : string) (v : value) (items : list value) :
  z_array_any path v = inr items -> v = VArr items.
Proof. destruct v; simpl; congruence. Qed.

Lemma z_strings_inr (path : string) (items : list value) :
  forall ss, z_strings path items = inr ss -> items = map VStr ss.
Proof.
  induction items as [| v rest IH]; simpl; intros ss H.
  - inversion H. reflexivity.
  - apply and_then_inr in H. destruct H as [s [Hs H]].
    apply and_then_inr in H. destruct H as [ss' [Hss H]].
    inversion H. subst. apply z_string_inr in Hs. subst.
    rewrite (IH ss' Hss). reflexivity.
Qed.

Lemma z_strings_map (path : string) (ss : list string) :
  z_strings path (map VStr ss) = inr ss.
Proof. induction ss as [| s rest IH]; simpl; [| rewrite IH]; reflexivity. Qed.

Lemma z_array_string_inr (path : string) (v : value) (ss : list string) :
  z_array_string path v = inr ss -> v = VArr (map VStr ss).
Proof.
  unfold z_array_string. intros H.
  apply and_then_inr in H. destruct H as [items [Hitems H]].
  apply z_array_any_inr in Hitems. apply z_strings_inr in H. congruence.
Qed.

(** The schema accepts a document exactly when each of its fields has
    its type; the descriptor it returns holds the fields as they are. *)
Lemma WrapperConfigSchema_parse_describes (doc : value) (cfg : WrapperConfig) :
  WrapperConfigSchema_parse doc = inr cfg <-> describes doc cfg.
Proof.
  split.
  - unfold WrapperConfigSchema_parse. intros H.
    repeat match type of H with
           | and_then _ _ = inr _ =>
               apply and_then_inr in H;
               let a := fresh "a" in
               let Ha := fresh "Ha" in
               destruct H as [a [Ha H]]
           end.
    inversion H; subst; clear H.
    repeat match goal with
           | H : z_string _ _ = inr _ |- _ => apply z_string_inr in H
           | H : z_number _ _ = inr _ |- _ => apply z_number_inr in H
           | H : z_object _ _ = inr _ |- _ => apply z_object_inr in H
           | H : z_array_any _ _ = inr _ |- _ => apply z_array_any_inr in H
           | H : z_array_string _ _ = inr _ |- _ => apply z_array_string_inr in H
           end.
    unfold describes. simpl.
    do 3 eexists. repeat split; eassumption.
  - intros [o [c [m H]]].
    destruct H as (Hdoc & Hname & Hdesc & Hpath & Hargs & Hprompt & Hcaps &
                   Htools & Hres & Hprompts & Hmeta & Hat & Htc & Hrc & Hpc).
    subst doc. unfold WrapperConfigSchema_parse. simpl.
    rewrite Hname, Hdesc, Hpath, Hargs, Hprompt, Hcaps, Hmeta. simpl.
    unfold z_array_string. simpl. rewrite z_strings_map. simpl.
    rewrite Htools, Hres, Hprompts, Hat, Htc, Hrc, Hpc. simpl.
    destruct cfg as [n d sp a s [t r p] [at_ tc rc pc]]. reflexivity.
Qed.

Section LoadFacts.
Context {W : Type} {rt : Runtime} {host : Host W}.
Import Wrapper.

Lemma loadConfig_inr (configPath : string) (st : state W)
  (cfg : WrapperConfig) (st' : state W) :
  loadConfig configPath st = (inr cfg, st') <->
  exists data w1 doc,
    fs_readFile configPath (world st) = (inr data, w1) /\
    JSON_parse data = inr doc /\
    describes doc cfg /\
    st' = mkState w1 (trace st ++ [EReadFile configPath]).
Proof.
  unfold loadConfig, try_catch, bind, request, lift, throw, ret.
  split.
  - destruct (fs_readFile configPath (world st)) as [[e | data] w1]; simpl.
    + destruct e; intros H; inversion H.
    + destruct (JSON_parse data) as [e | doc] eqn:Hparse; simpl.
      * destruct e; intros H; inversion H.
      * destruct (WrapperConfigSchema_parse doc) as [e | cfg'] eqn:Hschema;
          simpl.
        -- destruct e; intros H; inversion H.
        -- intros H. inversion H; subst.
           exists data, w1, doc. repeat split; auto.
           apply WrapperConfigSchema_parse_describes. exact Hschema.
  - intros [data [w1 [doc [Hread [Hparse [Hdesc Hst]]]]]].
    rewrite Hread. simpl. rewrite Hparse. simpl.
    apply WrapperConfigSchema_parse_describes in Hdesc. rewrite Hdesc. simpl.
    subst st'. reflexivity.
Qed.

(** C3, as the code has it.  Loading an Expert Descriptor validates the
    types of its fields and nothing else: it succeeds exactly when the
    file is read, its text is a JSON document, and the document holds
    each field with its type -- [toolCount], [resourceCount] and
    [promptCount] numbers; [tools], [resources] and [prompts] sequences.
    The counts are not compared with the lengths of the sequences: the
    descriptor loaded carries both as stored. *)
Theorem C3_load_validates_types_only
  (configPath : string) (w : W) (cfg : WrapperConfig) (st : state W) :
  run (loadConfig configPath) w = (inr cfg, st) <->
  exists data w1 doc,
    fs_readFile configPath w = (inr data, w1) /\
    JSON_parse data = inr doc /\
    describes doc cfg /\
    st = mkState w1 [EReadFile configPath].
Proof. unfold run. apply loadConfig_inr. Qed.

End LoadFacts.

(** C3 as stated fails: a descriptor file that announces eight tools, two
    resources and three prompts and lists one tool and nothing else is
    loaded, and the descriptor loaded violates the invariant. *)
Lemma C3_counterexample :
  exists cfg,
    fst (run (Wrapper.loadConfig (rt := Json.runtime) (host := host)
                "/test/config.json")
             (write "/test/config.json" (Json.stringify miscounted_descriptor)
                    (mock_world (inr "{}")))) = inr cfg /\
    toolCount (metadata cfg) = 8%Z /\
    length (tools (capabilities cfg)) = 1 /\
    ~ counts_match cfg.
Proof.
  eexists. split; [vm_compute; reflexivity |].
  split; [reflexivity |]. split; [reflexivity |].
  unfold counts_match. simpl. intros [H _]. discriminate H.
Qed.

(* ================================================================== *)
(** ** The codec meets the law *)
(* ================================================================== *)

Module CodecFacts.

Import Json.
Local Open Scope string_scope.

Lemma append_nil_r (s : string) : s ++ "" = s.
Proof. induction s as [| c s IH]; simpl; [| rewrite IH]; reflexivity. Qed.

Lemma append_assoc (a b c : string) : (a ++ b) ++ c = a ++ (b ++ c).
Proof. induction a as [| x a IH]; simpl; [| rewrite IH]; reflexivity. Qed.

Lemma length_append (a b : string) :
  String.length (a ++ b) = String.length a + String.length b.
Proof. induction a as [| x a IH]; simpl; [| rewrite IH]; reflexivity. Qed.

Lemma read_string_char (c : ascii) (t : string) :
  read_string (escape_char c ++ t) = prepend c (read_string t).
Proof. destruct c as [[] [] [] [] [] [] [] []]; reflexivity. Qed.

Lemma read_string_escape (s rest : string) :
  read_string (escape s ++ str1 34 ++ rest) = Some (s, rest).
Proof.
  induction s as [| c s IH]; [reflexivity |].
  cbn [escape]. rewrite append_assoc, read_string_char, IH. reflexivity.
Qed.

Lemma read_uint_print (d : Decimal.uint) (rest : string) :
  starts_digit rest = false ->
  read_uint (NilEmpty.string_of_uint d ++ rest) = (d, rest).
Proof.
  intros Hrest.
  induction d; cbn [NilEmpty.string_of_uint append];
    try (cbn [read_uint]; rewrite IHd; reflexivity).
  destruct rest as [| c rest]; [reflexivity |].
  simpl in Hrest. cbn [read_uint]. rewrite Hrest. reflexivity.
Qed.

Lemma to_uint_normalized (p : positive) : normalized (Pos.to_uint p) = true.
Proof.
  unfold normalized.
  destruct (Decimal.uint_eq_dec (Decimal.unorm (Pos.to_uint p)) (Pos.to_uint p))
    as [_ | Hne]; [reflexivity |].
  exfalso. apply Hne.
  rewrite <- (DecimalN.Unsigned.to_of (Pos.to_uint p)).
  change (N.of_uint (Pos.to_uint p)) with (Pos.of_uint (Pos.to_uint p)).
  rewrite DecimalPos.Unsigned.of_to. reflexivity.
Qed.

Lemma read_unsigned_print (p : positive) (rest : string) :
  starts_digit rest = false -> number_ends rest = true ->
  read_unsigned (NilEmpty.string_of_uint (Pos.to_uint p) ++ rest) =
  Some (Pos.to_uint p, rest).
Proof.
  intros Hd He. unfold read_unsigned. rewrite (read_uint_print _ _ Hd).
  rewrite to_uint_normalized, He.
  pose proof (DecimalPos.Unsigned.to_uint_nonnil p) as Hnn.
  destruct (Pos.to_uint p); [congruence | reflexivity ..].
Qed.

Lemma digits_first (d : Decimal.uint) :
  d <> Decimal.Nil ->
  exists c t, NilEmpty.string_of_uint d = String c t /\ is_digit c = true.
Proof. destruct d; [congruence | intros _; do 2 eexists; split; reflexivity ..]. Qed.

Lemma string_of_pos (p : positive) :
  NilZero.string_of_uint (Pos.to_uint p) = NilEmpty.string_of_uint (Pos.to_uint p).
Proof.
  pose proof (DecimalPos.Unsigned.to_uint_nonnil p) as Hnn.
  destruct (Pos.to_uint p); [congruence | reflexivity ..].
Qed.

Lemma digit_not_minus (c : ascii) :
  is_digit c = true -> (nat_of_ascii c =? 45)%nat = false.
Proof.
  unfold is_digit. intros H. apply andb_true_iff in H. destruct H as [H1 H2].
  apply Nat.leb_le in H1. apply Nat.eqb_neq. lia.
Qed.

Lemma read_int_print (z : Z) (rest : string) :
  terminated rest = true ->
  read_int (string_of_Z z ++ rest) = Some (z, rest).
Proof.
  unfold terminated. intros H. apply andb_true_iff in H.
  destruct H as [Hd He]. apply negb_true_iff in Hd.
  destruct z as [| p | p]; unfold string_of_Z; cbn [Z.to_int NilZero.string_of_int].
  - change (read_int (String "0" rest) = Some (0%Z, rest)).
    unfold read_int. change (nat_of_ascii "0" =? 45)%nat with false.
    cbn iota. unfold read_unsigned. cbn [read_uint].
    change (is_digit "0") with true. cbn iota.
    pose proof (read_uint_print Decimal.Nil rest Hd) as H0.
    cbn [NilEmpty.string_of_uint append] in H0. rewrite H0.
    cbn [uint_of_char]. change (normalized (Decimal.D0 Decimal.Nil)) with true.
    rewrite He. reflexivity.
  - rewrite string_of_pos.
    destruct (digits_first (Pos.to_uint p) (DecimalPos.Unsigned.to_uint_nonnil p))
      as [c [t [Hs Hc]]].
    pose proof (read_unsigned_print p rest Hd He) as Hr.
    rewrite Hs in *. cbn [append read_int].
    rewrite (digit_not_minus c Hc). cbn [append] in Hr. rewrite Hr.
    cbn [option_map fst snd Z.of_int]. unfold Z.of_uint.
    rewrite DecimalPos.Unsigned.of_to. reflexivity.
  - cbn [append read_int]. change (nat_of_ascii "-" =? 45)%nat with true.
    cbn iota. rewrite string_of_pos, (read_unsigned_print p rest Hd He).
    cbn [option_map fst snd Z.of_int]. unfold Z.of_uint.
    rewrite DecimalPos.Unsigned.of_to. reflexivity.
Qed.

Lemma skip_ws_spaces (n : nat) (s : string) : skip_ws (spaces n ++ s) = skip_ws s.
Proof. induction n as [| n IH]; [reflexivity | exact IH]. Qed.

Lemma skip_ws_newline (s : string) : skip_ws (newline ++ s) = skip_ws s.
Proof. reflexivity. Qed.

Lemma skip_ws_indent (n : nat) (s : string) :
  skip_ws (newline ++ spaces n ++ s) = skip_ws s.
Proof. rewrite skip_ws_newline. apply skip_ws_spaces. Qed.

Lemma read_value_S (fuel : nat) (s : string) :
  read_value (S fuel) s =
  match read_int (skip_ws s) with
  | Some (z, after) => Some (VNum z, after)
  | None =>
      match skip_ws s with
      | EmptyString => None
      | String c rest =>
          let n := nat_of_ascii c in
          if (n =? 110)%nat then literal "null" VNull (skip_ws s)
          else if (n =? 116)%nat then literal "true" (VBool true) (skip_ws s)
          else if (n =? 102)%nat then literal "false" (VBool false) (skip_ws s)
          else if (n =? 34)%nat then
            option_map (fun r => (VStr (fst r), snd r)) (read_string rest)
          else if (n =? 91)%nat then
            match skip_ws rest with
            | String d rest' =>
                if (nat_of_ascii d =? 93)%nat then Some (VArr [], rest')
                else option_map (fun r => (VArr (fst r), snd r))
                                (read_elements fuel rest)
            | EmptyString => None
            end
          else if (n =? 123)%nat then
            match skip_ws rest with
            | String d rest' =>
                if (nat_of_ascii d =? 125)%nat then Some (VObj [], rest')
                else option_map (fun r => (VObj (fst r), snd r))
                                (read_members fuel [] rest)
            | EmptyString => None
            end
          else None
      end
  end.
Proof. reflexivity. Qed.

Lemma read_elements_S (fuel : nat) (s : string) :
  read_elements (S fuel) s =
  match read_value fuel s with
  | Some (v, after) =>
      match skip_ws after with
      | String c rest =>
          if (nat_of_ascii c =? 44)%nat then
            option_map (fun r => (v :: fst r, snd r)) (read_elements fuel rest)
          else if (nat_of_ascii c =? 93)%nat then Some ([v], rest)
          else None
      | EmptyString => None
      end
  | None => None
  end.
Proof. reflexivity. Qed.

Lemma read_members_S (fuel : nat) (seen : list (string * value)) (s : string) :
  read_members (S fuel) seen s =
  match skip_ws s with
  | String q rest =>
      if (nat_of_ascii q =? 34)%nat then
        match read_string rest with
        | Some (k, after) =>
            match skip_ws after with
            | String colon rest' =>
                if (nat_of_ascii colon =? 58)%nat then
                  match read_value fuel rest' with
                  | Some (v, after') =>
                      match skip_ws after' with
                      | String c rest'' =>
                          if (nat_of_ascii c =? 44)%nat
                          then read_members fuel (set_field k v seen) rest''
                          else if (nat_of_ascii c =? 125)%nat
                          then Some (set_field k v seen, rest'')
                          else None
                      | EmptyString => None
                      end
                  | None => None
                  end
                else None
            | EmptyString => None
            end
        | None => None
        end
      else None
  | EmptyString => None
  end.
Proof. reflexivity. Qed.

Lemma read_value_skip (fuel : nat) (s s' : string) :
  skip_ws s = skip_ws s' -> read_value fuel s = read_value fuel s'.
Proof.
  intros H. destruct fuel; [reflexivity |].
  rewrite !read_value_S, H. reflexivity.
Qed.

Lemma digit_solid (c : ascii) : is_digit c = true -> solid c.
Proof.
  unfold is_digit, solid, is_ws. intros H. apply andb_true_iff in H.
  destruct H as [H1 H2]. apply Nat.leb_le in H1. apply Nat.leb_le in H2.
  split; [| apply Nat.eqb_neq; lia].
  repeat (apply orb_false_iff; split); apply Nat.eqb_neq; lia.
Qed.

Lemma printed_first (ind : nat) (v : value) :
  exists c t, printed ind v = String c t /\ solid c.
Proof.
  unfold printed. destruct v as [| | [] | z | s | items | fields]; cbn [serialize text_or_null];
    try (do 2 eexists; split; [reflexivity | split; reflexivity]).
  - destruct z as [| p | p]; unfold string_of_Z; cbn [Z.to_int NilZero.string_of_int].
    + do 2 eexists. split; [reflexivity | split; reflexivity].
    + rewrite string_of_pos.
      destruct (digits_first _ (DecimalPos.Unsigned.to_uint_nonnil p))
        as [c [t [Hs Hc]]].
      exists c, t. split; [exact Hs | apply digit_solid; exact Hc].
    + do 2 eexists. split; [reflexivity | split; reflexivity].
  - unfold wrap.
    destruct (map _ items); do 2 eexists; (split; [reflexivity | split; reflexivity]).
  - unfold wrap.
    destruct (flat_map _ fields); do 2 eexists;
      (split; [reflexivity | split; reflexivity]).
Qed.

Lemma skip_ws_solid (c : ascii) (t : string) :
  is_ws c = false -> skip_ws (String c t) = String c t.
Proof. intros H. simpl. rewrite H. reflexivity. Qed.

Lemma printed_nonempty (ind : nat) (v : value) : 1 <= String.length (printed ind v).
Proof.
  destruct (printed_first ind v) as [c [t [H _]]]. rewrite H. simpl. lia.
Qed.

Lemma join_cons (sep a : string) (l : list string) :
  exists tail, join sep (a :: l) = a ++ tail.
Proof.
  destruct l; [exists ""; simpl; rewrite append_nil_r; reflexivity |].
  eexists. reflexivity.
Qed.

Lemma separator_length (ind : nat) : 2 <= String.length (separator ind).
Proof. unfold separator, newline, str1. simpl. lia. Qed.

Lemma read_elements_print (items : list value) :
  items <> [] -> Forall reads_back items ->
  forall ind ind0 rest fuel,
    String.length (join (separator ind) (map (printed ind) items)) < fuel ->
    read_elements fuel
      (newline ++ spaces ind ++ join (separator ind) (map (printed ind) items)
       ++ newline ++ spaces ind0 ++ String "]" rest) =
    Some (map read_back items, rest).
Proof.
  intros Hne HP. induction HP as [| x xs Hx _ IH]; [congruence |].
  intros ind ind0 rest fuel Hlen.
  destruct fuel as [| f]; [lia |].
  rewrite read_elements_S.
  destruct xs as [| y ys].
  - cbn [map join] in *.
    rewrite (read_value_skip f _ _ (skip_ws_indent ind _)).
    rewrite (Hx ind _ f) by (try lia; reflexivity).
    rewrite skip_ws_indent. reflexivity.
  - change (join (separator ind) (map (printed ind) (x :: y :: ys)))
      with (printed ind x ++ separator ind ++ join (separator ind) (map (printed ind) (y :: ys))) in *.
    rewrite length_append, length_append in Hlen.
    rewrite !append_assoc.
    rewrite (read_value_skip f _ _ (skip_ws_indent ind _)).
    rewrite (Hx ind _ f) by (try lia; reflexivity).
    unfold separator at 1. cbn [append skip_ws].
    change (is_ws ",") with false. cbn iota.
    change (nat_of_ascii "," =? 44)%nat with true. cbn iota.
    rewrite !append_assoc.
    rewrite (IH ltac:(discriminate) ind ind0 rest f).
    + reflexivity.
    + pose proof (separator_length ind). lia.
Qed.

Lemma serialize_none (ind : nat) (x : value) :
  serialize ind x = None -> x = VUndefined.
Proof. destruct x as [| | [] | | | |]; simpl; congruence. Qed.

Lemma serialize_printed (ind : nat) (x : value) (t : string) :
  serialize ind x = Some t -> t = printed ind x /\ x <> VUndefined.
Proof.
  unfold printed. intros H. rewrite H. split; [reflexivity |].
  intros ->. discriminate H.
Qed.

Lemma read_back_defined (x : value) : x <> VUndefined -> read_back x = jsonify x.
Proof. unfold read_back. destruct x; simpl; congruence. Qed.

Lemma put_defined (k : string) (x : value) (acc : list (string * value)) :
  x <> VUndefined -> put k (jsonify x) acc = set_field k (jsonify x) acc.
Proof. destruct x; simpl; congruence. Qed.

Lemma members_nil (ind : nat) (fields : list (string * value)) :
  members ind fields = [] ->
  forall acc, fold_left step fields acc = acc.
Proof.
  induction fields as [| [k x] tl IH]; intros H acc; [reflexivity |].
  unfold members in H. cbn [flat_map] in H.
  apply app_eq_nil in H. destruct H as [Hm Htl].
  destruct (serialize ind x) eqn:Hs; [discriminate Hm |].
  apply serialize_none in Hs. subst x. cbn [fold_left step jsonify put].
  apply IH. exact Htl.
Qed.

Lemma read_members_print (fields : list (string * value)) :
  Forall (fun kv => reads_back (snd kv)) fields ->
  forall ind ind0 seen rest fuel,
    members ind fields <> [] ->
    String.length (join (separator ind) (members ind fields)) < fuel ->
    read_members fuel seen
      (newline ++ spaces ind ++ join (separator ind) (members ind fields)
       ++ newline ++ spaces ind0 ++ String "}" rest) =
    Some (fold_left step fields seen, rest).
Proof.
  induction 1 as [| [k x] tl Hx _ IH]; intros ind ind0 seen rest fuel Hne Hlen;
    [exfalso; apply Hne; reflexivity |].
  cbn [snd] in Hx.
  unfold members in Hne, Hlen |- *. cbn [flat_map] in Hne, Hlen |- *.
  fold (members ind tl) in Hne, Hlen |- *.
  destruct (serialize ind x) as [t |] eqn:Hs.
  - destruct (serialize_printed ind x t Hs) as [Ht Hdef]. subst t.
    cbn [member app] in Hne, Hlen |- *.
    cbn [fold_left step]. rewrite (put_defined k x seen Hdef).
    destruct fuel as [| f]; [lia |].
    rewrite read_members_S, skip_ws_indent.
    set (closing := newline ++ spaces ind0 ++ String "}" rest).
    destruct (members ind tl) as [| p ps] eqn:Htl.
    + cbn [join] in Hlen |- *.
      unfold quote. cbn [append skip_ws].
      change (is_ws (chr 34)) with false. cbn iota.
      change (nat_of_ascii (chr 34) =? 34)%nat with true. cbn iota.
      rewrite !append_assoc, read_string_escape.
      cbn [append skip_ws]. change (is_ws ":") with false. cbn iota.
      change (nat_of_ascii ":" =? 58)%nat with true. cbn iota.
      rewrite (read_value_skip f (String " " (printed ind x ++ closing))
                 (printed ind x ++ closing) eq_refl).
      unfold quote in Hlen. cbn [String.length append] in Hlen.
      rewrite !length_append in Hlen. cbn [String.length] in Hlen.
      rewrite (Hx ind closing f) by (try lia; reflexivity).
      rewrite (read_back_defined x Hdef).
      unfold closing. rewrite skip_ws_indent. cbn [skip_ws].
      change (is_ws "}") with false. cbn iota.
      change (nat_of_ascii "}" =? 44)%nat with false.
      change (nat_of_ascii "}" =? 125)%nat with true. cbn iota.
      rewrite (members_nil ind tl Htl). reflexivity.
    + change (join (separator ind) ((quote k ++ ": " ++ printed ind x) :: p :: ps))
        with ((quote k ++ ": " ++ printed ind x) ++ separator ind
              ++ join (separator ind) (p :: ps)) in Hlen |- *.
      unfold quote. cbn [append skip_ws].
      change (is_ws (chr 34)) with false. cbn iota.
      change (nat_of_ascii (chr 34) =? 34)%nat with true. cbn iota.
      rewrite !append_assoc, read_string_escape.
      cbn [append skip_ws]. change (is_ws ":") with false. cbn iota.
      change (nat_of_ascii ":" =? 58)%nat with true. cbn iota.
      rewrite (read_value_skip f
                 (String " " (printed ind x ++ separator ind
                              ++ join (separator ind) (p :: ps) ++ closing))
                 (printed ind x ++ separator ind
                  ++ join (separator ind) (p :: ps) ++ closing) eq_refl).
      unfold quote in Hlen. cbn [String.length append] in Hlen.
      rewrite !length_append in Hlen. cbn [String.length] in Hlen.
      pose proof (separator_length ind) as Hsep.
      rewrite (Hx ind _ f) by (try lia; reflexivity).
      rewrite (read_back_defined x Hdef).
      unfold separator at 1. cbn [append skip_ws].
      change (is_ws ",") with false. cbn iota.
      change (nat_of_ascii "," =? 44)%nat with true. cbn iota.
      rewrite !append_assoc. unfold closing. rewrite <- Htl.
      apply IH; rewrite Htl; [discriminate | lia].
  - apply serialize_none in Hs. subst x.
    cbn [member app] in Hne, Hlen |- *. cbn [fold_left step jsonify put].
    apply IH; assumption.
Qed.

Lemma read_value_string (f : nat) (s : string) :
  read_value (S f) (String (chr 34) s) =
  option_map (fun r => (VStr (fst r), snd r)) (read_string s).
Proof. reflexivity. Qed.

Lemma read_value_array (f : nat) (s : string) :
  read_value (S f) (String "[" s) =
  match skip_ws s with
  | String d rest' =>
      if (nat_of_ascii d =? 93)%nat then Some (VArr [], rest')
      else option_map (fun r => (VArr (fst r), snd r)) (read_elements f s)
  | EmptyString => None
  end.
Proof. reflexivity. Qed.

Lemma read_value_object (f : nat) (s : string) :
  read_value (S f) (String "{" s) =
  match skip_ws s with
  | String d rest' =>
      if (nat_of_ascii d =? 125)%nat then Some (VObj [], rest')
      else option_map (fun r => (VObj (fst r), snd r)) (read_members f [] s)
  | EmptyString => None
  end.
Proof. reflexivity. Qed.

Lemma members_first (ind : nat) (fields : list (string * value))
  (p : string) (ps : list string) :
  members ind fields = p :: ps -> exists t, p = String (chr 34) t.
Proof.
  induction fields as [| [k x] tl IH]; [discriminate |].
  unfold members. cbn [flat_map]. fold (members ind tl).
  destruct (serialize ind x); cbn [member app]; [| exact IH].
  intros H. inversion H. eexists. reflexivity.
Qed.

Lemma newline_length : String.length newline = 1.
Proof. reflexivity. Qed.

Lemma print_read (v : value) : reads_back v.
Proof.
  induction v as [| | b | z | s | items IH | fields IH] using value_nested_ind;
    intros ind rest fuel Hlen Hrest.
  - destruct fuel as [| f]; [simpl in Hlen; lia |]. reflexivity.
  - destruct fuel as [| f]; [simpl in Hlen; lia |]. reflexivity.
  - destruct fuel as [| f]; [destruct b; simpl in Hlen; lia |].
    destruct b; reflexivity.
  - pose proof (printed_nonempty ind (VNum z)) as Hn.
    destruct fuel as [| f]; [lia |].
    destruct (printed_first ind (VNum z)) as [c [t [Hc [Hws _]]]].
    change (printed ind (VNum z)) with (string_of_Z z) in *.
    assert (Hskip : skip_ws (string_of_Z z ++ rest) = string_of_Z z ++ rest)
      by (rewrite Hc; apply skip_ws_solid; exact Hws).
    rewrite read_value_S, Hskip, (read_int_print z rest Hrest). reflexivity.
  - destruct fuel as [| f]; [simpl in Hlen; lia |].
    change (printed ind (VStr s)) with (String (chr 34) (escape s ++ str1 34)).
    cbn [append]. rewrite read_value_string, append_assoc, read_string_escape.
    reflexivity.
  - destruct items as [| x xs].
    + destruct fuel as [| f]; [simpl in Hlen; lia |]. reflexivity.
    + change (printed ind (VArr (x :: xs)))
        with ("[" ++ newline ++ spaces (ind + 2)
              ++ join (separator (ind + 2)) (map (printed (ind + 2)) (x :: xs))
              ++ newline ++ spaces ind ++ "]") in *.
      rewrite !length_append, newline_length in Hlen.
      cbn [String.length] in Hlen.
      destruct fuel as [| f]; [lia |].
      rewrite !append_assoc. cbn [append]. rewrite read_value_array.
      assert (Hfirst : exists c t,
                skip_ws (newline ++ spaces (ind + 2)
                         ++ join (separator (ind + 2)) (map (printed (ind + 2)) (x :: xs))
                         ++ newline ++ spaces ind ++ String "]" rest) = String c t /\
                (nat_of_ascii c =? 93)%nat = false).
      { rewrite skip_ws_indent. cbn [map].
        destruct (join_cons (separator (ind + 2)) (printed (ind + 2) x)
                    (map (printed (ind + 2)) xs)) as [tail Htail].
        rewrite Htail, append_assoc.
        destruct (printed_first (ind + 2) x) as [c [t [Hc [Hws H93]]]].
        rewrite Hc. cbn [append]. rewrite (skip_ws_solid c _ Hws). eauto. }
      destruct Hfirst as [c [t [Hsk Hc]]]. rewrite Hsk, Hc.
      rewrite (read_elements_print (x :: xs) ltac:(discriminate) IH
                 (ind + 2) ind rest f) by lia.
      reflexivity.
  - change (printed ind (VObj fields))
      with (wrap "{" "}" ind (members (ind + 2) fields)) in *.
    change (read_back (VObj fields)) with (VObj (fold_left step fields [])).
    destruct (members (ind + 2) fields) as [| p ps] eqn:Hparts.
    + destruct fuel as [| f]; [simpl in Hlen; lia |].
      rewrite (members_nil _ _ Hparts). reflexivity.
    + unfold wrap in *.
      rewrite !length_append, newline_length in Hlen.
      cbn [String.length] in Hlen.
      destruct fuel as [| f]; [lia |].
      rewrite !append_assoc. cbn [append]. rewrite read_value_object.
      assert (Hfirst : exists c t,
                skip_ws (newline ++ spaces (ind + 2)
                         ++ join (separator (ind + 2)) (p :: ps)
                         ++ newline ++ spaces ind ++ String "}" rest) = String c t /\
                (nat_of_ascii c =? 125)%nat = false).
      { rewrite skip_ws_indent.
        destruct (members_first _ _ _ _ Hparts) as [t Hp].
        destruct (join_cons (separator (ind + 2)) p ps) as [tail Htail].
        rewrite Htail, append_assoc, Hp. cbn [append skip_ws].
        change (is_ws (chr 34)) with false. cbn iota.
        do 2 eexists. split; reflexivity. }
      destruct Hfirst as [c [t [Hsk Hc]]]. rewrite Hsk, Hc.
      rewrite <- Hparts.
      rewrite (read_members_print fields IH (ind + 2) ind [] rest f);
        [reflexivity | rewrite Hparts; discriminate | rewrite Hparts; lia].
Qed.

Theorem parse_stringify (v : value) :
  v <> VUndefined -> parse (stringify v) = inr (jsonify v).
Proof.
  intros Hdef. unfold parse, stringify.
  assert (Ht : match serialize 0 v with Some text => text | None => EmptyString end
               = printed 0 v).
  { unfold printed. destruct (serialize 0 v) eqn:Hs; [reflexivity |].
    apply serialize_none in Hs. contradiction. }
  rewrite Ht. rewrite <- (append_nil_r (printed 0 v)) at 2.
  rewrite (print_read v 0 "" (String.length (printed 0 v) + 1)) by (try lia; reflexivity).
  rewrite (read_back_defined v Hdef). reflexivity.
Qed.

(** The implementation of the codec meets the law asked of a runtime. *)
Theorem runtime_codec_law : codec_law runtime.
Proof. intros v Hdef. exact (parse_stringify v Hdef). Qed.

End CodecFacts.

Section MonadInversion.
Context {W : Type}.

Lemma bind_inr {A B} (m : M W A) (k : A -> M W B) (st st' : state W) (b : B) :
  bind m k st = (inr b, st') ->
  exists a st1, m st = (inr a, st1) /\ k a st1 = (inr b, st').
Proof.
  unfold bind. destruct (m st) as [[e | a] st1]; intros H;
    [discriminate | eauto].
Qed.

Lemma ret_inr {A} (a b : A) (st st' : state W) :
  ret a st = (inr b, st') -> a = b /\ st = st'.
Proof. unfold ret. intros H. inversion H. auto. Qed.

Lemma lift_inr {A} (r : result A) (a : A) (st st' : state W) :
  lift r st = (inr a, st') -> r = inr a /\ st = st'.
Proof.
  destruct r; simpl; unfold throw, ret; intros H; inversion H; auto.
Qed.

Lemma request_inr {A} (ev : event) (oracle : W -> result A * W)
  (a : A) (st st' : state W) :
  request ev oracle st = (inr a, st') -> trace st' = trace st ++ [ev].
Proof.
  unfold request. destruct (oracle (world st)) as [r w1].
  intros H. inversion H. reflexivity.
Qed.

Lemma try_finally_inr {A} (m : M W A) (c : M W unit) (a : A) (st st' : state W) :
  try_finally m c st = (inr a, st') ->
  exists st1, m st = (inr a, st1) /\ fst (c st1) = inr tt /\ st' = snd (c st1).
Proof.
  unfold try_finally. destruct (m st) as [r st1].
  destruct (c st1) as [[e | []] st2] eqn:Hc; intros H; inversion H; subst.
  exists st1. rewrite Hc. repeat split.
Qed.

End MonadInversion.

Section RoundTripFacts.
Context {W : Type} {rt : Runtime} {host : Host W}.
Import Analyzer Wrapper.

Lemma saveConfiguration_writes (config : ServerConfig) (st st' : state W)
  (path : string) :
  saveConfiguration config st = (inr path, st') ->
  In (EWriteFile path (JSON_stringify (ServerConfig_value config))) (trace st').
Proof.
  unfold saveConfiguration. intros H.
  repeat (apply bind_inr in H; destruct H as (? & ? & ? & H)).
  apply ret_inr in H. destruct H as [Hpath Hst]. subst.
  match goal with
  | Hw : request (EWriteFile _ _) _ _ = _ |- _ =>
      apply request_inr in Hw; rewrite Hw
  end.
  apply in_or_app. right. left. reflexivity.
Qed.

Lemma analyzeConnected_writes (serverPath : string) (args : list string)
  (st st' : state W) (res : AnalysisResult) :
  analyzeConnected serverPath args st = (inr res, st') ->
  exists config,
    counted config /\
    In (EWriteFile (configPath res) (JSON_stringify (ServerConfig_value config)))
       (trace st').
Proof.
  unfold analyzeConnected. intros H.
  repeat (apply bind_inr in H; destruct H as (? & ? & ? & H)).
  apply ret_inr in H. destruct H as [Hres Hst]. subst.
  match goal with
  | Hs : saveConfiguration ?config _ = _ |- _ =>
      exists config; split;
      [ repeat split | exact (saveConfiguration_writes _ _ _ _ Hs) ]
  end.
Qed.

Lemma analyzeServer_writes (serverPath : string) (args : list string)
  (w : W) (res : AnalysisResult) (st : state W) :
  run (analyzeServer serverPath args) w = (inr res, st) ->
  exists config,
    counted config /\
    In (EWriteFile (configPath res) (JSON_stringify (ServerConfig_value config)))
       (trace st).
Proof.
  unfold run, analyzeServer. intros H.
  apply bind_inr in H. destruct H as (? & st0 & _ & H).
  apply bind_inr in H. destruct H as (connection & st1 & _ & H).
  destruct connection as [e | u]; [discriminate H |].
  apply try_finally_inr in H. destruct H as (st2 & Hbody & _ & Hst).
  destruct (analyzeConnected_writes _ _ _ _ _ Hbody) as [config [Hc Hin]].
  exists config. split; [exact Hc |]. subst st.
  unfold request. destruct (client_close (world st2)) as [r w3]. simpl.
  apply in_or_app. left. exact Hin.
Qed.

Lemma lookup_set_field (k k' : string) (v : value)
  (fields : list (string * value)) :
  lookup k (set_field k' v fields) =
  if String.eqb k k' then v else lookup k fields.
Proof.
  induction fields as [| [k'' v''] rest IH]; simpl.
  - reflexivity.
  - destruct (String.eqb k' k'') eqn:E'; simpl.
    + apply String.eqb_eq in E'. subst k''.
      destruct (String.eqb k k'); reflexivity.
    + rewrite IH. destruct (String.eqb k k'') eqn:E''; [| reflexivity].
      apply String.eqb_eq in E''. subst k''.
      rewrite String.eqb_sym, E'. reflexivity.
Qed.

Lemma lookup_put_other (k k' : string) (v : value)
  (fields : list (string * value)) :
  String.eqb k k' = false -> lookup k (put k' v fields) = lookup k fields.
Proof.
  intros H. destruct v; simpl; try reflexivity;
    rewrite lookup_set_field, H; reflexivity.
Qed.

(** Written and read again, a descriptor keeps its counts and the
    lengths of its sequences. *)
Lemma jsonify_keeps_counts (config : ServerConfig) (cfg : WrapperConfig) :
  counted config ->
  describes (jsonify (ServerConfig_value config)) cfg ->
  counts_match cfg.
Proof.
  intros (Ht & Hr & Hp) (o & c & m & H).
  destruct H as (Hdoc & _ & _ & _ & _ & _ & Hcaps &
                 Htools & Hres & Hprompts & Hmeta & _ & Htc & Hrc & Hpc).
  unfold ServerConfig_value in Hdoc. cbn [jsonify fold_left] in Hdoc.
  inversion Hdoc; subst o; clear Hdoc.
  change (jsonify (metadata_value (sc_metadata config)))
    with (metadata_value (sc_metadata config)) in Hcaps, Hmeta.
  change (jsonify (capabilities_value (sc_capabilities config)))
    with (VObj [("tools", VArr (map (fun item => item_of (jsonify item))
                                    (tools (sc_capabilities config))));
                ("resources", VArr (map (fun item => item_of (jsonify item))
                                        (resources (sc_capabilities config))));
                ("prompts", VArr (map (fun item => item_of (jsonify item))
                                      (prompts (sc_capabilities config))))])
    in Hcaps, Hmeta.
  unfold metadata_value in Hcaps, Hmeta.
  cbn [put] in Hcaps, Hmeta.
  rewrite lookup_set_field in Hmeta. cbn in Hmeta.
  rewrite lookup_set_field in Hcaps. cbn [String.eqb Ascii.eqb Bool.eqb] in Hcaps.
  rewrite lookup_set_field in Hcaps. cbn in Hcaps.
  inversion Hcaps; subst c; clear Hcaps.
  inversion Hmeta; subst m; clear Hmeta.
  simpl in Htools, Hres, Hprompts, Htc, Hrc, Hpc.
  inversion Htools as [Ht']. inversion Hres as [Hr']. inversion Hprompts as [Hp'].
  inversion Htc as [Htc']. inversion Hrc as [Hrc']. inversion Hpc as [Hpc'].
  unfold counts_match.
  rewrite <- Ht', <- Hr', <- Hp', !length_map, <- Htc', <- Hrc', <- Hpc'.
  auto.
Qed.

(** C7. A discovery run that returns has written a descriptor, under the
    path it returns; and whenever the coordination engine loads that file
    and is handed back the text written -- the runtime's [JSON.parse]
    reading back what its [JSON.stringify] writes -- the [toolCount],
    [resourceCount] and [promptCount] of the descriptor loaded are the
    lengths of its [tools], [resources] and [prompts]. *)
Theorem C7_round_trip_counts_match
  (serverPath : string) (args : list string) (w : W)
  (res : AnalysisResult) (st : state W) :
  codec_law rt ->
  run (analyzeServer serverPath args) w = (inr res, st) ->
  exists data,
    In (EWriteFile (configPath res) data) (trace st) /\
    forall (w' : W) (cfg : WrapperConfig) (st' : state W),
      fst (fs_readFile (configPath res) w') = inr data ->
      run (loadConfig (configPath res)) w' = (inr cfg, st') ->
      counts_match cfg.
Proof.
  intros Hcodec Hrun.
  destruct (analyzeServer_writes _ _ _ _ _ Hrun) as [config [Hc Hin]].
  exists (JSON_stringify (ServerConfig_value config)). split; [exact Hin |].
  intros w' cfg st' Hread Hload.
  unfold run in Hload. apply loadConfig_inr in Hload.
  destruct Hload as (data' & w1 & doc & Hread' & Hparse & Hdesc & _).
  simpl in Hread'. rewrite Hread' in Hread. simpl in Hread.
  inversion Hread; subst data'.
  rewrite (Hcodec (ServerConfig_value config)) in Hparse by discriminate.
  inversion Hparse; subst doc.
  exact (jsonify_keeps_counts config cfg Hc Hdesc).
Qed.

End RoundTripFacts.

(** A discovery run against the mock server, then the load of the file
    it wrote, in the world it left: the descriptor loaded announces three
    tools and lists three. *)
Lemma C7_witness :
  let analyzed :=
    run (Analyzer.analyzeServer (rt := Json.runtime) (host := host)
           "node" ["server.js"])
        (mock_world (inr (Json.stringify echo_analysis))) in
  exists cfg,
    fst (run (Wrapper.loadConfig (rt := Json.runtime) (host := host)
                "/work/configs/echo-expert-1756953260052.json")
             (world (snd analyzed))) = inr cfg /\
    toolCount (metadata cfg) = 3%Z /\
    length (tools (capabilities cfg)) = 3 /\
    counts_match cfg.
Proof.
  intros analyzed.
  destruct (C7_round_trip_counts_match (rt := Json.runtime) (host := host)
              "node" ["server.js"]
              (mock_world (inr (Json.stringify echo_analysis)))
              {| Analyzer.expertName := VStr "Echo Expert";
                 Analyzer.expertDescription :=
                   VStr "Echoes messages, adds numbers, tells the time";
                 Analyzer.ar_systemPrompt :=
                   VStr "Use echo, add and getCurrentTime.";
                 Analyzer.ar_capabilities :=
                   {| tools := mock_tools; resources := []; prompts := [] |};
                 Analyzer.configPath :=
                   "/work/configs/echo-expert-1756953260052.json" |}
              (snd analyzed)
              CodecFacts.runtime_codec_law (surjective_pairing _))
    as [data [Hin Hload]].
  destruct (run (Wrapper.loadConfig (rt := Json.runtime) (host := host)
                   "/work/configs/echo-expert-1756953260052.json")
                (world (snd analyzed))) as [[e | cfg] st'] eqn:Hrun.
  - vm_compute in Hrun. discriminate Hrun.
  - exists cfg. split; [reflexivity |].
    assert (Hcounts : counts_match cfg).
    { apply (Hload (world (snd analyzed)) cfg st'); [| exact Hrun].
      cbn [Analyzer.configPath].
      vm_compute in Hin.
      repeat (destruct Hin as [Hin | Hin]; [try discriminate Hin |]);
        [| contradiction].
      inversion Hin. vm_compute. reflexivity. }
    vm_compute in Hrun. inversion Hrun. subst cfg.
    split; [reflexivity |]. split; [reflexivity |]. exact Hcounts.
Defined.

(* ================================================================== *)
(** ** The name of the entry point *)
(* ================================================================== *)

Open Scope string_scope.

Lemma lower_char_space (c : ascii) : is_space (lower_char c) = is_space c.
Proof. destruct c as [[] [] [] [] [] [] [] []]; reflexivity. Qed.

Lemma toLowerCase_app (a b : string) :
  toLowerCase (a ++ b) = toLowerCase a ++ toLowerCase b.
Proof. induction a as [| c a IH]; simpl; [| rewrite IH]; reflexivity. Qed.

Lemma toLowerCase_nonempty (s : string) :
  s <> EmptyString -> toLowerCase s <> EmptyString.
Proof. destruct s; simpl; [congruence | discriminate]. Qed.

Lemma toLowerCase_spaceless (s : string) :
  spaceless s -> spaceless (toLowerCase s).
Proof.
  unfold spaceless. induction s as [| c s IH]; simpl; auto.
  rewrite lower_char_space. intros H. apply andb_true_iff in H.
  destruct H as [Hc Hs]. rewrite Hc, (IH Hs). reflexivity.
Qed.

Lemma toLowerCase_blank (s : string) : blank s -> blank (toLowerCase s).
Proof.
  intros [Hne Hall]. split; [apply toLowerCase_nonempty; exact Hne |].
  clear Hne. induction s as [| c s IH]; simpl in *; auto.
  rewrite lower_char_space. apply andb_true_iff in Hall.
  destruct Hall as [Hc Hs]. rewrite Hc, (IH Hs). reflexivity.
Qed.

Lemma toLowerCase_spaced (more : list (string * string)) :
  forall first,
    toLowerCase (spaced first more) =
    spaced (toLowerCase first)
           (map (fun p => (toLowerCase (fst p), toLowerCase (snd p))) more).
Proof.
  induction more as [| [sep w] rest IH]; intros first; simpl; auto.
  rewrite !toLowerCase_app, IH. reflexivity.
Qed.

(** A stretch without whitespace is copied, and ends any match. *)
Lemma replace_spaceless_app (s : string) :
  spaceless s ->
  forall (b : bool) (rest : string),
    replace_spaces_from b (s ++ rest) =
    s ++ replace_spaces_from (match s with EmptyString => b | _ => false end) rest.
Proof.
  unfold spaceless. induction s as [| c s IH]; simpl; intros H b rest; auto.
  apply andb_true_iff in H. destruct H as [Hc Hs].
  apply negb_true_iff in Hc. rewrite Hc, (IH Hs).
  destruct s; reflexivity.
Qed.

Lemma replace_spaceless (s : string) :
  spaceless s -> forall b, replace_spaces_from b s = s.
Proof.
  unfold spaceless. induction s as [| c s IH]; simpl; intros H b; auto.
  apply andb_true_iff in H. destruct H as [Hc Hs].
  apply negb_true_iff in Hc. rewrite Hc, (IH Hs). reflexivity.
Qed.

(** A stretch of whitespace inside a match adds nothing to it. *)
Lemma replace_blank_in_run (s rest : string) :
  all_chars is_space s = true ->
  replace_spaces_from true (s ++ rest) = replace_spaces_from true rest.
Proof.
  induction s as [| c s IH]; simpl; intros H; auto.
  apply andb_true_iff in H. destruct H as [Hc Hs]. rewrite Hc. auto.
Qed.

(** A run of whitespace after a word is one match: one separator. *)
Lemma replace_blank_app (s rest : string) :
  blank s ->
  replace_spaces_from false (s ++ rest) = "-" ++ replace_spaces_from true rest.
Proof.
  intros [Hne Hall]. destruct s as [| c s]; [congruence |].
  simpl in *. apply andb_true_iff in Hall. destruct Hall as [Hc Hs].
  rewrite Hc, (replace_blank_in_run s rest Hs). reflexivity.
Qed.

Lemma replace_spaced (more : list (string * string)) :
  Forall (fun p => blank (fst p) /\ word (snd p)) more ->
  forall (first : string) (b : bool),
    spaceless first ->
    first <> EmptyString \/ b = false ->
    replace_spaces_from b (spaced first more) =
    join "-" (first :: map snd more).
Proof.
  induction 1 as [| [sep w] rest [Hsep [Hne Hw]] _ IH];
    intros first b Hfirst Hrun; simpl.
  - apply replace_spaceless. exact Hfirst.
  - rewrite (replace_spaceless_app first Hfirst).
    replace (match first with EmptyString => b | _ => false end) with false
      by (destruct first; [destruct Hrun; congruence | reflexivity]).
    rewrite (replace_blank_app sep _ Hsep).
    rewrite (IH w true Hw (or_introl Hne)). reflexivity.
Qed.

Lemma word_lowered (more : list (string * string)) :
  Forall (fun p => blank (fst p) /\ word (snd p)) more ->
  Forall (fun p => blank (fst p) /\ word (snd p))
         (map (fun p => (toLowerCase (fst p), toLowerCase (snd p))) more).
Proof.
  induction 1 as [| [sep w] rest [Hsep [Hne Hw]] _ IH]; simpl; constructor; auto.
  simpl. split; [apply toLowerCase_blank; exact Hsep |].
  split; [apply toLowerCase_nonempty; exact Hne
         | apply toLowerCase_spaceless; exact Hw].
Qed.

(** C8. The name of the entry point is a function of the descriptor's
    name alone, so every serve session of a descriptor presents the same
    one; and for a name made of words separated by runs of whitespace it
    is the lower-cased words joined by single [-] separators, each run of
    whitespace having collapsed into one.  (Whitespace before the first
    word is a run of its own: [first] may be empty.) *)
Theorem C8_entry_point_name
  (config : WrapperConfig) (first : string) (more : list (string * string)) :
  spaceless first ->
  Forall (fun p => blank (fst p) /\ word (snd p)) more ->
  name config = spaced first more ->
  td_name (Wrapper.createExpertTool config) =
    join "-" (map toLowerCase (first :: map snd more)) /\
  forall config',
    name config' = name config ->
    td_name (Wrapper.createExpertTool config') =
    td_name (Wrapper.createExpertTool config).
Proof.
  intros Hfirst Hmore Hname. split.
  - unfold Wrapper.createExpertTool, replace_spaces. cbn [td_name].
    rewrite Hname, toLowerCase_spaced.
    rewrite (replace_spaced _ (word_lowered more Hmore) (toLowerCase first) false
               (toLowerCase_spaceless first Hfirst) (or_intror eq_refl)).
    cbn [map]. rewrite !map_map. reflexivity.
  - intros config' Hsame. unfold Wrapper.createExpertTool. simpl.
    rewrite Hsame. reflexivity.
Qed.

(** The name of the unit test on special characters. *)
Lemma C8_witness :
  td_name (Wrapper.createExpertTool gappedConfig) =
  "test-expert-with-spaces-&-special!".
Proof.
  refine (proj1 (C8_entry_point_name gappedConfig "Test"
                   [(" ", "Expert"); ("   ", "with"); (" ", "Spaces");
                    (" ", "&"); (" ", "Special!")] _ _ eq_refl)).
  - reflexivity.
  - repeat constructor; simpl; discriminate.
Defined.

Open Scope list_scope.

(* ================================================================== *)
(** ** The discovery engine: its failures, and what a run leaves *)
(* ================================================================== *)

Section DiscoveryRuns.
Context {W : Type} {rt : Runtime} {host : Host W}.
Import Analyzer.

Lemma state_eta (st : state W) : mkState (world st) (trace st) = st.
Proof. destruct st; reflexivity. Qed.

(** X1. Both engines check the credential before anything else: when
    [OPENAI_API_KEY] is unset or empty, a discovery run and the start of
    a serve session fail with the same error in the state they started
    in -- no file read, no peer started, no request of any kind. *)
Theorem credential_required_before_any_request
  (serverPath : string) (args : list string) (configPath : string)
  (st : state W) :
  env_OPENAI_API_KEY (world st) = None \/
  env_OPENAI_API_KEY (world st) = Some "" ->
  analyzeServer serverPath args st =
    (inl (Err "OPENAI_API_KEY environment variable is required"), st) /\
  Wrapper.startWrapperServer configPath st =
    (inl (Err "OPENAI_API_KEY environment variable is required"), st).
Proof.
  intros Hkey.
  unfold analyzeServer, Wrapper.startWrapperServer, validateEnvironment,
    Wrapper.validateEnvironment, bind, observe, throw.
  destruct Hkey as [Hkey | Hkey]; rewrite Hkey; simpl; rewrite state_eta;
    split; reflexivity.
Qed.

(** X2. A peer that cannot be started ends the discovery run at once:
    the error is [Failed to connect to MCP server: ] followed by the
    message of the cause, the connection attempt is the only request of
    the run, and nothing is closed since nothing was opened. *)
Theorem analyzeServer_connect_failure
  (serverPath : string) (args : list string) (st : state W)
  (key : string) (e : thrown) (w1 : W) :
  env_OPENAI_API_KEY (world st) = Some key -> key <> "" ->
  client_connect serverPath args (world st) = (inl e, w1) ->
  analyzeServer serverPath args st =
    (inl (Err ("Failed to connect to MCP server: " ++ error_message e)),
     mkState w1 (trace st ++ [EConnect serverPath args])).
Proof.
  intros Hkey Hne Hconn.
  unfold analyzeServer, validateEnvironment, connectToServer.
  unfold bind, observe, attempt, try_catch, request, throw. simpl.
  rewrite Hkey. apply String.eqb_neq in Hne. rewrite Hne. simpl.
  rewrite Hconn. reflexivity.
Qed.

(** The planner's answer as [analyzeWithLLM] reads it. *)
Lemma analyzeWithLLM_failure (caps : ServerCapabilities) (st : state W)
  (r : result string) (w1 : W) (e : thrown) :
  generateText (analysisPrompt caps) (world st) = (r, w1) ->
  and_then r JSON_parse = inl e ->
  analyzeWithLLM caps st =
    (inl (Err ("Failed to analyze server capabilities: " ++ error_message e)),
     mkState w1 (trace st ++ [EGenerateText (analysisPrompt caps)])).
Proof.
  intros Hgen Hbad.
  unfold analyzeWithLLM, try_catch, bind, request, lift, throw.
  rewrite Hgen. destruct r as [e' | text]; simpl in *.
  - inversion Hbad. reflexivity.
  - rewrite Hbad. reflexivity.
Qed.

(** X3. When the planner rejects the analysis request, or answers with a
    text that is not a JSON document, the discovery run stops there: no
    directory is created and no descriptor written, the connection is
    closed, and the run fails with [Failed to analyze server
    capabilities: ] followed by the message of the cause (or with the
    error of the close, when the close is rejected too). *)
Theorem analyzeServer_planner_failure
  (serverPath : string) (args : list string) (st : state W)
  (key : string) (u : unit) (w1 : W)
  (caps : ServerCapabilities) (st2 : state W)
  (r : result string) (w3 : W) (e : thrown) :
  env_OPENAI_API_KEY (world st) = Some key -> key <> "" ->
  client_connect serverPath args (world st) = (inr u, w1) ->
  discoverCapabilities (mkState w1 (trace st ++ [EConnect serverPath args])) =
    (inr caps, st2) ->
  generateText (analysisPrompt caps) (world st2) = (r, w3) ->
  and_then r JSON_parse = inl e ->
  analyzeServer serverPath args st =
    (match fst (client_close w3) with
     | inl closing => inl closing
     | inr _ =>
         inl (Err ("Failed to analyze server capabilities: "
                   ++ error_message e))
     end,
     mkState (snd (client_close w3))
             (trace st2 ++ [EGenerateText (analysisPrompt caps); EClientClose])).
Proof.
  intros Hkey Hne Hconn Hdisc Hgen Hbad.
  rewrite (analyzeServer_connected serverPath args st key u w1 Hkey Hne Hconn).
  unfold try_finally, analyzeConnected, bind. rewrite Hdisc.
  rewrite (analyzeWithLLM_failure caps st2 r w3 e Hgen Hbad).
  unfold request. simpl.
  destruct (client_close w3) as [[ec | uc] w4]; simpl;
    rewrite <- app_assoc; reflexivity.
Qed.

(** X4. A discovery run only ever connects, lists, asks the planner,
    creates a directory, writes a file and closes: whatever the world
    answers, it invokes no tool of the peer, reads no file, does not
    touch the serving transport and does not end the process. *)
Theorem analyzeServer_requests
  (serverPath : string) (args : list string) (w : W) :
  Forall discovery_request
         (trace (snd (run (analyzeServer serverPath args) w))) /\
  count is_call_tool (trace (snd (run (analyzeServer serverPath args) w))) = 0.
Proof.
  assert (H : emits (W := W) discovery_request (analyzeServer serverPath args)).
  { unfold analyzeServer, validateEnvironment, connectToServer,
      analyzeConnected, discoverCapabilities, analyzeWithLLM,
      saveConfiguration, discovery_request.
    emits_auto. }
  destruct (H (mkState w [])) as [tr [E F]]. unfold run. rewrite E. simpl.
  split; [exact F |].
  apply count_none. eapply Forall_impl; [| exact F].
  intros ev Hev. destruct ev; simpl in *; tauto.
Qed.

End DiscoveryRuns.

Section MoreInversion.
Context {W : Type}.

Lemma observe_inr {A} (f : W -> A * W) (a : A) (st st' : state W) :
  observe f st = (inr a, st') ->
  a = fst (f (world st)) /\ trace st' = trace st.
Proof.
  unfold observe. destruct (f (world st)) as [a' w']. intros H.
  inversion H. auto.
Qed.

Lemma emits_inr {A} (P : event -> Prop) (m : M W A) (st : state W) :
  emits P m -> exists tr, trace (snd (m st)) = trace st ++ tr /\ Forall P tr.
Proof. intros H. exact (H st). Qed.

End MoreInversion.

Section DescriptorWritten.
Context {W : Type} {rt : Runtime} {host : Host W}.
Import Analyzer.

Lemma discoverCapabilities_listing :
  emits (W := W) listing_request discoverCapabilities.
Proof. unfold discoverCapabilities, listing_request. emits_auto. Qed.

Lemma analyzeWithLLM_inr (caps : ServerCapabilities) (st st' : state W)
  (analysis : value) :
  analyzeWithLLM caps st = (inr analysis, st') ->
  trace st' = trace st ++ [EGenerateText (analysisPrompt caps)].
Proof.
  unfold analyzeWithLLM, try_catch, bind, request, lift, throw, ret.
  destruct (generateText (analysisPrompt caps) (world st)) as [[e | text] w1];
    simpl; [discriminate |].
  destruct (JSON_parse text); simpl; intros H; inversion H. reflexivity.
Qed.

Lemma call_toLowerCase_inr (v : value) (lowered : string) :
  call_toLowerCase v = inr lowered ->
  exists s, v = VStr s /\ lowered = toLowerCase s.
Proof.
  destruct v; simpl; intros H; try discriminate H.
  inversion H. eauto.
Qed.

(** A save that returns was given a name that is a string, created the
    directory, then wrote the one file whose path it returns. *)
Lemma saveConfiguration_inr (config : ServerConfig) (st st' : state W)
  (path : string) :
  saveConfiguration config st = (inr path, st') ->
  exists n now dir,
    sc_name config = VStr n /\
    path = path_join dir (descriptor_file n now) /\
    trace st' =
      trace st ++ [EMkdir dir;
                   EWriteFile path (JSON_stringify (ServerConfig_value config))].
Proof.
  unfold saveConfiguration, bind, observe, request, lift, ret, throw. simpl.
  destruct (fs_mkdir _ (world st)) as [[e | u] w1]; simpl; [discriminate |].
  destruct (call_toLowerCase (sc_name config)) as [e | lowered] eqn:Hname;
    simpl; [discriminate |].
  apply call_toLowerCase_inr in Hname. destruct Hname as [n [Hn Hl]].
  destruct (Date_now w1) as [now w2]. simpl.
  destruct (fs_writeFile _ _ w2) as [[e | u'] w3]; simpl; [discriminate |].
  intros H. inversion H; subst.
  exists n, now, (path_join (process_cwd (world st)) "configs").
  repeat split; auto.
  rewrite <- app_assoc. reflexivity.
Qed.

Lemma analyzeConnected_inr (serverPath : string) (args : list string)
  (st st' : state W) (res : AnalysisResult) :
  analyzeConnected serverPath args st = (inr res, st') ->
  exists listing n stamp now dir,
    Forall listing_request listing /\
    expertName res = VStr n /\
    configPath res = path_join dir (descriptor_file n now) /\
    trace st' =
      trace st ++ listing ++
      [EGenerateText (analysisPrompt (ar_capabilities res));
       EMkdir dir;
       EWriteFile (configPath res)
         (JSON_stringify
            (ServerConfig_value (descriptor_of serverPath args res stamp)))].
Proof.
  unfold analyzeConnected. intros H.
  apply bind_inr in H. destruct H as (caps & st1 & Hdisc & H).
  apply bind_inr in H. destruct H as (analysis & st2 & Hllm & H).
  apply bind_inr in H. destruct H as (n & st3 & Hn & H).
  apply bind_inr in H. destruct H as (d & st4 & Hd & H).
  apply bind_inr in H. destruct H as (s & st5 & Hs & H).
  apply bind_inr in H. destruct H as (now0 & st6 & Hnow & H).
  apply bind_inr in H. destruct H as (path & st7 & Hsave & H).
  apply ret_inr in H. destruct H as [Hres Hst]. subst st7.
  destruct (emits_inr _ _ st discoverCapabilities_listing) as [listing [El Fl]].
  rewrite Hdisc in El. simpl in El.
  apply analyzeWithLLM_inr in Hllm.
  apply lift_inr in Hn. destruct Hn as [_ Hn]. subst st3.
  apply lift_inr in Hd. destruct Hd as [_ Hd]. subst st4.
  apply lift_inr in Hs. destruct Hs as [_ Hs]. subst st5.
  apply observe_inr in Hnow. destruct Hnow as [_ Hnow].
  apply saveConfiguration_inr in Hsave.
  destruct Hsave as (n' & now & dir & Hname & Hpath & Htrace).
  simpl in Hname.
  exists listing, n', (toISOString now0), now, dir.
  subst res. cbn [expertName configPath ar_capabilities].
  split; [exact Fl |]. split; [exact Hname |]. split; [exact Hpath |].
  rewrite Htrace, Hnow, Hllm, El.
  unfold descriptor_of. cbn.
  rewrite <- !app_assoc. reflexivity.
Qed.

(** X5. A discovery run that returns made its requests in this order:
    the connection, the listings, one request to the planner, the
    creation of the descriptors' directory, the write of one file, the
    close.  The planner named the expert with a string; the file is
    [<name lower-cased, whitespace runs as '-'>-<time>.json] in that
    directory, its path is the [configPath] returned, and its text is
    the descriptor built from the values returned and the command line
    analysed. *)
Theorem analyzeServer_success
  (serverPath : string) (args : list string) (w : W)
  (res : AnalysisResult) (st : state W) :
  run (analyzeServer serverPath args) w = (inr res, st) ->
  exists listing n stamp now dir,
    Forall listing_request listing /\
    expertName res = VStr n /\
    configPath res = path_join dir (descriptor_file n now) /\
    trace st =
      [EConnect serverPath args] ++ listing ++
      [EGenerateText (analysisPrompt (ar_capabilities res));
       EMkdir dir;
       EWriteFile (configPath res)
         (JSON_stringify
            (ServerConfig_value (descriptor_of serverPath args res stamp)));
       EClientClose].
Proof.
  unfold run, analyzeServer. intros H.
  apply bind_inr in H. destruct H as (? & st0 & Henv & H).
  apply bind_inr in H. destruct H as (connection & st1 & Hconn & H).
  destruct connection as [e | u]; [discriminate H |].
  apply try_finally_inr in H. destruct H as (st2 & Hbody & _ & Hst).
  apply analyzeConnected_inr in Hbody.
  destruct Hbody as (listing & n & stamp & now & dir & Fl & Hn & Hp & Ht).
  exists listing, n, stamp, now, dir.
  split; [exact Fl |]. split; [exact Hn |]. split; [exact Hp |].
  assert (Htr0 : trace st0 = []).
  { revert Henv. unfold validateEnvironment, bind, observe, throw, ret. simpl.
    destruct (env_OPENAI_API_KEY w) as [k |]; simpl; [| discriminate].
    destruct (String.eqb k ""); intros E; inversion E. reflexivity. }
  assert (Htr1 : trace st1 = [EConnect serverPath args]).
  { revert Hconn. unfold attempt, connectToServer, try_catch, request, throw.
    destruct (client_connect serverPath args (world st0)) as [[e | u'] w1];
      simpl; intros E; inversion E. rewrite Htr0. reflexivity. }
  subst st. unfold request.
  destruct (client_close (world st2)) as [r w3]. simpl.
  rewrite Ht, Htr1. rewrite <- !app_assoc. reflexivity.
Qed.

End DescriptorWritten.

Section DescriptorRead.
Context {W : Type} {rt : Runtime} {host : Host W}.
Import Analyzer Wrapper.

Lemma lookup_put (k k' : string) (v : value) (acc : list (string * value)) :
  lookup k (put k' v acc) =
  if String.eqb k k' then
    match v with
    | VUndefined => lookup k acc
    | _ => v
    end
  else lookup k acc.
Proof.
  destruct v; simpl; try rewrite lookup_set_field;
    destruct (String.eqb k k'); reflexivity.
Qed.

Lemma jsonify_string (v : value) (s : string) :
  match jsonify v with
  | VUndefined => VUndefined
  | _ => jsonify v
  end = VStr s ->
  v = VStr s.
Proof. destruct v; simpl; congruence. Qed.

Lemma map_VStr_inj (a b : list string) : map VStr a = map VStr b -> a = b.
Proof.
  revert b. induction a as [| x a IH]; intros [| y b] H;
    simpl in H; try discriminate; auto.
  inversion H. f_equal. auto.
Qed.

Lemma jsonify_strings (ss : list string) :
  map (fun item => item_of (jsonify item)) (map VStr ss) = map VStr ss.
Proof. induction ss as [| s ss IH]; simpl; [| rewrite IH]; reflexivity. Qed.

(** Written and read again, a descriptor keeps the command line it was
    analysed under and the three texts of the planner. *)
Lemma jsonify_keeps_fields (config : ServerConfig) (cfg : WrapperConfig) :
  describes (jsonify (ServerConfig_value config)) cfg ->
  sc_name config = VStr (name cfg) /\
  sc_description config = VStr (description cfg) /\
  sc_serverPath config = serverPath cfg /\
  sc_args config = args cfg /\
  sc_systemPrompt config = VStr (systemPrompt cfg) /\
  length (tools (capabilities cfg)) = length (tools (sc_capabilities config)) /\
  length (resources (capabilities cfg)) =
    length (resources (sc_capabilities config)) /\
  length (prompts (capabilities cfg)) = length (prompts (sc_capabilities config)).
Proof.
  intros (o & c & m & H).
  destruct H as (Hdoc & Hname & Hdesc & Hpath & Hargs & Hprompt & Hcaps &
                 Htools & Hres & Hprompts & _).
  unfold ServerConfig_value in Hdoc. cbn [jsonify fold_left] in Hdoc.
  inversion Hdoc; subst o; clear Hdoc.
  repeat first [ rewrite lookup_set_field in Hname, Hdesc, Hpath, Hargs,
                   Hprompt, Hcaps
               | rewrite lookup_put in Hname, Hdesc, Hpath, Hargs,
                   Hprompt, Hcaps ].
  cbn [String.eqb Ascii.eqb Bool.eqb lookup] in Hname, Hdesc, Hpath, Hargs,
    Hprompt, Hcaps.
  apply jsonify_string in Hname, Hdesc, Hprompt.
  rewrite jsonify_strings in Hargs.
  inversion Hpath. inversion Hargs as [Hargs'].
  apply map_VStr_inj in Hargs'.
  inversion Hcaps; subst c; clear Hcaps.
  simpl in Htools, Hres, Hprompts.
  inversion Htools as [Ht]. inversion Hres as [Hr]. inversion Hprompts as [Hp].
  rewrite !length_map.
  repeat split; auto.
Qed.

(** X6. The descriptor a discovery run wrote is the one a serve session
    works from.  Whenever [loadConfig] is handed back the text written
    (the runtime's [JSON.parse] reading back what its [JSON.stringify]
    writes) and accepts it, the descriptor loaded carries the command
    and the arguments the analysis ran the peer with, the name, the
    description and the system prompt the analysis returned, and as many
    tools, resources and prompts; and the file written is named after
    the entry point that the session will advertise. *)
Theorem analyzed_descriptor_loads_back
  (sp : string) (arguments : list string) (w : W)
  (res : AnalysisResult) (st : state W) :
  codec_law rt ->
  run (analyzeServer sp arguments) w = (inr res, st) ->
  exists data now dir,
    In (EWriteFile (configPath res) data) (trace st) /\
    forall (w' : W) (cfg : WrapperConfig) (st' : state W),
      fst (fs_readFile (configPath res) w') = inr data ->
      run (loadConfig (configPath res)) w' = (inr cfg, st') ->
      serverPath cfg = sp /\ args cfg = arguments /\
      expertName res = VStr (name cfg) /\
      expertDescription res = VStr (description cfg) /\
      ar_systemPrompt res = VStr (systemPrompt cfg) /\
      length (tools (capabilities cfg)) = length (tools (ar_capabilities res)) /\
      length (resources (capabilities cfg)) =
        length (resources (ar_capabilities res)) /\
      length (prompts (capabilities cfg)) =
        length (prompts (ar_capabilities res)) /\
      configPath res =
        path_join dir (td_name (createExpertTool cfg) ++ "-"
                       ++ string_of_Z now ++ ".json").
Proof.
  intros Hcodec Hrun.
  unfold run, analyzeServer in Hrun.
  apply bind_inr in Hrun. destruct Hrun as (? & st0 & _ & H).
  apply bind_inr in H. destruct H as (connection & st1 & _ & H).
  destruct connection as [e | u]; [discriminate H |].
  apply try_finally_inr in H. destruct H as (st2 & Hbody & _ & Hst).
  apply analyzeConnected_inr in Hbody.
  destruct Hbody as (listing & n & stamp & now & dir & _ & Hn & Hp & Ht).
  exists (JSON_stringify (ServerConfig_value (descriptor_of sp arguments res stamp))),
    now, dir.
  split.
  - subst st. unfold request.
    destruct (client_close (world st2)) as [r w3]. simpl. rewrite Ht.
    apply in_or_app. left. apply in_or_app. right.
    apply in_or_app. right. right. right. left. reflexivity.
  - intros w' cfg st' Hread Hload.
    unfold run in Hload. apply loadConfig_inr in Hload.
    destruct Hload as (data' & w1 & doc & Hread' & Hparse & Hdesc & _).
    simpl in Hread'. rewrite Hread' in Hread. simpl in Hread.
    inversion Hread; subst data'.
    rewrite (Hcodec (ServerConfig_value (descriptor_of sp arguments res stamp)))
      in Hparse by discriminate.
    inversion Hparse; subst doc.
    apply (jsonify_keeps_fields (descriptor_of sp arguments res stamp) cfg)
      in Hdesc.
    cbn in Hdesc.
    destruct Hdesc as (Hname & Hd & Hsp & Hargs & Hs & Hlt & Hlr & Hlp).
    repeat split; auto.
    rewrite Hp. unfold descriptor_file, createExpertTool. cbn [td_name].
    rewrite Hn in Hname. inversion Hname. reflexivity.
Qed.

(** X7. Nothing checks the planner's analysis against its declared
    shape.  When the document the planner returned has no [expertName]
    that is a string, the discovery run fails with a type error and has
    written no descriptor; the connection is closed all the same. *)
Theorem analysis_without_name_writes_nothing
  (sp : string) (arguments : list string) (w : W)
  (key : string) (u : unit) (w1 : W)
  (caps : ServerCapabilities) (st2 : state W)
  (text : string) (w3 : W) (analysis : value) :
  env_OPENAI_API_KEY w = Some key -> key <> ""%string ->
  client_connect sp arguments w = (inr u, w1) ->
  discoverCapabilities (mkState w1 [EConnect sp arguments]) = (inr caps, st2) ->
  generateText (analysisPrompt caps) (world st2) = (inr text, w3) ->
  JSON_parse text = inr analysis ->
  (forall n, prop analysis "expertName" <> VStr n) ->
  exists e,
    fst (run (analyzeServer sp arguments) w) = inl e /\
    count is_write_file (trace (snd (run (analyzeServer sp arguments) w))) = 0 /\
    count is_client_close
      (trace (snd (run (analyzeServer sp arguments) w))) = 1.
Proof.
  intros Hkey Hne Hconn Hdisc Hgen Hparse Hname.
  unfold run.
  rewrite (analyzeServer_connected sp arguments (mkState w []) key u w1
             Hkey Hne Hconn).
  destruct (emits_inr _ _ (mkState w1 [EConnect sp arguments])
              discoverCapabilities_listing) as [listing [El Fl]].
  rewrite Hdisc in El. simpl in El.
  assert (Hlist : forall p, (forall ev, listing_request ev -> p ev = false) ->
                            count p listing = 0).
  { intros p Hp. apply count_none. eapply Forall_impl; [| exact Fl]. exact Hp. }
  assert (Hw : count is_write_file (trace st2) = 0).
  { rewrite El. change (count is_write_file ([EConnect sp arguments] ++ listing) = 0).
    rewrite count_app, Hlist; [reflexivity |]. intros []; simpl; tauto. }
  assert (Hc : count is_client_close (trace st2) = 0).
  { rewrite El. change (count is_client_close ([EConnect sp arguments] ++ listing) = 0).
    rewrite count_app, Hlist; [reflexivity |]. intros []; simpl; tauto. }
  clear El.
  unfold try_finally, analyzeConnected, bind. simpl. rewrite Hdisc.
  unfold analyzeWithLLM, try_catch, bind, request, lift, ret, throw.
  rewrite Hgen. simpl. rewrite Hparse. simpl.
  destruct (get analysis "expertName") as [e | n] eqn:Hgetn; simpl.
  { destruct (client_close w3) as [[ec | uc] w4]; cbn [fst snd trace];
      eexists; (split; [reflexivity |]);
      rewrite !count_app, Hw, Hc; split; reflexivity. }
  rewrite (get_defined analysis "expertName" "expertDescription" n Hgetn).
  rewrite (get_defined analysis "expertName" "systemPrompt" n Hgetn). simpl.
  unfold observe. simpl.
  destruct (Date_now w3) as [now w4]. simpl.
  unfold saveConfiguration, bind, observe, request, lift, throw. simpl.
  assert (Hn : n = prop analysis "expertName")
    by (unfold prop; rewrite Hgetn; reflexivity).
  destruct (fs_mkdir _ w4) as [[em | um] w5]; simpl.
  { destruct (client_close w5) as [[ec | uc] w6]; cbn [fst snd trace];
      eexists; (split; [reflexivity |]);
      rewrite !count_app, Hw, Hc; split; reflexivity. }
  destruct (call_toLowerCase n) as [e | lowered] eqn:Hlow; simpl.
  { destruct (client_close w5) as [[ec | uc] w6]; cbn [fst snd trace];
      eexists; (split; [reflexivity |]);
      rewrite !count_app, Hw, Hc; split; reflexivity. }
  apply call_toLowerCase_inr in Hlow. destruct Hlow as [s [Hs _]].
  exfalso. apply (Hname s). congruence.
Qed.

End DescriptorRead.

(* ================================================================== *)
(** ** The coordination engine: start-up, the entry point, the modes *)
(* ================================================================== *)

Section ServeSession.
Context {W : Type} {rt : Runtime} {host : Host W}.
Import Wrapper.

(** X8. A load that fails has made one request, the read of the file,
    and reports the cause under one label: the error of the read, of
    [JSON.parse] or of the schema, its message prefixed with [Failed to
    load configuration: ] (a thrown value that is not an [Error] is
    passed on as it is). *)
Theorem loadConfig_failure
  (configPath : string) (st : state W) (e : thrown) (st' : state W) :
  loadConfig configPath st = (inl e, st') ->
  trace st' = trace st ++ [EReadFile configPath] /\
  exists cause,
    e = load_error cause /\
    (fst (fs_readFile configPath (world st)) = inl cause \/
     exists data,
       fst (fs_readFile configPath (world st)) = inr data /\
       (JSON_parse data = inl cause \/
        exists doc,
          JSON_parse data = inr doc /\
          WrapperConfigSchema_parse doc = inl cause)).
Proof.
  unfold loadConfig, try_catch, bind, request, lift, throw, ret, load_error.
  destruct (fs_readFile configPath (world st)) as [[cause | data] w1]; simpl.
  - intros H. split; [destruct cause; inversion H; reflexivity |].
    exists cause. split; [destruct cause; inversion H; reflexivity | auto].
  - destruct (JSON_parse data) as [cause | doc] eqn:Hparse; simpl.
    + intros H. split; [destruct cause; inversion H; reflexivity |].
      exists cause. split; [destruct cause; inversion H; reflexivity |].
      right. exists data. auto.
    + destruct (WrapperConfigSchema_parse doc) as [cause | cfg] eqn:Hschema;
        simpl; [| discriminate].
      intros H. split; [destruct cause; inversion H; reflexivity |].
      exists cause. split; [destruct cause; inversion H; reflexivity |].
      right. exists data. split; [reflexivity |]. right. exists doc. auto.
Qed.

Lemma validateEnvironment_inr (st st' : state W) (u : unit) :
  validateEnvironment st = (inr u, st') -> st' = st.
Proof.
  unfold validateEnvironment, bind, observe, throw, ret. simpl.
  destruct (env_OPENAI_API_KEY (world st)) as [k |]; simpl; [| discriminate].
  destruct (String.eqb k ""); intros H; inversion H.
  destruct st; reflexivity.
Qed.

Lemma connectToWrappedServer_inr (config : WrapperConfig)
  (st st' : state W) (u : unit) :
  connectToWrappedServer config st = (inr u, st') ->
  trace st' = trace st ++ [EConnect (serverPath config) (args config)].
Proof.
  unfold connectToWrappedServer, try_catch, request, throw.
  destruct (client_connect _ _ (world st)) as [[e | u'] w1]; simpl;
    intros H; inversion H. reflexivity.
Qed.

(** X9. A serve session that started has read the descriptor, started
    the peer with the command and the arguments stored in it, and only
    then opened the serving transport -- these three requests, in this
    order.  The handlers it leaves registered work from the descriptor
    loaded: the tool advertised is the one [createExpertTool] derives
    from it. *)
Theorem startWrapperServer_success
  (configPath : string) (st : state W) (session : Session) (st' : state W) :
  startWrapperServer configPath st = (inr session, st') ->
  (exists st1,
     loadConfig configPath st = (inr (session_config session), st1)) /\
  session_tool session = createExpertTool (session_config session) /\
  trace st' =
    trace st ++ [EReadFile configPath;
                 EConnect (serverPath (session_config session))
                          (args (session_config session));
                 EServerConnect].
Proof.
  unfold startWrapperServer. intros H.
  apply bind_inr in H. destruct H as (u & st0 & Henv & H).
  apply validateEnvironment_inr in Henv. subst st0.
  apply bind_inr in H. destruct H as (config & st1 & Hload & H).
  apply bind_inr in H. destruct H as (u1 & st2 & Hconn & H).
  apply bind_inr in H. destruct H as (u2 & st3 & Hserve & H).
  apply ret_inr in H. destruct H as [Hs Hst]. subst session st3.
  cbn [session_config session_tool].
  split; [exists st1; exact Hload |]. split; [reflexivity |].
  apply request_inr in Hserve. apply connectToWrappedServer_inr in Hconn.
  apply loadConfig_inr in Hload.
  destruct Hload as (data & w1 & doc & _ & _ & _ & Hst1).
  rewrite Hserve, Hconn, Hst1. cbn [trace].
  rewrite <- !app_assoc. reflexivity.
Qed.

(** X10. When the peer named in the descriptor cannot be started, the
    session does not start: the error is [Failed to connect to wrapped
    server: ] followed by the message of the cause, and the serving
    transport has not been opened. *)
Theorem startWrapperServer_connect_failure
  (configPath : string) (st : state W) (key : string)
  (config : WrapperConfig) (st1 : state W) (e : thrown) (w2 : W) :
  env_OPENAI_API_KEY (world st) = Some key -> key <> ""%string ->
  loadConfig configPath st = (inr config, st1) ->
  client_connect (serverPath config) (args config) (world st1) = (inl e, w2) ->
  startWrapperServer configPath st =
    (inl (Err ("Failed to connect to wrapped server: " ++ error_message e)),
     mkState w2 (trace st ++ [EReadFile configPath;
                              EConnect (serverPath config) (args config)])).
Proof.
  intros Hkey Hne Hload Hconn.
  assert (Hst1 : trace st1 = trace st ++ [EReadFile configPath]).
  { apply loadConfig_inr in Hload.
    destruct Hload as (data & w1 & doc & _ & _ & _ & Hst1).
    rewrite Hst1. reflexivity. }
  unfold startWrapperServer, validateEnvironment, bind at 1 2, observe.
  simpl. rewrite Hkey. apply String.eqb_neq in Hne. rewrite Hne. simpl.
  replace (mkState (world st) (trace st)) with st by (destruct st; reflexivity).
  unfold bind. rewrite Hload.
  unfold connectToWrappedServer, try_catch, request, throw.
  rewrite Hconn, Hst1, <- app_assoc. reflexivity.
Qed.

(** X11. The start of a serve session only reads the descriptor,
    connects the peer and opens the serving transport.  In particular it
    closes nothing: when the serving transport fails to open, the peer
    it has just started is left running. *)
Theorem startWrapperServer_requests (configPath : string) (w : W) :
  Forall startup_request
         (trace (snd (run (startWrapperServer configPath) w))) /\
  count is_client_close
        (trace (snd (run (startWrapperServer configPath) w))) = 0.
Proof.
  assert (H : emits (W := W) startup_request (startWrapperServer configPath)).
  { unfold startWrapperServer, validateEnvironment, loadConfig,
      connectToWrappedServer, startup_request.
    emits_auto. }
  destruct (H (mkState w [])) as [tr [E F]]. unfold run. rewrite E. simpl.
  split; [exact F |].
  apply count_none. eapply Forall_impl; [| exact F].
  intros ev Hev. destruct ev; simpl in *; tauto.
Qed.

(** X12. The entry point answers for the one tool it advertises.  A call
    under any name that [tools/list] does not return is refused with
    [Unknown tool: <name>] before its arguments are looked at, in the
    state it arrived in. *)
Theorem callToolHandler_unknown_tool
  (expertTool : ToolDefinition) (config : WrapperConfig)
  (req : CallToolRequest) (st : state W) :
  ~ In (params_name req) (map td_name (listToolsHandler expertTool)) ->
  callToolHandler expertTool config req st =
    (inl (Err ("Unknown tool: " ++ params_name req)), st).
Proof.
  intros Hname. unfold callToolHandler.
  destruct (String.eqb (params_name req) (td_name expertTool)) eqn:E; simpl.
  - apply String.eqb_eq in E. exfalso. apply Hname. simpl. auto.
  - reflexivity.
Qed.

(** X13. A call that names no mode is an execute call: it is the same
    computation as the call that carries the same query and the mode
    [execute]. *)
Theorem callToolHandler_default_mode
  (expertTool : ToolDefinition) (config : WrapperConfig)
  (req req' : CallToolRequest) (fields fields' : list (string * value))
  (q : string) :
  params_name req = params_name req' ->
  params_arguments req = VObj fields ->
  params_arguments req' = VObj fields' ->
  lookup "query" fields = VStr q ->
  lookup "query" fields' = VStr q ->
  lookup "mode" fields = VUndefined ->
  lookup "mode" fields' = VStr "execute" ->
  callToolHandler expertTool config req =
  callToolHandler expertTool config req'.
Proof.
  intros Hname Ha Ha' Hq Hq' Hm Hm'.
  unfold callToolHandler, ExpertToolSchema_parse.
  rewrite Hname, Ha, Ha'. simpl. rewrite Hq, Hq', Hm, Hm'. reflexivity.
Qed.

(** X14. A call without a query that is a string -- no arguments at
    all, arguments that are not an object, a query missing or of another
    type -- is refused by the input schema in the state it arrived in:
    nothing was asked of the peer or of the planner. *)
Theorem callToolHandler_requires_query
  (expertTool : ToolDefinition) (config : WrapperConfig)
  (req : CallToolRequest) (st : state W) :
  params_name req = td_name expertTool ->
  (forall fields q,
     params_arguments req = VObj fields -> lookup "query" fields <> VStr q) ->
  exists e, callToolHandler expertTool config req st = (inl e, st).
Proof.
  intros Hname Hq. unfold callToolHandler.
  rewrite Hname, String.eqb_refl. simpl.
  unfold ExpertToolSchema_parse, bind, lift, throw.
  destruct (params_arguments req) as [| | | | | | fields] eqn:Ha; simpl; eauto.
  destruct (lookup "query" fields) as [| | | | q | |] eqn:Hl; simpl; eauto.
  exfalso. exact (Hq fields q eq_refl Hl).
Qed.

(** X15. While it answers a call, the entry point only lists what the
    peer offers, asks the planner and invokes tools: whatever the call
    and whatever the world answers, it reads and writes no file, opens
    and closes no connection, and does not end the process. *)
Theorem callToolHandler_requests
  (expertTool : ToolDefinition) (config : WrapperConfig)
  (req : CallToolRequest) (w : W) :
  Forall query_request
         (trace (snd (run (callToolHandler expertTool config req) w))).
Proof.
  assert (Hcalls : forall calls results,
             emits (W := W) query_request (executeCalls calls results)).
  { induction calls as [| call rest IH]; intros results; simpl.
    - apply emits_ret.
    - apply emits_bind; [| intros; apply IH].
      unfold executeCall, query_request. emits_auto. }
  assert (H : emits (W := W) query_request
                (callToolHandler expertTool config req)).
  { unfold callToolHandler, handleExpertQuery, handleDiscover, handleExplain,
      handleExecute.
    cbv zeta.
    repeat first
      [ apply Hcalls
      | apply emits_ret | apply emits_throw | apply emits_lift
      | apply emits_request; simpl; exact I
      | apply emits_bind; [ | intros ? ]
      | apply emits_try_catch; [ | intros ? ]
      | apply emits_attempt
      | match goal with
        | |- emits _ (match ?x with _ => _ end) => destruct x
        | |- emits _ (if ?b then _ else _) => destruct b
        end ]. }
  destruct (H (mkState w [])) as [tr [E F]]. unfold run. rewrite E. exact F.
Qed.

(** X16. The discover and explain modes only read: a call in one of
    them lists what the peer offers and does nothing else -- no tool is
    invoked, whatever the query says. *)
Theorem discover_explain_only_list
  (query : string) (m : string) (config : WrapperConfig) (w : W) :
  m = "discover"%string \/ m = "explain"%string ->
  Forall listing_request
         (trace (snd (run (handleExpertQuery query (Some m) config) w))) /\
  count is_call_tool
        (trace (snd (run (handleExpertQuery query (Some m) config) w))) = 0.
Proof.
  intros Hm.
  assert (H : emits (W := W) listing_request
                (handleExpertQuery query (Some m) config)).
  { destruct Hm; subst m; unfold handleExpertQuery; simpl;
      unfold handleDiscover, handleExplain, listing_request; emits_auto. }
  destruct (H (mkState w [])) as [tr [E F]]. unfold run. rewrite E. simpl.
  split; [exact F |].
  apply count_none. eapply Forall_impl; [| exact F].
  intros ev Hev. destruct ev; simpl in *; tauto.
Qed.

(** X17. Discover mode is all or nothing.  The three list requests are
    always issued, tools then resources then prompts, whatever the
    answers; the call returns when the peer answers all three, and fails
    with the earliest rejection otherwise -- so a peer that implements
    tools only, which the discovery run accepts, makes discover mode
    fail. *)
Theorem handleDiscover_all_or_nothing (config : WrapperConfig) (st : state W) :
  let a := client_listTools (world st) in
  let b := client_listResources (snd a) in
  let c := client_listPrompts (snd b) in
  snd (handleDiscover config st) =
    mkState (snd c) (trace st ++ [EListTools; EListResources; EListPrompts]) /\
  match first_rejection (fst a) (fst b) (fst c) with
  | Some e => fst (handleDiscover config st) = inl e
  | None => exists v, fst (handleDiscover config st) = inr v
  end.
Proof.
  unfold handleDiscover, Promise_all3, bind, attempt, request, ret, throw.
  simpl.
  destruct (client_listTools (world st)) as [[ea | ta] wa]; simpl;
    destruct (client_listResources wa) as [[eb | tb] wb]; simpl;
    destruct (client_listPrompts wb) as [[ec | tc] wc]; simpl;
    rewrite <- !app_assoc; split; eauto.
Qed.

Lemma or_none_nonempty (s : string) : or_none s <> ""%string.
Proof.
  unfold or_none. destruct (String.eqb s "") eqn:E.
  - discriminate.
  - apply String.eqb_neq. exact E.
Qed.

(** X18. Explain mode makes one request, the tool list, and describes
    the expert from the descriptor: its description and its system
    prompt as loaded, and the names of the peer's tools, which is never
    the empty text ([none] stands for no tool). *)
Theorem handleExplain_success
  (config : WrapperConfig) (st : state W) (v : value) (st' : state W) :
  handleExplain config st = (inr v, st') ->
  trace st' = trace st ++ [EListTools] /\
  prop v "description" = VStr (description config) /\
  prop v "systemPrompt" = VStr (systemPrompt config) /\
  exists names, prop v "availableTools" = VStr names /\ names <> ""%string.
Proof.
  unfold handleExplain, bind, request, lift, ret, throw.
  destruct (client_listTools (world st)) as [[e | t] w1]; simpl;
    [discriminate |].
  destruct (lt_tools t) as [ts |]; simpl.
  - destruct (map_name ts) as [e | names]; simpl; [discriminate |].
    intros H. inversion H; subst. simpl.
    repeat split. eexists. split; [reflexivity | apply or_none_nonempty].
  - intros H. inversion H; subst. simpl.
    repeat split. eexists. split; [reflexivity | discriminate].
Qed.

End ServeSession.

Section ExecuteMode.
Context {W : Type} {rt : Runtime} {host : Host W}.
Import Wrapper.

(** X19. Execute mode fails in two ways only.  When the peer rejects the
    tool-list request, its error comes out as it is and the planner has
    not been asked; every failure after that -- of the planner, of the
    parse of its answer, of the reading of the plan -- comes out as
    [Failed to coordinate with wrapped server: ] followed by the message
    of the cause, the planner having been asked once with the prompt
    built from the tool list. *)
Theorem handleExecute_failure
  (query : string) (config : WrapperConfig) (st : state W)
  (e : thrown) (st' : state W) :
  handleExecute query config st = (inl e, st') ->
  (exists w1,
     client_listTools (world st) = (inl e, w1) /\
     st' = mkState w1 (trace st ++ [EListTools])) \/
  (exists t w1 message tr,
     client_listTools (world st) = (inr t, w1) /\
     e = Err ("Failed to coordinate with wrapped server: " ++ message) /\
     trace st' =
       trace st ++ [EListTools;
                    EGenerateText (coordinationPrompt config t query)] ++ tr /\
     Forall (fun ev => is_call_tool ev = true) tr).
Proof.
  assert (Hcalls : forall calls results,
             emits (W := W) (fun ev => is_call_tool ev = true)
                   (executeCalls calls results)).
  { induction calls as [| call rest IH]; intros results; simpl.
    - apply emits_ret.
    - apply emits_bind; [| intros; apply IH].
      unfold executeCall. emits_auto. }
  unfold handleExecute, bind at 1, request at 1.
  destruct (client_listTools (world st)) as [[e0 | t] w1] eqn:Htools.
  - intros H. inversion H; subst. left. eauto.
  - intros H. right. exists t, w1.
    unfold try_catch in H.
    match type of H with
    | match ?body ?s with _ => _ end = _ =>
        destruct (body s) as [[cause | v] st2] eqn:Hbody
    end; [| discriminate].
    unfold throw in H. inversion H; subst. clear H.
    exists (error_message cause).
    unfold bind at 1, request at 1 in Hbody. cbn [world trace] in Hbody.
    destruct (generateText (coordinationPrompt config t query) w1)
      as [[eg | text] w2].
    + inversion Hbody; subst. exists []. cbn [trace].
      rewrite <- !app_assoc. repeat split; auto.
    + match type of Hbody with
      | ?rest ?s = _ =>
          assert (Hem : emits (W := W) (fun ev => is_call_tool ev = true) rest)
            by (repeat first [ apply Hcalls | apply emits_ret | apply emits_lift
                             | apply emits_bind; [| intros ?] ]);
          destruct (Hem s) as [tr [Etr Ftr]]
      end.
      rewrite Hbody in Etr. cbn [snd trace] in Etr.
      exists tr. rewrite Etr, <- !app_assoc. repeat split; auto.
Qed.

Lemma executeCalls_app (before after : list value) :
  forall (results : list value) (st : state W),
    executeCalls (before ++ after) results st =
    bind (executeCalls before results) (executeCalls after) st.
Proof.
  induction before as [| call rest IH]; intros results st; simpl.
  - reflexivity.
  - unfold bind.
    destruct (executeCall call results st) as [[e | results'] st1].
    + reflexivity.
    + rewrite IH. reflexivity.
Qed.

(** A call that is [null] or [undefined] has no name to read: the turn
    of the loop throws, out of its own [catch] block. *)
Lemma executeCall_nullish (toolCall : value) (results : list value)
  (st : state W) (e : thrown) :
  get toolCall "name" = inl e ->
  executeCall toolCall results st = (inl e, st).
Proof.
  intros Hget. unfold executeCall, try_catch, bind, lift, throw.
  rewrite Hget. reflexivity.
Qed.

(** X20. One planned call that is [null] loses the whole answer.  The
    calls planned before it have been put to the peer, with their
    effects; then the query fails with [Failed to coordinate with
    wrapped server: ] and the type error, their results are not
    returned, and the calls planned after it are not made. *)
Theorem execute_stops_at_null_call
  (query : string) (mode : option string) (config : WrapperConfig) (w : W)
  (t : ListToolsResult) (w1 : W) (text : string) (w2 : W)
  (plan : value) (before : list value) (culprit : value) (after : list value)
  (e : thrown) :
  effective_mode mode = "execute"%string ->
  client_listTools w = (inr t, w1) ->
  generateText (coordinationPrompt config t query) w1 = (inr text, w2) ->
  JSON_parse text = inr plan ->
  get plan "toolCalls" = inr (VArr (before ++ culprit :: after)) ->
  Forall (fun call => nullish call = false) before ->
  get culprit "name" = inl e ->
  run (handleExpertQuery query mode config) w =
    (inl (Err ("Failed to coordinate with wrapped server: "
               ++ error_message e)),
     mkState (snd (attempt_all before w2))
             ([EListTools; EGenerateText (coordinationPrompt config t query)]
              ++ map planned_request before)).
Proof.
  intros Hmode Htools Hgen Hparse Hcalls Hbefore Hnull.
  rewrite (handleExpertQuery_execute query mode config Hmode).
  unfold run, handleExecute, try_catch, bind, request. simpl.
  rewrite Htools. simpl. rewrite Hgen. simpl. rewrite Hparse. simpl.
  rewrite Hcalls. simpl.
  rewrite executeCalls_app. unfold bind at 1.
  rewrite (executeCalls_spec before Hbefore).
  cbn [executeCalls]. unfold bind at 1.
  rewrite (executeCall_nullish culprit _ _ e Hnull). reflexivity.
Qed.

(** X21. A plan is read leniently at both ends.  When its [toolCalls] is
    missing or falsy ([null], [false], [0], the empty string) the query
    succeeds with no result and no tool invoked; when it is a value that
    cannot be iterated (an object, a number, [true]) the query fails
    with [Failed to coordinate with wrapped server: ], again with no
    tool invoked. *)
Theorem execute_plan_without_calls
  (query : string) (mode : option string) (config : WrapperConfig) (w : W)
  (t : ListToolsResult) (w1 : W) (text : string) (w2 : W)
  (plan : value) (toolCalls : value) :
  effective_mode mode = "execute"%string ->
  client_listTools w = (inr t, w1) ->
  generateText (coordinationPrompt config t query) w1 = (inr text, w2) ->
  JSON_parse text = inr plan ->
  get plan "toolCalls" = inr toolCalls ->
  (truthy toolCalls = false ->
   run (handleExpertQuery query mode config) w =
     (inr (VObj [("explanation", prop plan "explanation");
                 ("results", VArr [])]),
      mkState w2 [EListTools;
                  EGenerateText (coordinationPrompt config t query)])) /\
  (forall e,
     truthy toolCalls = true -> iterate toolCalls = inl e ->
     run (handleExpertQuery query mode config) w =
       (inl (Err ("Failed to coordinate with wrapped server: "
                  ++ error_message e)),
        mkState w2 [EListTools;
                    EGenerateText (coordinationPrompt config t query)])).
Proof.
  intros Hmode Htools Hgen Hparse Hcalls.
  rewrite (handleExpertQuery_execute query mode config Hmode).
  unfold run, handleExecute, try_catch, bind, request. simpl.
  rewrite Htools. simpl. rewrite Hgen. simpl. rewrite Hparse. simpl.
  rewrite Hcalls. simpl. unfold or_else.
  split.
  - intros Hfalsy. rewrite Hfalsy. simpl.
    rewrite (get_defined plan "toolCalls" "explanation" _ Hcalls). reflexivity.
  - intros e Htruthy Hiter. rewrite Htruthy, Hiter. reflexivity.
Qed.

End ExecuteMode.

(* ================================================================== *)
(** ** The entry-point name and the typed descriptor *)
(* ================================================================== *)

Lemma lower_char_not_upper (c : ascii) :
  is_upper (nat_of_ascii (lower_char c)) = false.
Proof. destruct c as [[] [] [] [] [] [] [] []]; reflexivity. Qed.

Lemma lower_char_fixed (c : ascii) :
  is_upper (nat_of_ascii c) = false -> lower_char c = c.
Proof. unfold lower_char. intros H. rewrite H. reflexivity. Qed.

Lemma toLowerCase_no_upper (s : string) :
  all_chars (fun c => negb (is_upper (nat_of_ascii c))) (toLowerCase s) = true.
Proof.
  induction s as [| c s IH]; simpl; auto.
  rewrite lower_char_not_upper, IH. reflexivity.
Qed.

Lemma replace_spaces_slug (s : string) :
  all_chars (fun c => negb (is_upper (nat_of_ascii c))) s = true ->
  forall b, all_chars slug_char (replace_spaces_from b s) = true.
Proof.
  induction s as [| c s IH]; simpl; intros H b; auto.
  apply andb_true_iff in H. destruct H as [Hc Hs].
  destruct (is_space c) eqn:Hsp.
  - destruct b; simpl; auto.
  - simpl. unfold slug_char at 1. rewrite Hsp, Hc. simpl. auto.
Qed.

Lemma slug_fixed (s : string) :
  all_chars slug_char s = true ->
  toLowerCase s = s /\ spaceless s.
Proof.
  unfold spaceless. induction s as [| c s IH]; simpl; intros H; auto.
  apply andb_true_iff in H. destruct H as [Hc Hs].
  unfold slug_char in Hc. apply andb_true_iff in Hc. destruct Hc as [Hsp Hup].
  apply negb_true_iff in Hup.
  destruct (IH Hs) as [Hl Hless].
  rewrite (lower_char_fixed c Hup), Hl, Hsp, Hless. auto.
Qed.

(** X22. Whatever the descriptor's name, the name of the entry point is
    a slug: it holds no whitespace and no upper-case letter.  And a slug
    names itself: a descriptor renamed to its entry-point name keeps the
    same entry point.  (Strings are taken over the code units below
    256.) *)
Theorem entry_point_name_is_a_slug (config : WrapperConfig) :
  all_chars slug_char (td_name (Wrapper.createExpertTool config)) = true /\
  replace_spaces (toLowerCase (td_name (Wrapper.createExpertTool config))) =
    td_name (Wrapper.createExpertTool config).
Proof.
  unfold Wrapper.createExpertTool. cbn [td_name].
  assert (Hslug : all_chars slug_char
                    (replace_spaces (toLowerCase (name config))) = true)
    by (apply replace_spaces_slug; apply toLowerCase_no_upper).
  split; [exact Hslug |].
  destruct (slug_fixed _ Hslug) as [Hl Hless].
  rewrite Hl. unfold replace_spaces at 1. apply replace_spaceless. exact Hless.
Qed.

Lemma stable_items (items : list value) :
  Forall json_stable items ->
  map (fun item => item_of (jsonify item)) items = items.
Proof.
  induction 1 as [| x items Hx _ IH]; simpl; [reflexivity |].
  unfold json_stable in Hx. rewrite Hx, IH. reflexivity.
Qed.

Lemma descriptor_document_describes (cfg : WrapperConfig) :
  describes (descriptor_document cfg) cfg.
Proof.
  unfold describes, descriptor_document.
  do 3 eexists. split; [reflexivity |]. simpl. repeat split; reflexivity.
Qed.

Lemma descriptor_document_stable (cfg : WrapperConfig) :
  stable_capabilities (capabilities cfg) ->
  jsonify (descriptor_document cfg) = descriptor_document cfg.
Proof.
  intros (Ht & Hr & Hp).
  unfold descriptor_document, Analyzer.capabilities_value,
    Analyzer.metadata_value.
  cbn. rewrite jsonify_strings, !stable_items by assumption. reflexivity.
Qed.

Section TypedDescriptor.
Context {W : Type} {rt : Runtime} {host : Host W}.
Import Wrapper.

(** X23. The schema is the identity on typed descriptors, and so is a
    save followed by a load.  [WrapperConfigSchema.parse] accepts the
    object of every descriptor and returns that descriptor; and when the
    file holds the text [JSON.stringify] gives for a descriptor whose
    capability items are JSON values (none of them changed by a write
    and a read), [loadConfig] returns the descriptor, field for field. *)
Theorem saved_descriptor_loads_identically
  (configPath : string) (cfg : WrapperConfig) (st : state W) (w1 : W) :
  codec_law rt ->
  stable_capabilities (capabilities cfg) ->
  fs_readFile configPath (world st) =
    (inr (JSON_stringify (descriptor_document cfg)), w1) ->
  WrapperConfigSchema_parse (descriptor_document cfg) = inr cfg /\
  loadConfig configPath st =
    (inr cfg, mkState w1 (trace st ++ [EReadFile configPath])).
Proof.
  intros Hcodec Hstable Hread.
  split.
  - apply WrapperConfigSchema_parse_describes.
    apply descriptor_document_describes.
  - apply loadConfig_inr.
    exists (JSON_stringify (descriptor_document cfg)), w1,
      (descriptor_document cfg).
    split; [exact Hread |].
    split; [| split; [apply descriptor_document_describes | reflexivity]].
    rewrite (Hcodec (descriptor_document cfg)) by discriminate.
    rewrite (descriptor_document_stable cfg Hstable). reflexivity.
Qed.

End TypedDescriptor.

(* ================================================================== *)
(** ** The commands *)
(* ================================================================== *)

Lemma trimStart_blank (s : string) :
  all_chars is_space s = true -> Cli.trimStart s = ""%string.
Proof.
  induction s as [| c s IH]; simpl; auto.
  intros H. apply andb_true_iff in H. destruct H as [Hc Hs].
  rewrite Hc. auto.
Qed.

Lemma trimEnd_solid (c : ascii) (s : string) :
  is_space c = false -> Cli.trimEnd (String c s) <> ""%string.
Proof.
  intros Hc. simpl. destruct (Cli.trimEnd s); [rewrite Hc |]; discriminate.
Qed.

Lemma trim_blank (s : string) :
  String.eqb s "" || String.eqb (Cli.trim s) "" = all_chars is_space s.
Proof.
  destruct (all_chars is_space s) eqn:Hall.
  - unfold Cli.trim. rewrite (trimStart_blank s Hall). simpl.
    apply orb_true_r.
  - apply orb_false_iff. split.
    + destruct s; [discriminate Hall | reflexivity].
    + apply String.eqb_neq. unfold Cli.trim.
      induction s as [| c s IH]; [discriminate Hall |].
      simpl in *. destruct (is_space c) eqn:Hc.
      * apply IH. exact Hall.
      * apply trimEnd_solid. exact Hc.
Qed.

Section ConsoleFacts.
Context {W : Type} {rt : Runtime} {host : Host W}.
Import Analyzer Cli.

(** What the discovery engine prints changes nothing of what it does:
    the outcome and the state of the run with its console are those of
    the run of the engine. *)
Lemma discoverCapabilities_quiet (st : state W) :
  snd (WithConsole.discoverCapabilities st) = discoverCapabilities st.
Proof.
  unfold WithConsole.discoverCapabilities, discoverCapabilities,
    printing_try_catch, and_then_print, print, quiet, try_catch, bind,
    request, ret, throw.
  destruct (client_listTools (world st)) as [[e | t] w1]; simpl;
    [reflexivity |].
  destruct (client_listResources w1) as [[e | r] w2]; simpl;
    destruct (client_listPrompts w2) as [[e' | p] w3]; reflexivity.
Qed.

Lemma analyzeConnected_quiet (serverPath : string) (args : list string)
  (st : state W) :
  snd (WithConsole.analyzeConnected serverPath args st) =
  analyzeConnected serverPath args st.
Proof.
  assert (Hbind : forall A B (m : M W A) (k : A -> M W B) (s : state W),
             bind m k s =
             match m s with
             | (inr a, s') => k a s'
             | (inl e, s') => (inl e, s')
             end) by reflexivity.
  unfold analyzeConnected. rewrite Hbind, <- discoverCapabilities_quiet.
  unfold WithConsole.analyzeConnected, and_then_print, quiet.
  destruct (WithConsole.discoverCapabilities st) as [printed [[e | caps] st1]];
    reflexivity.
Qed.

Lemma analyzeServer_quiet (serverPath : string) (args : list string)
  (st : state W) :
  snd (WithConsole.analyzeServer serverPath args st) =
  analyzeServer serverPath args st.
Proof.
  unfold WithConsole.analyzeServer, analyzeServer, and_then_print, quiet,
    printing_try_finally, try_finally, bind.
  destruct (validateEnvironment st) as [[e | u] st0]; cbn [snd];
    [reflexivity |].
  destruct (attempt (connectToServer serverPath args) st0)
    as [[e | [e | u']] st1]; cbn [snd]; try reflexivity.
  rewrite <- analyzeConnected_quiet.
  destruct (WithConsole.analyzeConnected serverPath args st1)
    as [printed [r st2]]; cbn [snd].
  destruct (request EClientClose client_close st2) as [[e | u''] st3];
    reflexivity.
Qed.

End ConsoleFacts.

Section Commands.
Context {W : Type} {rt : Runtime} {host : Host W}.
Variable path_isAbsolute : string -> bool.
Variable path_resolve : string -> string -> string.
Import Analyzer Wrapper Cli.

(** X24. The [analyze] command refuses a server path that is empty or
    all whitespace, and only such a path: it then prints [Error: Server
    path is required] and ends the process with status 1, the analysis
    not having been started. *)
Theorem analyzeAction_path_check
  (serverPath : string) (args : list string) (st : state W) :
  analyzeAction serverPath args st =
    ([StdErr "Error: Server path is required"], process_exit 1 st) <->
  all_chars is_space serverPath = true.
Proof.
  unfold analyzeAction. rewrite trim_blank.
  destruct (all_chars is_space serverPath); split; auto; intros H.
  - destruct (WithConsole.analyzeServer serverPath args st)
      as [printed [[e | res] st1]]; inversion H.
  - discriminate H.
Qed.

(** X25. Without the credential both commands stop at once with the
    same advice: after its banner, the command prints its headline, the
    error [OPENAI_API_KEY environment variable is required] and how to
    set the key, and ends the process with status 1; it has made no
    request. *)
Theorem commands_without_credential
  (serverPath : string) (args : list string) (configPath : string)
  (st : state W) :
  all_chars is_space serverPath = false ->
  env_OPENAI_API_KEY (world st) = None \/
  env_OPENAI_API_KEY (world st) = Some ""%string ->
  analyzeAction serverPath args st =
    (analyze_banner serverPath args ++
     [StdErr "Error analyzing server:";
      StdErr "OPENAI_API_KEY environment variable is required";
      StdErr "";
      StdErr "Please set your OpenAI API key:";
      StdErr "  export OPENAI_API_KEY=your-api-key"],
     process_exit 1 st) /\
  serveAction path_isAbsolute path_resolve configPath st =
    (serve_banner configPath ++
     [StdErr "Failed to start wrapper server:";
      StdErr "OPENAI_API_KEY environment variable is required";
      StdErr "";
      StdErr "Please set your OpenAI API key:";
      StdErr "  export OPENAI_API_KEY=your-api-key"],
     process_exit 1 st).
Proof.
  intros Hpath Hkey.
  unfold analyzeAction, serveAction. rewrite trim_blank, Hpath.
  unfold WithConsole.analyzeServer, and_then_print, quiet,
    startWrapperServer, Analyzer.validateEnvironment,
    Wrapper.validateEnvironment, bind, observe, throw.
  destruct Hkey as [Hkey | Hkey]; rewrite Hkey; simpl;
    destruct st; split; reflexivity.
Qed.

(** X26. When the server cannot be started, the [analyze] command
    prints the connection error and the advice to check the server path
    (unless the cause itself speaks of the key), and ends the process
    with status 1 after that one connection attempt. *)
Theorem analyzeAction_connect_failure
  (serverPath : string) (args : list string) (st : state W)
  (key : string) (e : thrown) (w1 : W) :
  all_chars is_space serverPath = false ->
  env_OPENAI_API_KEY (world st) = Some key -> key <> ""%string ->
  client_connect serverPath args (world st) = (inl e, w1) ->
  includes "OPENAI_API_KEY" (error_message e) = false ->
  analyzeAction serverPath args st =
    (analyze_banner serverPath args ++
     [StdErr "Error analyzing server:";
      StdErr ("Failed to connect to MCP server: " ++ error_message e);
      StdErr "";
      StdErr "Make sure the server path is correct and the server is executable.";
      StdErr "You may need to build the server or install its dependencies first."],
     mkState w1 (trace st ++ [EConnect serverPath args; EExit 1])).
Proof.
  intros Hpath Hkey Hne Hconn Hmsg.
  unfold analyzeAction. rewrite trim_blank, Hpath.
  generalize (analyze_banner serverPath args). intros banner.
  unfold WithConsole.analyzeServer, and_then_print, quiet,
    Analyzer.validateEnvironment, connectToServer.
  unfold bind, observe, attempt, try_catch, request, throw. simpl.
  rewrite Hkey. apply String.eqb_neq in Hne. rewrite Hne. simpl.
  rewrite Hconn. simpl.
  unfold report, analyze_guidance, process_exit.
  simpl. rewrite Hmsg. simpl. rewrite <- app_assoc. reflexivity.
Qed.

(** X27. The [serve] command loads the descriptor from the path it was
    given when that path is absolute, and from that path resolved
    against the working directory otherwise.  When the file cannot be
    read, it prints the load error and the advice to generate a
    descriptor (unless the cause itself speaks of the key), and ends the
    process with status 1: the peer has not been started. *)
Theorem serveAction_load_failure
  (configPath : string) (st : state W) (key : string)
  (message : string) (w1 : W) :
  let absolutePath :=
    if path_isAbsolute configPath then configPath
    else path_resolve (process_cwd (world st)) configPath in
  env_OPENAI_API_KEY (world st) = Some key -> key <> ""%string ->
  fs_readFile absolutePath (world st) = (inl (Err message), w1) ->
  includes "OPENAI_API_KEY" message = false ->
  serveAction path_isAbsolute path_resolve configPath st =
    (serve_banner configPath ++
     [StdErr "Failed to start wrapper server:";
      StdErr ("Failed to load configuration: " ++ message);
      StdErr "";
      StdErr "Make sure the configuration file exists and is valid JSON.";
      StdErr "You can generate a configuration using:";
      StdErr "  mcp-context-saver analyze <server-path>"],
     mkState w1 (trace st ++ [EReadFile absolutePath; EExit 1])).
Proof.
  intros absolutePath Hkey Hne Hread Hmsg.
  unfold serveAction. fold absolutePath.
  generalize (serve_banner configPath). intros banner.
  unfold startWrapperServer, Wrapper.validateEnvironment, loadConfig.
  unfold bind, observe, try_catch, request, throw. simpl.
  rewrite Hkey. apply String.eqb_neq in Hne. rewrite Hne. simpl.
  rewrite Hread. simpl.
  unfold report, serve_guidance, process_exit.
  simpl. rewrite Hmsg. simpl. rewrite <- app_assoc. reflexivity.
Qed.

Lemma analyzeServer_no_exit (serverPath : string) (args : list string) :
  emits (W := W) (fun ev => is_exit ev = false)
        (analyzeServer serverPath args).
Proof.
  unfold analyzeServer, Analyzer.validateEnvironment, connectToServer,
    analyzeConnected, discoverCapabilities, analyzeWithLLM, saveConfiguration.
  emits_auto.
Qed.

Lemma startWrapperServer_no_exit (configPath : string) :
  emits (W := W) (fun ev => is_exit ev = false)
        (startWrapperServer configPath).
Proof.
  unfold startWrapperServer, Wrapper.validateEnvironment, loadConfig,
    connectToWrappedServer.
  emits_auto.
Qed.

(** X28. The exit status of the commands.  Each command ends the
    process in one case only, with status 1 and as its last step:
    [analyze] when the path is refused or the analysis fails, [serve]
    when the session does not start.  When the analysis returns, or the
    session has started, the command does not end the process. *)
Theorem commands_exit_status
  (serverPath : string) (args : list string) (configPath : string) (w : W) :
  let absolutePath :=
    if path_isAbsolute configPath then configPath
    else path_resolve (process_cwd w) configPath in
  let analyzed := snd (analyzeAction serverPath args (mkState w [])) in
  let served :=
    snd (serveAction path_isAbsolute path_resolve configPath (mkState w [])) in
  (count is_exit (trace analyzed) = 0 <->
   all_chars is_space serverPath = false /\
   exists res, fst (run (analyzeServer serverPath args) w) = inr res) /\
  (count is_exit (trace served) = 0 <->
   exists session,
     fst (run (startWrapperServer absolutePath) w) = inr session) /\
  (forall tr,
     tr = trace analyzed \/ tr = trace served ->
     count is_exit tr = 0 \/
     exists before, tr = before ++ [EExit 1] /\ count is_exit before = 0).
Proof.
  intros absolutePath analyzed served.
  assert (Hlast : forall before,
             count is_exit before = 0 ->
             count is_exit (before ++ [EExit 1]) = 0 -> False).
  { intros before H0 H1. rewrite count_app, H0 in H1. discriminate H1. }
  assert (Ha : (count is_exit (trace analyzed) = 0 <->
                all_chars is_space serverPath = false /\
                exists res,
                  fst (run (analyzeServer serverPath args) w) = inr res) /\
               (count is_exit (trace analyzed) = 0 \/
                exists before,
                  trace analyzed = before ++ [EExit 1] /\
                  count is_exit before = 0)).
  { subst analyzed. unfold analyzeAction. rewrite trim_blank.
    destruct (all_chars is_space serverPath) eqn:Hpath.
    - split.
      + split; [intros H; discriminate H | intros [H _]; discriminate H].
      + right. exists []. split; reflexivity.
    - destruct (analyzeServer_no_exit serverPath args (mkState w []))
        as [tr [E F]].
      unfold run.
      rewrite <- (analyzeServer_quiet serverPath args (mkState w [])) in *.
      destruct (WithConsole.analyzeServer serverPath args (mkState w []))
        as [printed [[e | res] st1]]; simpl in E;
        cbn [fst snd process_exit trace]; rewrite E; cbn [app].
      + split.
        * split; [intros H | intros [_ [res H]]; discriminate H].
          exfalso. exact (Hlast tr (count_none _ _ F) H).
        * right. exists tr. split; [reflexivity | apply count_none; exact F].
      + split.
        * split; [intros _; split; [reflexivity | eauto]
                 | intros _; apply count_none; exact F].
        * left. apply count_none. exact F. }
  assert (Hs : (count is_exit (trace served) = 0 <->
                exists session,
                  fst (run (startWrapperServer absolutePath) w) = inr session) /\
               (count is_exit (trace served) = 0 \/
                exists before,
                  trace served = before ++ [EExit 1] /\
                  count is_exit before = 0)).
  { subst served. unfold serveAction. cbn [world]. fold absolutePath.
    destruct (startWrapperServer_no_exit absolutePath (mkState w []))
      as [tr [E F]].
    unfold run.
    destruct (startWrapperServer absolutePath (mkState w []))
      as [[e | session] st1]; simpl in E; cbn [fst snd process_exit trace];
      rewrite E; cbn [app].
    - split.
      + split; [intros H | intros [session H]; discriminate H].
        exfalso. exact (Hlast tr (count_none _ _ F) H).
      + right. exists tr. split; [reflexivity | apply count_none; exact F].
    - split.
      + split; [intros _; eauto | intros _; apply count_none; exact F].
      + left. apply count_none. exact F. }
  split; [exact (proj1 Ha) |]. split; [exact (proj1 Hs) |].
  intros tr [Htr | Htr]; subst tr; [exact (proj2 Ha) | exact (proj2 Hs)].
Qed.

End Commands.

(* ================================================================== *)
(** ** The installer *)
(* ================================================================== *)

Lemma split_space_cons (s : string) :
  exists piece pieces, Installer.split_space s = piece :: pieces.
Proof.
  induction s as [| c s IH]; simpl; eauto.
  destruct (Ascii.eqb c " "); eauto.
  destruct IH as [piece [pieces E]]. rewrite E. eauto.
Qed.

Lemma split_space_spaceless (s : string) :
  Forall (fun piece =>
            all_chars (fun c => negb (Ascii.eqb c " ")) piece = true)
         (Installer.split_space s).
Proof.
  induction s as [| c s IH]; simpl.
  - repeat constructor.
  - destruct (Ascii.eqb c " ") eqn:Hc.
    + constructor; [reflexivity | exact IH].
    + destruct (split_space_cons s) as [piece [pieces E]].
      rewrite E in *. inversion IH; subst.
      constructor; [simpl; rewrite Hc; simpl; assumption | assumption].
Qed.

Lemma split_space_word (a : string) :
  all_chars (fun c => negb (Ascii.eqb c " ")) a = true ->
  forall rest,
    Installer.split_space (a ++ String " " rest) =
    a :: Installer.split_space rest.
Proof.
  induction a as [| c a IH]; simpl; intros H rest.
  - reflexivity.
  - apply andb_true_iff in H. destruct H as [Hc Ha].
    apply negb_true_iff in Hc. rewrite Hc, (IH Ha). reflexivity.
Qed.

Lemma split_space_last (a : string) :
  all_chars (fun c => negb (Ascii.eqb c " ")) a = true ->
  Installer.split_space a = [a].
Proof.
  induction a as [| c a IH]; simpl; intros H.
  - reflexivity.
  - apply andb_true_iff in H. destruct H as [Hc Ha].
    apply negb_true_iff in Hc. rewrite Hc, (IH Ha). reflexivity.
Qed.

Lemma split_space_join (a : string) (args : list string) :
  Forall (fun piece => plain_arg piece = true) (a :: args) ->
  Installer.split_space (join " " (a :: args)) = a :: args.
Proof.
  revert a. induction args as [| b args IH]; intros a H.
  - inversion H as [| ? ? Ha _]; subst. simpl.
    apply split_space_last.
    unfold plain_arg in Ha. apply andb_true_iff in Ha. tauto.
  - inversion H as [| ? ? Ha Hrest]; subst.
    change (join " " (a :: b :: args))
      with (a ++ String " " (join " " (b :: args)))%string.
    rewrite split_space_word, (IH b Hrest); [reflexivity |].
    unfold plain_arg in Ha. apply andb_true_iff in Ha. tauto.
Qed.

(** X29. The installer turns the line of arguments the user types into
    the argument list of the analysis by cutting it at every space and
    dropping the empty pieces: no argument it passes on is empty or
    holds a space, however the line is spaced; and every list of such
    arguments can be entered, as the arguments separated by one space. *)
Theorem server_args_round_trip (line : string) (args : list string) :
  Forall (fun piece => plain_arg piece = true) args ->
  Forall (fun piece => plain_arg piece = true) (Installer.server_args line) /\
  Installer.server_args (join " " args) = args.
Proof.
  intros Hargs. split.
  - unfold Installer.server_args.
    destruct (String.eqb line ""); [constructor |].
    pose proof (split_space_spaceless line) as H.
    induction H as [| piece pieces Hp _ IH]; simpl; [constructor |].
    destruct (String.eqb piece "") eqn:E; simpl; [exact IH |].
    constructor; [| exact IH].
    unfold plain_arg. rewrite E, Hp. reflexivity.
  - destruct args as [| a args]; [reflexivity |].
    unfold Installer.server_args.
    rewrite (split_space_join a args Hargs).
    assert (Hne : String.eqb (join " " (a :: args)) "" = false).
    { inversion Hargs as [| ? ? Ha _]; subst.
      unfold plain_arg in Ha. apply andb_true_iff in Ha.
      destruct Ha as [Ha _]. apply negb_true_iff in Ha.
      destruct a as [| c a]; [discriminate Ha |].
      destruct args; reflexivity. }
    rewrite Hne. clear Hne.
    induction Hargs as [| piece pieces Hp _ IH]; simpl; [reflexivity |].
    unfold plain_arg in Hp. apply andb_true_iff in Hp.
    destruct Hp as [Hp _]. rewrite Hp, IH. reflexivity.
Qed.

Lemma serverName_of_describes (doc : value) (cfg : WrapperConfig) :
  describes doc cfg ->
  Installer.serverName_of doc = inr (td_name (Wrapper.createExpertTool cfg)).
Proof.
  intros (o & c & m & Hdoc & Hname & _). subst doc.
  unfold Installer.serverName_of. simpl. rewrite Hname. reflexivity.
Qed.

Section AgentConfiguration.
Context {W : Type} {rt : Runtime} {host : Host W}.
Variable path_relative : string -> string -> string.
Import Installer.

(** X30. What the installer writes for an agent.  A registration
    succeeds exactly when the agent's directory under the working
    directory is created, the descriptor file is read, its text is a
    JSON document with a name to lower-case, and the agent's file is
    written; it makes these three requests and no other.  The file
    written holds one entry, the command that serves the descriptor at
    its path relative to the working directory, and the entry is
    registered under the name of the document read, lower-cased, its
    whitespace runs as [-]: for a descriptor the coordination engine
    accepts, the name of the entry point it advertises.  The entry for
    VS Code refers to the key by a placeholder, whatever the environment
    holds; the entry for Claude Code holds the key of the environment
    itself when there is one. *)
Theorem agent_registrations
  (configPath : string) (st st' : state W) (u : unit) :
  let vscodeDir := path_join (process_cwd (world st)) ".vscode" in
  let vscodeData := fun (serverName : string) (w2 : W) =>
    JSON_stringify
      (VObj [("servers",
              VObj [(serverName,
                     registration ["mcp-context-saver"; "serve"]
                       (path_relative (process_cwd w2) configPath)
                       "${env:OPENAI_API_KEY}")])]) in
  let mcpDir := path_join (process_cwd (world st)) ".mcp" in
  let mcpData := fun (serverName : string) (w2 : W) =>
    JSON_stringify
      (VObj [("mcpServers",
              VObj [(serverName,
                     registration ["-y"; "mcp-context-saver"; "serve"]
                       (path_relative (process_cwd w2) configPath)
                       (key_or (env_OPENAI_API_KEY w2)
                               "${OPENAI_API_KEY}"))])]) in
  (configureVSCode path_relative configPath st = (inr u, st') <->
   exists u1 w1 text w2 doc serverName w3,
     fs_mkdir vscodeDir (world st) = (inr u1, w1) /\
     fs_readFile configPath w1 = (inr text, w2) /\
     JSON_parse text = inr doc /\
     serverName_of doc = inr serverName /\
     fs_writeFile (path_join vscodeDir "mcp.json")
                  (vscodeData serverName w2) w2 = (inr u, w3) /\
     st' = mkState w3
             (trace st ++
              [EMkdir vscodeDir; EReadFile configPath;
               EWriteFile (path_join vscodeDir "mcp.json")
                          (vscodeData serverName w2)])) /\
  (configureClaudeCode path_relative configPath st = (inr u, st') <->
   exists u1 w1 text w2 doc serverName w3,
     fs_mkdir mcpDir (world st) = (inr u1, w1) /\
     fs_readFile configPath w1 = (inr text, w2) /\
     JSON_parse text = inr doc /\
     serverName_of doc = inr serverName /\
     fs_writeFile (path_join mcpDir "config.json")
                  (mcpData serverName w2) w2 = (inr u, w3) /\
     st' = mkState w3
             (trace st ++
              [EMkdir mcpDir; EReadFile configPath;
               EWriteFile (path_join mcpDir "config.json")
                          (mcpData serverName w2)])) /\
  (forall doc cfg,
     describes doc cfg ->
     serverName_of doc = inr (td_name (Wrapper.createExpertTool cfg))) /\
  (forall key fallback,
     key <> ""%string -> key_or (Some key) fallback = key).
Proof.
  intros vscodeDir vscodeData mcpDir mcpData.
  subst vscodeDir vscodeData mcpDir mcpData. cbv beta.
  split; [| split; [| split]].
  - unfold configureVSCode, bind, observe, request, lift, ret, throw. simpl.
    split.
    + destruct (fs_mkdir _ (world st)) as [[e | u1] w1] eqn:Hmk; simpl;
        [discriminate |].
      destruct (fs_readFile configPath w1) as [[e | text] w2] eqn:Hrd; simpl;
        [discriminate |].
      destruct (JSON_parse text) as [e | doc] eqn:Hp; simpl; [discriminate |].
      destruct (serverName_of doc) as [e | serverName] eqn:Hn; simpl;
        [discriminate |].
      destruct (fs_writeFile _ _ w2) as [[e | u2] w3] eqn:Hwrite; simpl;
        [discriminate |].
      intros H. inversion H; subst.
      exists u1, w1, text, w2, doc, serverName, w3.
      repeat split; auto; cbn [trace]; rewrite <- ?app_assoc; reflexivity.
    + intros (u1 & w1 & text & w2 & doc & serverName & w3 &
              Hmk & Hrd & Hp & Hn & Hw & Hst).
      rewrite Hmk. simpl. rewrite Hrd. simpl. rewrite Hp. simpl.
      rewrite Hn. simpl. rewrite Hw. simpl. subst st'.
      rewrite <- !app_assoc. reflexivity.
  - unfold configureClaudeCode, bind, observe, request, lift, ret, throw.
    simpl. split.
    + destruct (fs_mkdir _ (world st)) as [[e | u1] w1] eqn:Hmk; simpl;
        [discriminate |].
      destruct (fs_readFile configPath w1) as [[e | text] w2] eqn:Hrd; simpl;
        [discriminate |].
      destruct (JSON_parse text) as [e | doc] eqn:Hp; simpl; [discriminate |].
      destruct (serverName_of doc) as [e | serverName] eqn:Hn; simpl;
        [discriminate |].
      destruct (fs_writeFile _ _ w2) as [[e | u2] w3] eqn:Hwrite; simpl;
        [discriminate |].
      intros H. inversion H; subst.
      exists u1, w1, text, w2, doc, serverName, w3.
      repeat split; auto; cbn [trace]; rewrite <- ?app_assoc; reflexivity.
    + intros (u1 & w1 & text & w2 & doc & serverName & w3 &
              Hmk & Hrd & Hp & Hn & Hw & Hst).
      rewrite Hmk. simpl. rewrite Hrd. simpl. rewrite Hp. simpl.
      rewrite Hn. simpl. rewrite Hw. simpl. subst st'.
      rewrite <- !app_assoc. reflexivity.
  - exact serverName_of_describes.
  - intros key fallback Hne. unfold key_or.
    apply String.eqb_neq in Hne. rewrite Hne. reflexivity.
Qed.

End AgentConfiguration.

(* ================================================================== *)
(** ** The scenarios, run *)
(* ================================================================== *)

Import Scenarios.

(** A discovery run without the credential. *)
Lemma credential_required_before_any_request_witness :
  run (Analyzer.analyzeServer (rt := Json.runtime) (host := host)
         "node" ["server.js"])
      (with_key None (mock_world (inr "{}"))) =
  (inl (Err "OPENAI_API_KEY environment variable is required"),
   mkState (with_key None (mock_world (inr "{}"))) []).
Proof.
  exact (proj1 (credential_required_before_any_request
                  (rt := Json.runtime) (host := host)
                  "node" ["server.js"] "/test/config.json"
                  (mkState (with_key None (mock_world (inr "{}"))) [])
                  (or_introl eq_refl))).
Defined.

(** The scenario of the server that is not found. *)
Lemma analyzeServer_connect_failure_witness :
  run (Analyzer.analyzeServer (rt := Json.runtime) (host := host)
         "/invalid/server" [])
      (unreachable (mock_world (inr "{}"))) =
  (inl (Err "Failed to connect to MCP server: spawn ENOENT"),
   mkState (unreachable (mock_world (inr "{}"))) [EConnect "/invalid/server" []]).
Proof.
  refine (analyzeServer_connect_failure
            (rt := Json.runtime) (host := host) "/invalid/server" []
            (mkState (unreachable (mock_world (inr "{}"))) [])
            "sk-test" (Err "spawn ENOENT") _ eq_refl _ eq_refl).
  discriminate.
Defined.

(** The scenario of the planner that fails. *)
Lemma analyzeServer_planner_failure_witness :
  fst (run (Analyzer.analyzeServer (rt := Json.runtime) (host := host)
              "node" ["server.js"])
           (mock_world (inl (Err "LLM API error")))) =
  inl (Err "Failed to analyze server capabilities: LLM API error").
Proof.
  refine (f_equal fst
            (analyzeServer_planner_failure
               (rt := Json.runtime) (host := host) "node" ["server.js"]
               (mkState (mock_world (inl (Err "LLM API error"))) [])
               "sk-test" tt _
               {| tools := mock_tools; resources := []; prompts := [] |}
               (mkState (mock_world (inl (Err "LLM API error")))
                        [EConnect "node" ["server.js"]; EListTools;
                         EListResources; EListPrompts])
               (inl (Err "LLM API error")) _ (Err "LLM API error")
               eq_refl _ eq_refl eq_refl eq_refl eq_refl)).
  discriminate.
Defined.

(** A discovery run against the mock server. *)
Lemma analyzeServer_success_witness :
  exists listing prompt dir data,
    trace (snd (run (Analyzer.analyzeServer (rt := Json.runtime) (host := host)
                       "node" ["server.js"])
                    (mock_world (inr (Json.stringify echo_analysis))))) =
    [EConnect "node" ["server.js"]] ++ listing ++
    [EGenerateText prompt; EMkdir dir;
     EWriteFile "/work/configs/echo-expert-1756953260052.json" data;
     EClientClose].
Proof.
  destruct (analyzeServer_success (rt := Json.runtime) (host := host)
              "node" ["server.js"]
              (mock_world (inr (Json.stringify echo_analysis)))
              {| Analyzer.expertName := VStr "Echo Expert";
                 Analyzer.expertDescription :=
                   VStr "Echoes messages, adds numbers, tells the time";
                 Analyzer.ar_systemPrompt :=
                   VStr "Use echo, add and getCurrentTime.";
                 Analyzer.ar_capabilities :=
                   {| tools := mock_tools; resources := []; prompts := [] |};
                 Analyzer.configPath :=
                   "/work/configs/echo-expert-1756953260052.json" |}
              _ (surjective_pairing _))
    as (listing & n & stamp & now & dir & _ & _ & _ & Htrace).
  do 4 eexists. exact Htrace.
Defined.

(** A discovery run against the mock server, then the load of the file
    it wrote: the descriptor names the command line analysed. *)
Lemma analyzed_descriptor_loads_back_witness :
  let analyzed :=
    run (Analyzer.analyzeServer (rt := Json.runtime) (host := host)
           "node" ["server.js"])
        (mock_world (inr (Json.stringify echo_analysis))) in
  exists cfg,
    fst (run (Wrapper.loadConfig (rt := Json.runtime) (host := host)
                "/work/configs/echo-expert-1756953260052.json")
             (world (snd analyzed))) = inr cfg /\
    serverPath cfg = "node"%string /\ args cfg = ["server.js"%string] /\
    name cfg = "Echo Expert"%string.
Proof.
  intros analyzed.
  destruct (analyzed_descriptor_loads_back (rt := Json.runtime) (host := host)
              "node" ["server.js"]
              (mock_world (inr (Json.stringify echo_analysis)))
              {| Analyzer.expertName := VStr "Echo Expert";
                 Analyzer.expertDescription :=
                   VStr "Echoes messages, adds numbers, tells the time";
                 Analyzer.ar_systemPrompt :=
                   VStr "Use echo, add and getCurrentTime.";
                 Analyzer.ar_capabilities :=
                   {| tools := mock_tools; resources := []; prompts := [] |};
                 Analyzer.configPath :=
                   "/work/configs/echo-expert-1756953260052.json" |}
              (snd analyzed)
              CodecFacts.runtime_codec_law (surjective_pairing _))
    as (data & now & dir & Hin & Hload).
  destruct (run (Wrapper.loadConfig (rt := Json.runtime) (host := host)
                   "/work/configs/echo-expert-1756953260052.json")
                (world (snd analyzed))) as [[e | cfg] st'] eqn:Hrun.
  - vm_compute in Hrun. discriminate Hrun.
  - exists cfg. split; [reflexivity |].
    assert (Hfields : serverPath cfg = "node"%string /\
                      args cfg = ["server.js"%string] /\
                      VStr "Echo Expert" = VStr (name cfg)).
    { destruct (Hload (world (snd analyzed)) cfg st') as (H1 & H2 & H3 & _);
        [| exact Hrun | auto].
      cbn [Analyzer.configPath].
      vm_compute in Hin.
      repeat (destruct Hin as [Hin | Hin]; [try discriminate Hin |]);
        [| contradiction].
      inversion Hin. vm_compute. reflexivity. }
    destruct Hfields as (H1 & H2 & H3).
    inversion H3. auto.
Defined.

(** A planner that names no expert. *)
Lemma analysis_without_name_writes_nothing_witness :
  exists e,
    fst (run (Analyzer.analyzeServer (rt := Json.runtime) (host := host)
                "node" ["server.js"])
             (mock_world (inr (Json.stringify nameless_analysis)))) = inl e /\
    count is_write_file
      (trace (snd (run (Analyzer.analyzeServer (rt := Json.runtime)
                          (host := host) "node" ["server.js"])
                       (mock_world (inr (Json.stringify nameless_analysis))))))
      = 0 /\
    count is_client_close
      (trace (snd (run (Analyzer.analyzeServer (rt := Json.runtime)
                          (host := host) "node" ["server.js"])
                       (mock_world (inr (Json.stringify nameless_analysis))))))
      = 1.
Proof.
  refine (analysis_without_name_writes_nothing
            (rt := Json.runtime) (host := host) "node" ["server.js"]
            (mock_world (inr (Json.stringify nameless_analysis)))
            "sk-test" tt _
            {| tools := mock_tools; resources := []; prompts := [] |}
            (mkState (mock_world (inr (Json.stringify nameless_analysis)))
                     [EConnect "node" ["server.js"]; EListTools;
                      EListResources; EListPrompts])
            (Json.stringify nameless_analysis) _ nameless_analysis
            eq_refl _ eq_refl eq_refl eq_refl _ _).
  - discriminate.
  - vm_compute. reflexivity.
  - intros n. vm_compute. discriminate.
Defined.

(** The scenario of the descriptor file that does not exist. *)
Lemma loadConfig_failure_witness :
  exists cause,
    Err "Failed to load configuration: ENOENT: no such file or directory" =
    load_error cause.
Proof.
  destruct (loadConfig_failure (rt := Json.runtime) (host := host)
              "/nonexistent/config.json"
              (mkState (mock_world (inr "{}")) [])
              (Err "Failed to load configuration: ENOENT: no such file or directory")
              (mkState (mock_world (inr "{}"))
                       [EReadFile "/nonexistent/config.json"])
              eq_refl)
    as [_ [cause [H _]]].
  exists cause. exact H.
Defined.

(** A serve session started from the descriptor of the unit tests. *)
Lemma startWrapperServer_success_witness :
  trace (snd (run (Wrapper.startWrapperServer (rt := Json.runtime)
                     (host := host) "/test/config.json")
                  (write "/test/config.json"
                         (Json.stringify (descriptor_document validConfig))
                         (mock_world (inr "{}"))))) =
  [EReadFile "/test/config.json"; EConnect "/path/to/server" ["--test"];
   EServerConnect].
Proof.
  destruct (Wrapper.startWrapperServer (rt := Json.runtime) (host := host)
              "/test/config.json"
              (mkState (write "/test/config.json"
                              (Json.stringify (descriptor_document validConfig))
                              (mock_world (inr "{}"))) []))
    as [[e | session] st'] eqn:Hstart.
  - vm_compute in Hstart. discriminate Hstart.
  - destruct (startWrapperServer_success _ _ _ _ Hstart) as (_ & _ & Htrace).
    unfold run. rewrite Hstart. cbn [snd]. rewrite Htrace.
    vm_compute in Hstart. inversion Hstart. reflexivity.
Defined.

(** The same descriptor, with a peer that cannot be started. *)
Lemma startWrapperServer_connect_failure_witness :
  fst (run (Wrapper.startWrapperServer (rt := Json.runtime) (host := host)
              "/test/config.json")
           (unreachable
              (write "/test/config.json"
                     (Json.stringify (descriptor_document validConfig))
                     (mock_world (inr "{}"))))) =
  inl (Err "Failed to connect to wrapped server: spawn ENOENT").
Proof.
  refine (f_equal fst
            (startWrapperServer_connect_failure
               (rt := Json.runtime) (host := host) "/test/config.json"
               (mkState (unreachable
                           (write "/test/config.json"
                              (Json.stringify (descriptor_document validConfig))
                              (mock_world (inr "{}")))) [])
               "sk-test" validConfig
               (mkState (unreachable
                           (write "/test/config.json"
                              (Json.stringify (descriptor_document validConfig))
                              (mock_world (inr "{}"))))
                        [EReadFile "/test/config.json"])
               (Err "spawn ENOENT") _ eq_refl _ _ eq_refl)).
  - discriminate.
  - vm_compute. reflexivity.
Defined.

(** A call under the name of a tool of the peer. *)
Lemma callToolHandler_unknown_tool_witness :
  Wrapper.callToolHandler (rt := Json.runtime) (host := host)
    (Wrapper.createExpertTool validConfig) validConfig
    {| Wrapper.params_name := "echo";
       Wrapper.params_arguments := VObj [("query", VStr "hello")] |}
    (mkState (mock_world (inr "{}")) []) =
  (inl (Err "Unknown tool: echo"), mkState (mock_world (inr "{}")) []).
Proof.
  refine (callToolHandler_unknown_tool (rt := Json.runtime) (host := host)
            (Wrapper.createExpertTool validConfig) validConfig
            {| Wrapper.params_name := "echo";
               Wrapper.params_arguments := VObj [("query", VStr "hello")] |}
            (mkState (mock_world (inr "{}")) []) _).
  intros [H | []]. discriminate H.
Defined.

(** A call with a query and nothing else. *)
Lemma callToolHandler_default_mode_witness :
  Wrapper.callToolHandler (rt := Json.runtime) (host := host)
    (Wrapper.createExpertTool validConfig) validConfig
    {| Wrapper.params_name := "test-expert";
       Wrapper.params_arguments := VObj [("query", VStr "add 15 and 27")] |} =
  Wrapper.callToolHandler (rt := Json.runtime) (host := host)
    (Wrapper.createExpertTool validConfig) validConfig
    {| Wrapper.params_name := "test-expert";
       Wrapper.params_arguments :=
         VObj [("query", VStr "add 15 and 27"); ("mode", VStr "execute")] |}.
Proof.
  exact (callToolHandler_default_mode (rt := Json.runtime) (host := host)
           (Wrapper.createExpertTool validConfig) validConfig
           {| Wrapper.params_name := "test-expert";
              Wrapper.params_arguments :=
                VObj [("query", VStr "add 15 and 27")] |}
           {| Wrapper.params_name := "test-expert";
              Wrapper.params_arguments :=
                VObj [("query", VStr "add 15 and 27");
                      ("mode", VStr "execute")] |}
           [("query", VStr "add 15 and 27")]
           [("query", VStr "add 15 and 27"); ("mode", VStr "execute")]
           "add 15 and 27" eq_refl eq_refl eq_refl eq_refl eq_refl eq_refl
           eq_refl).
Defined.

(** A call without arguments. *)
Lemma callToolHandler_requires_query_witness :
  exists e,
    Wrapper.callToolHandler (rt := Json.runtime) (host := host)
      (Wrapper.createExpertTool validConfig) validConfig
      {| Wrapper.params_name := "test-expert";
         Wrapper.params_arguments := VUndefined |}
      (mkState (mock_world (inr "{}")) []) =
    (inl e, mkState (mock_world (inr "{}")) []).
Proof.
  refine (callToolHandler_requires_query (rt := Json.runtime) (host := host)
            (Wrapper.createExpertTool validConfig) validConfig
            {| Wrapper.params_name := "test-expert";
               Wrapper.params_arguments := VUndefined |}
            (mkState (mock_world (inr "{}")) []) eq_refl _).
  intros fields q H. discriminate H.
Defined.

(** Discover mode, with a query that asks for a tool call. *)
Lemma discover_explain_only_list_witness :
  count is_call_tool
    (trace (snd (run (Wrapper.handleExpertQuery (rt := Json.runtime)
                        (host := host) "Please add 15 and 27"
                        (Some "discover"%string) validConfig)
                     (mock_world (inr (Json.stringify two_call_plan)))))) = 0.
Proof.
  exact (proj2 (discover_explain_only_list (rt := Json.runtime) (host := host)
                  "Please add 15 and 27" "discover" validConfig
                  (mock_world (inr (Json.stringify two_call_plan)))
                  (or_introl eq_refl))).
Defined.

(** Explain mode against the mock server. *)
Lemma handleExplain_success_witness :
  trace (snd (Wrapper.handleExplain (host := host)
                validConfig (mkState (mock_world (inr "{}")) []))) =
  [EListTools].
Proof.
  destruct (Wrapper.handleExplain (host := host)
              validConfig (mkState (mock_world (inr "{}")) []))
    as [[e | v] st'] eqn:H.
  - vm_compute in H. discriminate H.
  - exact (proj1 (handleExplain_success _ _ _ _ H)).
Defined.

(** Execute mode with a planner that fails. *)
Lemma handleExecute_failure_witness :
  exists message,
    fst (Wrapper.handleExecute (rt := Json.runtime) (host := host)
           "Please add 15 and 27" validConfig
           (mkState (mock_world (inl (Err "LLM API error"))) [])) =
    inl (Err ("Failed to coordinate with wrapped server: " ++ message)).
Proof.
  destruct (Wrapper.handleExecute (rt := Json.runtime) (host := host)
              "Please add 15 and 27" validConfig
              (mkState (mock_world (inl (Err "LLM API error"))) []))
    as [[e | v] st'] eqn:H.
  - destruct (handleExecute_failure _ _ _ _ _ H)
      as [(w1 & Hl & _) | (t & w1 & message & tr & _ & He & _)].
    + vm_compute in Hl. discriminate Hl.
    + exists message. cbn [fst]. rewrite He. reflexivity.
  - vm_compute in H. discriminate H.
Defined.

(** The plan whose second call is [null]: the addition is made, its
    result is lost, the time is not asked. *)
Lemma execute_stops_at_null_call_witness :
  run (Wrapper.handleExpertQuery (rt := Json.runtime) (host := host)
         "Add 15 and 27, then tell the time" None validConfig)
      (mock_world (inr (Json.stringify broken_plan))) =
  (inl (Err "Failed to coordinate with wrapped server: Cannot read properties of null (reading 'name')"),
   mkState (mock_world (inr (Json.stringify broken_plan)))
     [EListTools;
      EGenerateText
        (Wrapper.coordinationPrompt (rt := Json.runtime) validConfig
           {| lt_tools := Some mock_tools |}
           "Add 15 and 27, then tell the time");
      ECallTool (VStr "add") (VObj [("a", VNum 15); ("b", VNum 27)])]).
Proof.
  refine (execute_stops_at_null_call (rt := Json.runtime) (host := host)
            "Add 15 and 27, then tell the time" None validConfig
            (mock_world (inr (Json.stringify broken_plan)))
            {| lt_tools := Some mock_tools |} _
            (Json.stringify broken_plan) _ broken_plan
            [VObj [("name", VStr "add");
                   ("arguments", VObj [("a", VNum 15); ("b", VNum 27)])]]
            VNull
            [VObj [("name", VStr "getCurrentTime"); ("arguments", VObj [])]]
            (Err "Cannot read properties of null (reading 'name')")
            eq_refl eq_refl eq_refl _ eq_refl _ eq_refl).
  - vm_compute. reflexivity.
  - repeat constructor.
Defined.

(** The planner that answers [{}]. *)
Lemma execute_plan_without_calls_witness :
  fst (run (Wrapper.handleExpertQuery (rt := Json.runtime) (host := host)
              "Please add 15 and 27" None validConfig)
           (mock_world (inr "{}"))) =
  inr (VObj [("explanation", VUndefined); ("results", VArr [])]).
Proof.
  refine (f_equal fst
            (proj1 (execute_plan_without_calls
                      (rt := Json.runtime) (host := host)
                      "Please add 15 and 27" None validConfig
                      (mock_world (inr "{}"))
                      {| lt_tools := Some mock_tools |} _ "{}" _
                      (VObj []) VUndefined
                      eq_refl eq_refl eq_refl _ eq_refl)
                   eq_refl)).
  vm_compute. reflexivity.
Defined.

(** The descriptor of the unit tests, saved and loaded. *)
Lemma saved_descriptor_loads_identically_witness :
  fst (run (Wrapper.loadConfig (rt := Json.runtime) (host := host)
              "/test/config.json")
           (write "/test/config.json"
                  (Json.stringify (descriptor_document validConfig))
                  (mock_world (inr "{}")))) = inr validConfig.
Proof.
  refine (f_equal fst
            (proj2 (saved_descriptor_loads_identically
                      (rt := Json.runtime) (host := host)
                      "/test/config.json" validConfig
                      (mkState (write "/test/config.json"
                                  (Json.stringify (descriptor_document validConfig))
                                  (mock_world (inr "{}"))) [])
                      _ CodecFacts.runtime_codec_law _ eq_refl))).
  repeat constructor.
Defined.

(** Both commands, without the credential. *)
Lemma commands_without_credential_witness :
  snd (Cli.analyzeAction (rt := Json.runtime) (host := host)
         "./server.js" [] (mkState (with_key None (mock_world (inr "{}"))) [])) =
    mkState (with_key None (mock_world (inr "{}"))) [EExit 1] /\
  snd (Cli.serveAction (rt := Json.runtime) (host := host)
         posix_isAbsolute posix_resolve "./configs/expert.json"
         (mkState (with_key None (mock_world (inr "{}"))) [])) =
    mkState (with_key None (mock_world (inr "{}"))) [EExit 1].
Proof.
  destruct (commands_without_credential (rt := Json.runtime) (host := host)
              posix_isAbsolute posix_resolve
              "./server.js" [] "./configs/expert.json"
              (mkState (with_key None (mock_world (inr "{}"))) [])
              eq_refl (or_introl eq_refl)) as [Ha Hs].
  rewrite Ha, Hs. split; reflexivity.
Defined.

(** [analyze] on a server that is not found. *)
Lemma analyzeAction_connect_failure_witness :
  fst (Cli.analyzeAction (rt := Json.runtime) (host := host)
         "/invalid/server" []
         (mkState (unreachable (mock_world (inr "{}"))) [])) =
  [Cli.StdOut "Analyzing MCP server...";
   Cli.StdOut "Server: /invalid/server";
   Cli.StdOut "";
   Cli.StdErr "Error analyzing server:";
   Cli.StdErr "Failed to connect to MCP server: spawn ENOENT";
   Cli.StdErr "";
   Cli.StdErr "Make sure the server path is correct and the server is executable.";
   Cli.StdErr "You may need to build the server or install its dependencies first."].
Proof.
  refine (f_equal fst
            (analyzeAction_connect_failure (rt := Json.runtime) (host := host)
               "/invalid/server" []
               (mkState (unreachable (mock_world (inr "{}"))) [])
               "sk-test" (Err "spawn ENOENT") _
               eq_refl eq_refl _ eq_refl eq_refl)).
  discriminate.
Defined.

(** [serve] on a relative path to a file that does not exist. *)
Lemma serveAction_load_failure_witness :
  snd (Cli.serveAction (rt := Json.runtime) (host := host)
         posix_isAbsolute posix_resolve "./configs/missing.json"
         (mkState (mock_world (inr "{}")) [])) =
  mkState (mock_world (inr "{}"))
          [EReadFile "/work/configs/missing.json"; EExit 1].
Proof.
  refine (f_equal snd
            (serveAction_load_failure (rt := Json.runtime) (host := host)
               posix_isAbsolute posix_resolve "./configs/missing.json"
               (mkState (mock_world (inr "{}")) [])
               "sk-test" "ENOENT: no such file or directory" _
               eq_refl _ eq_refl eq_refl)).
  discriminate.
Defined.

(** A line of arguments with a double space and a trailing space. *)
Lemma server_args_round_trip_witness :
  Installer.server_args "--config  server.json " =
    ["--config"%string; "server.json"%string] /\
  Installer.server_args (join " " ["--config"%string; "server.json"%string]) =
    ["--config"%string; "server.json"%string].
Proof.
  split; [reflexivity |].
  refine (proj2 (server_args_round_trip "--config  server.json "
                   ["--config"%string; "server.json"%string] _)).
  repeat constructor.
Defined.

(** The registration for VS Code of the descriptor of the unit tests:
    the entry is keyed by the name of its entry point. *)
Lemma agent_registrations_witness :
  td_name (Wrapper.createExpertTool validConfig) = "test-expert"%string /\
  trace (snd (Installer.configureVSCode (rt := Json.runtime) (host := host)
                posix_relative "/work/configs/test-expert.json"
                (mkState (write "/work/configs/test-expert.json"
                            (Json.stringify (descriptor_document validConfig))
                            (mock_world (inr "{}"))) []))) =
  [EMkdir "/work/.vscode"; EReadFile "/work/configs/test-expert.json";
   EWriteFile "/work/.vscode/mcp.json"
     (Json.stringify
        (VObj [("servers",
                VObj [("test-expert",
                       Installer.registration ["mcp-context-saver"; "serve"]
                         "configs/test-expert.json"
                         "${env:OPENAI_API_KEY}")])]))].
Proof.
  split; [reflexivity |].
  destruct (Installer.configureVSCode (rt := Json.runtime) (host := host)
              posix_relative "/work/configs/test-expert.json"
              (mkState (write "/work/configs/test-expert.json"
                          (Json.stringify (descriptor_document validConfig))
                          (mock_world (inr "{}"))) []))
    as [[e | u] st'] eqn:H.
  - vm_compute in H. discriminate H.
  - destruct (proj1 (proj1 (agent_registrations posix_relative _ _ _ u)) H)
      as (u1 & w1 & text & w2 & doc & serverName & w3 &
          Hmk & Hrd & Hp & Hn & _ & Hst).
    cbn [snd]. rewrite Hst. cbn [trace].
    vm_compute in Hmk. inversion Hmk; subst w1.
    vm_compute in Hrd. inversion Hrd; subst text w2.
    vm_compute in Hp. inversion Hp; subst doc.
    vm_compute in Hn. inversion Hn; subst serverName.
    vm_compute. reflexivity.
Defined.
